(** * Drive-backend file synchronisation: local-to-remote syncer and sync engine

    A shallow embedding of
    [chrome/browser/sync_file_system/drive_backend/local_to_remote_syncer.cc]
    and of the service-state and change-listing logic of
    [chrome/browser/sync_file_system/drive_backend/sync_engine.cc].

    The syncer is a chain of completion callbacks.  Each C++ member function
    becomes a function on the task's world (the syncer's members, the
    metadata database and the record of calls made to the collaborators);
    a bound callback becomes a function value, and the token of the task
    is handed along the chain as the C++ code hands it.  The collaborators
    whose implementation lies outside these two files (metadata database,
    Drive service, Drive uploader, folder creator) are interfaces: records
    of operations, the way the C++ code sees them through pointers. *)

From Stdlib Require Import ZArith List String Bool Lia.
Import ListNotations.
Open Scope string_scope.
Open Scope list_scope.
Open Scope Z_scope.

Set Implicit Arguments.

(** ** Shared status and data types *)

(** Modelled from the spec: the [SyncStatusCode] enumeration (its header
    [sync_status_code.h] is not among the sources).  The enumerators are
    those the two files name; [SYNC_STATUS_OTHER] stands for every
    enumerator they never mention, told apart by its numeric value. *)
Inductive SyncStatusCode : Type :=
| SYNC_STATUS_OK
| SYNC_STATUS_FAILED
| SYNC_STATUS_RETRY
| SYNC_STATUS_FILE_BUSY
| SYNC_STATUS_UNKNOWN_ORIGIN
| SYNC_STATUS_NO_CHANGE_TO_SYNC
| SYNC_STATUS_AUTHENTICATION_FAILED
| SYNC_STATUS_ACCESS_FORBIDDEN
| SYNC_STATUS_SERVICE_TEMPORARILY_UNAVAILABLE
| SYNC_STATUS_NETWORK_ERROR
| SYNC_STATUS_ABORT
| SYNC_DATABASE_ERROR_CORRUPTION
| SYNC_DATABASE_ERROR_IO_ERROR
| SYNC_DATABASE_ERROR_FAILED
| SYNC_FILE_ERROR_NOT_FOUND
| SYNC_STATUS_OTHER (code : Z).

(** [status == SYNC_STATUS_OK] *)
Definition is_status_ok (status : SyncStatusCode) : bool :=
  match status with SYNC_STATUS_OK => true | _ => false end.

(** Modelled from the spec: [google_apis::GDataErrorCode] (declared outside
    these sources).  An error code is an integer; the four codes used below
    carry their HTTP numbers. *)
Definition GDataErrorCode : Type := Z.
Definition HTTP_SUCCESS : GDataErrorCode := 200.
Definition HTTP_NOT_FOUND : GDataErrorCode := 404.
Definition HTTP_CONFLICT : GDataErrorCode := 409.
Definition HTTP_PRECONDITION : GDataErrorCode := 412.

(** Modelled from the spec: the syncer's output [sync_action]
    ([None | Added | Updated | Deleted]). *)
Inductive SyncAction : Type :=
| SYNC_ACTION_NONE
| SYNC_ACTION_ADDED
| SYNC_ACTION_UPDATED
| SYNC_ACTION_DELETED.

(** Modelled from the spec: the kinds of a local entry; [UNKNOWN] is what the
    local metadata reports for a file that does not exist. *)
Inductive SyncFileType : Type :=
| SYNC_FILE_TYPE_UNKNOWN
| SYNC_FILE_TYPE_FILE
| SYNC_FILE_TYPE_DIRECTORY.

Inductive ChangeType : Type :=
| FILE_CHANGE_ADD_OR_UPDATE
| FILE_CHANGE_DELETE.

(** Modelled from the spec: a local change, "add, update, or delete of a file
    or folder" ([file_change.h] is not among the sources); the four
    predicates are the accessors the syncer calls. *)
Record FileChange : Type := {
  change : ChangeType;
  file_type : SyncFileType
}.

Definition IsAddOrUpdate (c : FileChange) : bool :=
  match change c with FILE_CHANGE_ADD_OR_UPDATE => true | _ => false end.
Definition IsDelete (c : FileChange) : bool :=
  match change c with FILE_CHANGE_DELETE => true | _ => false end.
Definition IsFile (c : FileChange) : bool :=
  match file_type c with SYNC_FILE_TYPE_FILE => true | _ => false end.
Definition IsDirectory (c : FileChange) : bool :=
  match file_type c with SYNC_FILE_TYPE_DIRECTORY => true | _ => false end.

Record SyncFileMetadata : Type := {
  metadata_file_type : SyncFileType
}.

(** A virtual path is the list of its components; the empty list is the
    scope's root (and [base::FilePath::empty()]). *)
Definition FilePath : Type := list string.

Fixpoint FilePath_eqb (p q : FilePath) : bool :=
  match p, q with
  | [], [] => true
  | a :: p', b :: q' => String.eqb a b && FilePath_eqb p' q'
  | _, _ => false
  end.

(** [parent.AppendRelativePath(child, &out)] with [out] empty beforehand:
    fails unless [parent] is a strict prefix of [child], else yields the
    components of [child] below [parent]. *)
Fixpoint AppendRelativePath (parent child : FilePath) : option FilePath :=
  match parent, child with
  | [], [] => None
  | [], _ :: _ => Some child
  | _ :: _, [] => None
  | a :: parent', b :: child' =>
      if String.eqb a b then AppendRelativePath parent' child' else None
  end.

(** [empty()] of a path or of a vector. *)
Definition empty {A : Type} (l : list A) : bool :=
  match l with [] => true | _ :: _ => false end.

(** [fileapi::VirtualPath::GetComponents] and [BaseName], [FilePath::Append]. *)
Definition GetComponents (p : FilePath) : list string := p.
Definition BaseName (p : FilePath) : string := last p "".
Definition Append (p : FilePath) (component : string) : FilePath :=
  p ++ [component].

Record FileSystemURL : Type := {
  origin_host : string;
  path : FilePath;
  is_valid : bool
}.

Inductive FileKind : Type :=
| FILE_KIND_UNSUPPORTED
| FILE_KIND_FILE
| FILE_KIND_FOLDER.

Definition FileKind_eqb (a b : FileKind) : bool :=
  match a, b with
  | FILE_KIND_UNSUPPORTED, FILE_KIND_UNSUPPORTED
  | FILE_KIND_FILE, FILE_KIND_FILE
  | FILE_KIND_FOLDER, FILE_KIND_FOLDER => true
  | _, _ => false
  end.

(** Modelled from the spec: the synced snapshot of a tracker ("title, kind,
    content hash, version tag, missing flag") with the parent file ids of
    the remote metadata. *)
Record FileDetails : Type := {
  parent_folder_ids : list string;
  title : string;
  file_kind : FileKind;
  md5 : string;
  etag : string;
  missing : bool
}.

(** Modelled from the spec: a tracker, with the attributes of the data model
    that the syncer reads. *)
Record FileTracker : Type := {
  tracker_id : Z;
  parent_tracker_id : Z;
  file_id : string;
  active : bool;
  dirty : bool;
  has_synced_details : bool;
  synced_details : FileDetails
}.

Record FileMetadata : Type := {
  metadata_file_id : string;
  details : FileDetails
}.

(** The remote object a Drive call hands back ([google_apis::FileResource]):
    opaque to the syncer, which passes it on to the metadata database. *)
Record FileResource : Type := {
  resource_file_id : string;
  resource_title : string;
  resource_parents : list string;
  resource_md5 : string;
  resource_etag : string;
  resource_is_directory : bool
}.

(** Modelled from the spec: [HasFileAsParent] of [drive_backend_util]
    ("same parent"): the file id is among the parent ids of the details. *)
Definition HasFileAsParent (details : FileDetails) (file_id : string) : bool :=
  existsb (String.eqb file_id) (parent_folder_ids details).

(** ** The collaborators, as the syncer sees them *)

(** The metadata database.  [DB] is the type of its states; an operation that
    writes takes the state it finds and returns the state it leaves together
    with the status its completion callback receives. *)
Module MetadataDatabase.

Inductive ActivationStatus (DB : Type) : Type :=
| ACTIVATION_PENDING (db' : DB) (callback_status : SyncStatusCode)
| ACTIVATION_FAILED_ANOTHER_ACTIVE_TRACKER (db' : DB).

Record Interface (DB : Type) : Type := {
  FindNearestActiveAncestor :
    DB -> string -> FilePath -> option (FileTracker * FilePath);
  FindTrackerByTrackerID : DB -> Z -> option FileTracker;
  FindFileByFileID : DB -> string -> option FileMetadata;
  UpdateTracker : DB -> Z -> FileDetails -> DB * SyncStatusCode;
  UpdateByDeletedRemoteFile : DB -> string -> DB * SyncStatusCode;
  UpdateByFileResource : DB -> FileResource -> DB * SyncStatusCode;
  ReplaceActiveTrackerWithNewResource :
    DB -> Z -> FileResource -> DB * SyncStatusCode;
  TryActivateTracker : DB -> Z -> string -> ActivationStatus DB
}.

End MetadataDatabase.

(** The Drive service: the answer of the server to each request. *)
Module DriveService.

Record Interface : Type := {
  DeleteResource : string -> string -> GDataErrorCode;
  GetFileResource : string -> GDataErrorCode * option FileResource;
  RemoveResourceFromDirectory : string -> string -> GDataErrorCode
}.

End DriveService.

Module DriveUploader.

Record Interface : Type := {
  UploadNewFile :
    string -> FilePath -> string -> string ->
    GDataErrorCode * option FileResource;
  UploadExistingFile :
    string -> FilePath -> string -> string ->
    GDataErrorCode * option FileResource
}.

End DriveUploader.

(** [SyncEngineContext]: the three pointers the syncer reaches its
    collaborators through; each may be null. *)
Record SyncEngineContext (DB : Type) : Type := {
  GetDriveService : option DriveService.Interface;
  GetDriveUploader : option DriveUploader.Interface;
  GetMetadataDatabase : option DB
}.

(** Functions and classes of the repository that the syncer calls and whose
    definitions are not among the sources; they are parameters of the model. *)
Record Externals (DB : Type) : Type := {
  metadata_database_class : MetadataDatabase.Interface DB;
  GDataErrorCodeToSyncStatusCode : GDataErrorCode -> SyncStatusCode;
  GetMimeTypeFromTitle : string -> string;
  GetMd5Digest : FilePath -> string;
  (* FolderCreator(drive_service, metadata_database, parent_id, title).Run:
     the database it leaves, the id of the folder and the status *)
  FolderCreator_Run : DB -> string -> string -> DB * (string * SyncStatusCode)
}.

(** ** The record of calls

    Every call to a collaborator, in the order made, with what it answered. *)
Module Call.

Inductive ActivationReply : Type :=
| Pending (callback_status : SyncStatusCode)
| FailedAnotherActiveTracker.

Inductive t : Type :=
| FindNearestActiveAncestor
    (app_id : string) (p : FilePath) (found : option (FileTracker * FilePath))
| FindTrackerByTrackerID (id : Z) (found : option FileTracker)
| FindFileByFileID (file : string) (found : option FileMetadata)
| UpdateTracker (id : Z) (d : FileDetails) (status : SyncStatusCode)
| UpdateByDeletedRemoteFile (file : string) (status : SyncStatusCode)
| UpdateByFileResource (entry : FileResource) (status : SyncStatusCode)
| ReplaceActiveTrackerWithNewResource
    (parent_tracker : Z) (entry : FileResource) (status : SyncStatusCode)
| TryActivateTracker (parent_tracker : Z) (file : string)
    (reply : ActivationReply)
| DeleteResource (file version_tag : string) (error : GDataErrorCode)
| GetFileResource (file : string)
    (error : GDataErrorCode) (entry : option FileResource)
| RemoveResourceFromDirectory (parent file : string) (error : GDataErrorCode)
| UploadNewFile (parent : string) (local_path : FilePath)
    (title mime_type : string)
    (error : GDataErrorCode) (entry : option FileResource)
| UploadExistingFile (file : string) (local_path : FilePath)
    (version_tag : string)
    (error : GDataErrorCode) (entry : option FileResource)
| GetMd5Digest (local_path : FilePath) (digest : string)
| FolderCreatorRun (parent title : string)
    (file : string) (status : SyncStatusCode).

(** Requests that change the remote tree. *)
Definition is_remote_mutation (c : t) : bool :=
  match c with
  | DeleteResource _ _ _ | RemoveResourceFromDirectory _ _ _
  | UploadNewFile _ _ _ _ _ _ | UploadExistingFile _ _ _ _ _
  | FolderCreatorRun _ _ _ _ => true
  | _ => false
  end.

(** Calls that write to the metadata database. *)
Definition is_store_mutation (c : t) : bool :=
  match c with
  | UpdateTracker _ _ _ | UpdateByDeletedRemoteFile _ _
  | UpdateByFileResource _ _ | ReplaceActiveTrackerWithNewResource _ _ _
  | TryActivateTracker _ _ _ | FolderCreatorRun _ _ _ _ => true
  | _ => false
  end.

Definition is_delete (c : t) : bool :=
  match c with DeleteResource _ _ _ => true | _ => false end.

Definition is_upload (c : t) : bool :=
  match c with
  | UploadNewFile _ _ _ _ _ _ | UploadExistingFile _ _ _ _ _ => true
  | _ => false
  end.

End Call.

(** ** The local-to-remote syncer ([local_to_remote_syncer.cc]) *)
Module LocalToRemoteSyncer.

(** Modelled from the spec: the token of the running task, "a capability
    representing the exclusive right to continue the currently running
    task" ([sync_task_token.h] is not among the sources).  A
    [scoped_ptr<SyncTaskToken>] is an [option]; [None] is the null pointer. *)
Inductive SyncTaskToken : Type := TaskToken.

(** [token.Pass()]: the pointer that is handed on, and the null pointer the
    variable [token] holds from then on. *)
Definition Pass (token : option SyncTaskToken)
    : option SyncTaskToken * option SyncTaskToken :=
  (token, None).

(** What [SyncTaskManager::NotifyTaskDone(token, status)] is handed: the
    pointer to the token, by which the task manager takes the exclusive
    right back, and the result of the task. *)
Record TaskDone : Type := {
  done_token : option SyncTaskToken;
  done_status : SyncStatusCode
}.

(** The data members of the class (with [used_network] of its base
    [SyncTask]). *)
Record Members : Type := {
  local_change_ : FileChange;
  local_is_missing_ : bool;
  local_path_ : FilePath;
  url_ : FileSystemURL;
  sync_action_ : SyncAction;
  remote_file_tracker_ : option FileTracker;
  remote_parent_folder_tracker_ : option FileTracker;
  target_path_ : FilePath;
  needs_remote_change_listing_ : bool;
  used_network_ : bool
}.

Definition IsLocalFileMissing
    (local_metadata : SyncFileMetadata) (local_change : FileChange) : bool :=
  match metadata_file_type local_metadata with
  | SYNC_FILE_TYPE_UNKNOWN => true
  | _ => false
  end || IsDelete local_change.

(** The constructor. *)
Definition New (local_metadata : SyncFileMetadata) (local_change : FileChange)
    (local_path : FilePath) (url : FileSystemURL) : Members :=
  {| local_change_ := local_change;
     local_is_missing_ := IsLocalFileMissing local_metadata local_change;
     local_path_ := local_path;
     url_ := url;
     sync_action_ := SYNC_ACTION_NONE;
     remote_file_tracker_ := None;
     remote_parent_folder_tracker_ := None;
     target_path_ := [];
     needs_remote_change_listing_ := false;
     used_network_ := false |}.

Definition set_sync_action (a : SyncAction) (m : Members) : Members :=
  {| local_change_ := local_change_ m;
     local_is_missing_ := local_is_missing_ m;
     local_path_ := local_path_ m;
     url_ := url_ m;
     sync_action_ := a;
     remote_file_tracker_ := remote_file_tracker_ m;
     remote_parent_folder_tracker_ := remote_parent_folder_tracker_ m;
     target_path_ := target_path_ m;
     needs_remote_change_listing_ := needs_remote_change_listing_ m;
     used_network_ := used_network_ m |}.

Definition set_remote_file_tracker (t : option FileTracker) (m : Members)
    : Members :=
  {| local_change_ := local_change_ m;
     local_is_missing_ := local_is_missing_ m;
     local_path_ := local_path_ m;
     url_ := url_ m;
     sync_action_ := sync_action_ m;
     remote_file_tracker_ := t;
     remote_parent_folder_tracker_ := remote_parent_folder_tracker_ m;
     target_path_ := target_path_ m;
     needs_remote_change_listing_ := needs_remote_change_listing_ m;
     used_network_ := used_network_ m |}.

Definition set_remote_parent_folder_tracker (t : option FileTracker)
    (m : Members) : Members :=
  {| local_change_ := local_change_ m;
     local_is_missing_ := local_is_missing_ m;
     local_path_ := local_path_ m;
     url_ := url_ m;
     sync_action_ := sync_action_ m;
     remote_file_tracker_ := remote_file_tracker_ m;
     remote_parent_folder_tracker_ := t;
     target_path_ := target_path_ m;
     needs_remote_change_listing_ := needs_remote_change_listing_ m;
     used_network_ := used_network_ m |}.

Definition set_target_path (p : FilePath) (m : Members) : Members :=
  {| local_change_ := local_change_ m;
     local_is_missing_ := local_is_missing_ m;
     local_path_ := local_path_ m;
     url_ := url_ m;
     sync_action_ := sync_action_ m;
     remote_file_tracker_ := remote_file_tracker_ m;
     remote_parent_folder_tracker_ := remote_parent_folder_tracker_ m;
     target_path_ := p;
     needs_remote_change_listing_ := needs_remote_change_listing_ m;
     used_network_ := used_network_ m |}.

Definition set_needs_remote_change_listing (b : bool) (m : Members)
    : Members :=
  {| local_change_ := local_change_ m;
     local_is_missing_ := local_is_missing_ m;
     local_path_ := local_path_ m;
     url_ := url_ m;
     sync_action_ := sync_action_ m;
     remote_file_tracker_ := remote_file_tracker_ m;
     remote_parent_folder_tracker_ := remote_parent_folder_tracker_ m;
     target_path_ := target_path_ m;
     needs_remote_change_listing_ := b;
     used_network_ := used_network_ m |}.

Definition set_used_network (b : bool) (m : Members) : Members :=
  {| local_change_ := local_change_ m;
     local_is_missing_ := local_is_missing_ m;
     local_path_ := local_path_ m;
     url_ := url_ m;
     sync_action_ := sync_action_ m;
     remote_file_tracker_ := remote_file_tracker_ m;
     remote_parent_folder_tracker_ := remote_parent_folder_tracker_ m;
     target_path_ := target_path_ m;
     needs_remote_change_listing_ := needs_remote_change_listing_ m;
     used_network_ := b |}.

Section Task.

Variable DB : Type.
Variable ext : Externals DB.

(** What a running task can read and write: its own members, the context
    with the current state of the metadata database, and the calls made
    so far. *)
Record World : Type := {
  this : Members;
  context_ : SyncEngineContext DB;
  calls : list Call.t
}.

(** A step of the task.  [None]: the C++ code dereferences a null
    pointer there. *)
Definition Task (A : Type) : Type := World -> option (A * World).

Definition ret {A : Type} (a : A) : Task A := fun w => Some (a, w).

Definition bind {A B : Type} (m : Task A) (k : A -> Task B) : Task B :=
  fun w => match m w with
           | Some (a, w') => k a w'
           | None => None
           end.

Notation "x <- m ;; k" := (bind m (fun x => k))
  (at level 61, m at next level, right associativity).
Notation "m ;; k" := (bind m (fun _ => k))
  (at level 61, right associativity).

Definition get_this : Task Members := fun w => Some (this w, w).

Definition modify (f : Members -> Members) : Task unit :=
  fun w => Some (tt, {| this := f (this w);
                        context_ := context_ w;
                        calls := calls w |}).

Definition record (c : Call.t) : Task unit :=
  fun w => Some (tt, {| this := this w;
                        context_ := context_ w;
                        calls := calls w ++ [c] |}).

Definition deref {A : Type} (pointer : option A) : Task A :=
  fun w => match pointer with
           | Some a => Some (a, w)
           | None => None
           end.

(** The state the metadata database is left in by a writing call. *)
Definition store (d : DB) : Task unit :=
  fun w => Some (tt, {| this := this w;
                        context_ :=
                          {| GetDriveService := GetDriveService (context_ w);
                             GetDriveUploader := GetDriveUploader (context_ w);
                             GetMetadataDatabase := Some d |};
                        calls := calls w |}).

Definition IsContextReady (w : World) : bool :=
  match GetDriveService (context_ w), GetDriveUploader (context_ w),
        GetMetadataDatabase (context_ w) with
  | Some _, Some _, Some _ => true
  | _, _, _ => false
  end.

Definition drive_service : Task DriveService.Interface :=
  modify (set_used_network true) ;;
  fun w => deref (GetDriveService (context_ w)) w.

Definition drive_uploader : Task DriveUploader.Interface :=
  modify (set_used_network true) ;;
  fun w => deref (GetDriveUploader (context_ w)) w.

Definition metadata_database : Task DB :=
  fun w => deref (GetMetadataDatabase (context_ w)) w.

(** A status callback; the token that [base::Bind] puts into it with
    [base::Passed] is already inside. *)
Definition SyncStatusCallback : Type := SyncStatusCode -> Task TaskDone.

(** [SyncTaskManager::NotifyTaskDone(token, status)]: the task is over,
    [status] is its result and [token] is what the task manager gets
    back. *)
Definition NotifyTaskDone (token : option SyncTaskToken)
    (status : SyncStatusCode) : Task TaskDone :=
  ret {| done_token := token; done_status := status |}.

(** [token->RecordLog(...)]: the log itself is not modelled, the
    dereference of the token is. *)
Definition RecordLog (token : option SyncTaskToken) : Task unit :=
  _ <- deref token ;;
  ret tt.

(** Calls into the metadata database, each with the callback it is
    given. *)
Definition FindTrackerByID (id : Z) : Task (option FileTracker) :=
  md <- metadata_database ;;
  let found :=
    MetadataDatabase.FindTrackerByTrackerID
      (metadata_database_class ext) md id in
  record (Call.FindTrackerByTrackerID id found) ;;
  ret found.

Definition FindFileByFileID (file : string) : Task (option FileMetadata) :=
  md <- metadata_database ;;
  let found :=
    MetadataDatabase.FindFileByFileID (metadata_database_class ext) md file in
  record (Call.FindFileByFileID file found) ;;
  ret found.

Definition UpdateTracker (id : Z) (d : FileDetails)
    (callback : SyncStatusCallback) : Task TaskDone :=
  md <- metadata_database ;;
  let '(md', status) :=
    MetadataDatabase.UpdateTracker (metadata_database_class ext) md id d in
  store md' ;;
  record (Call.UpdateTracker id d status) ;;
  callback status.

Definition UpdateByDeletedRemoteFile (file : string)
    (callback : SyncStatusCallback) : Task TaskDone :=
  md <- metadata_database ;;
  let '(md', status) :=
    MetadataDatabase.UpdateByDeletedRemoteFile
      (metadata_database_class ext) md file in
  store md' ;;
  record (Call.UpdateByDeletedRemoteFile file status) ;;
  callback status.

Definition UpdateByFileResource (entry : FileResource)
    (callback : SyncStatusCallback) : Task TaskDone :=
  md <- metadata_database ;;
  let '(md', status) :=
    MetadataDatabase.UpdateByFileResource
      (metadata_database_class ext) md entry in
  store md' ;;
  record (Call.UpdateByFileResource entry status) ;;
  callback status.

Definition ReplaceActiveTrackerWithNewResource (parent_tracker : Z)
    (entry : FileResource) (callback : SyncStatusCallback)
    : Task TaskDone :=
  md <- metadata_database ;;
  let '(md', status) :=
    MetadataDatabase.ReplaceActiveTrackerWithNewResource
      (metadata_database_class ext) md parent_tracker entry in
  store md' ;;
  record (Call.ReplaceActiveTrackerWithNewResource
            parent_tracker entry status) ;;
  callback status.

Definition SyncCompleted (token : option SyncTaskToken)
    (status : SyncStatusCode) : Task TaskDone :=
  m <- get_this ;;
  let status :=
    if is_status_ok status
       && negb (FilePath_eqb (target_path_ m) (path (url_ m)))
    then SYNC_STATUS_RETRY else status in
  let status :=
    if needs_remote_change_listing_ m then SYNC_STATUS_FILE_BUSY
    else status in
  NotifyTaskDone token status.

Definition CompleteWithRetryStatus (token : option SyncTaskToken)
    (status : SyncStatusCode) : Task TaskDone :=
  let status := if is_status_ok status then SYNC_STATUS_RETRY else status in
  SyncCompleted token status.

Definition DidDeleteRemoteFile (callback : SyncStatusCallback)
    (error : GDataErrorCode) : Task TaskDone :=
  let status := GDataErrorCodeToSyncStatusCode ext error in
  if negb (is_status_ok status)
     && negb (error =? HTTP_NOT_FOUND)
     && negb (error =? HTTP_PRECONDITION)
     && negb (error =? HTTP_CONFLICT)
  then callback status
  else if error =? HTTP_NOT_FOUND then
    m <- get_this ;;
    tracker <- deref (remote_file_tracker_ m) ;;
    UpdateByDeletedRemoteFile (file_id tracker) callback
  else callback SYNC_STATUS_OK.

Definition DeleteRemoteFile (callback : SyncStatusCallback)
    : Task TaskDone :=
  modify (set_sync_action SYNC_ACTION_DELETED) ;;
  service <- drive_service ;;
  m <- get_this ;;
  tracker <- deref (remote_file_tracker_ m) ;;
  let error :=
    DriveService.DeleteResource service
      (file_id tracker) (etag (synced_details tracker)) in
  record (Call.DeleteResource
            (file_id tracker) (etag (synced_details tracker)) error) ;;
  DidDeleteRemoteFile callback error.

Definition DidGetRemoteMetadata (file : string)
    (token : option SyncTaskToken)
    (error : GDataErrorCode) (entry : option FileResource)
    : Task TaskDone :=
  if error =? HTTP_NOT_FOUND then
    UpdateByDeletedRemoteFile file (CompleteWithRetryStatus token)
  else
    let status := GDataErrorCodeToSyncStatusCode ext error in
    if negb (is_status_ok status) then SyncCompleted token status
    else match entry with
         | None => SyncCompleted token SYNC_STATUS_FAILED
         | Some e => UpdateByFileResource e (CompleteWithRetryStatus token)
         end.

Definition UpdateRemoteMetadata (file : string)
    (token : option SyncTaskToken) : Task TaskDone :=
  service <- drive_service ;;
  let '(error, entry) := DriveService.GetFileResource service file in
  record (Call.GetFileResource file error entry) ;;
  DidGetRemoteMetadata file token error entry.

Definition DidUpdateDatabaseForUploadExistingFile
    (token : option SyncTaskToken) (status : SyncStatusCode)
    : Task TaskDone :=
  if negb (is_status_ok status) then SyncCompleted token status
  else
    m <- get_this ;;
    tracker <- deref (remote_file_tracker_ m) ;;
    found <- FindFileByFileID (file_id tracker) ;;
    match found with
    | None => SyncCompleted token SYNC_STATUS_FAILED
    | Some file =>
        let d := details file in
        let base := BaseName (target_path_ m) in
        if negb (missing d)
           && FileKind_eqb (file_kind d) FILE_KIND_FILE
           && String.eqb (title d) base
        then
          parent <- deref (remote_parent_folder_tracker_ m) ;;
          if HasFileAsParent d (file_id parent)
          then UpdateTracker (tracker_id tracker) d (SyncCompleted token)
          else SyncCompleted token SYNC_STATUS_RETRY
        else SyncCompleted token SYNC_STATUS_RETRY
    end.

Definition DidUploadExistingFile (token : option SyncTaskToken)
    (error : GDataErrorCode) (entry : option FileResource)
    : Task TaskDone :=
  if (error =? HTTP_PRECONDITION)
     || (error =? HTTP_CONFLICT)
     || (error =? HTTP_NOT_FOUND)
  then
    modify (set_needs_remote_change_listing true) ;;
    m <- get_this ;;
    tracker <- deref (remote_file_tracker_ m) ;;
    UpdateRemoteMetadata (file_id tracker) token
  else
    let status := GDataErrorCodeToSyncStatusCode ext error in
    if negb (is_status_ok status) then SyncCompleted token status
    else match entry with
         | None => SyncCompleted token SYNC_STATUS_FAILED
         | Some e =>
             UpdateByFileResource e
               (DidUpdateDatabaseForUploadExistingFile token)
         end.

Definition DidGetMD5ForUpload (token : option SyncTaskToken)
    (local_file_md5 : string) : Task TaskDone :=
  m <- get_this ;;
  tracker <- deref (remote_file_tracker_ m) ;;
  if String.eqb local_file_md5 (md5 (synced_details tracker))
  then SyncCompleted token SYNC_STATUS_OK
  else
    modify (set_sync_action SYNC_ACTION_UPDATED) ;;
    let version_tag := etag (synced_details tracker) in
    uploader <- drive_uploader ;;
    let '(error, entry) :=
      DriveUploader.UploadExistingFile uploader
        (file_id tracker) (local_path_ m)
        "application/octet_stream" version_tag in
    record (Call.UploadExistingFile
              (file_id tracker) (local_path_ m) version_tag error entry) ;;
    DidUploadExistingFile token error entry.

Definition UploadExistingFile (token : option SyncTaskToken)
    : Task TaskDone :=
  m <- get_this ;;
  let digest := GetMd5Digest ext (local_path_ m) in
  record (Call.GetMd5Digest (local_path_ m) digest) ;;
  DidGetMD5ForUpload token digest.

Definition DidUploadNewFile (token : option SyncTaskToken)
    (error : GDataErrorCode) (entry : option FileResource)
    : Task TaskDone :=
  (if error =? HTTP_NOT_FOUND
   then modify (set_needs_remote_change_listing true)
   else ret tt) ;;
  let status := GDataErrorCodeToSyncStatusCode ext error in
  if negb (is_status_ok status) then SyncCompleted token status
  else match entry with
       | None => SyncCompleted token SYNC_STATUS_FAILED
       | Some e =>
           m <- get_this ;;
           parent <- deref (remote_parent_folder_tracker_ m) ;;
           ReplaceActiveTrackerWithNewResource
             (tracker_id parent) e (SyncCompleted token)
       end.

Definition UploadNewFile (token : option SyncTaskToken) : Task TaskDone :=
  modify (set_sync_action SYNC_ACTION_ADDED) ;;
  m <- get_this ;;
  let base := BaseName (target_path_ m) in
  uploader <- drive_uploader ;;
  parent <- deref (remote_parent_folder_tracker_ m) ;;
  let mime := GetMimeTypeFromTitle ext base in
  let '(error, entry) :=
    DriveUploader.UploadNewFile uploader
      (file_id parent) (local_path_ m) base mime in
  record (Call.UploadNewFile
            (file_id parent) (local_path_ m) base mime error entry) ;;
  DidUploadNewFile token error entry.

Definition DidDetachResourceForCreationConflict
    (token : option SyncTaskToken) (error : GDataErrorCode)
    : Task TaskDone :=
  let status := GDataErrorCodeToSyncStatusCode ext error in
  if negb (is_status_ok status) then SyncCompleted token status
  else SyncCompleted token SYNC_STATUS_RETRY.

(** The callback given to [TryActivateTracker] is bound with
    [base::Passed(token.Pass())], which empties [token]; the callback
    given to [RemoveResourceFromDirectory] afterwards is bound with
    [base::Passed(&token)], the emptied pointer.  The database runs the
    first callback only when it answers [ACTIVATION_PENDING]. *)
Definition DidCreateRemoteFolder (token : option SyncTaskToken)
    (file : string) (status : SyncStatusCode) : Task TaskDone :=
  (match status with
   | SYNC_FILE_ERROR_NOT_FOUND =>
       modify (set_needs_remote_change_listing true)
   | _ => ret tt
   end) ;;
  if negb (is_status_ok status) then SyncCompleted token status
  else
    m <- get_this ;;
    md <- metadata_database ;;
    parent <- deref (remote_parent_folder_tracker_ m) ;;
    let '(passed, token) := Pass token in
    match MetadataDatabase.TryActivateTracker
            (metadata_database_class ext) md (tracker_id parent) file with
    | MetadataDatabase.ACTIVATION_PENDING md' callback_status =>
        store md' ;;
        record (Call.TryActivateTracker (tracker_id parent) file
                  (Call.Pending callback_status)) ;;
        SyncCompleted passed callback_status
    | MetadataDatabase.ACTIVATION_FAILED_ANOTHER_ACTIVE_TRACKER md' =>
        store md' ;;
        record (Call.TryActivateTracker (tracker_id parent) file
                  Call.FailedAnotherActiveTracker) ;;
        service <- drive_service ;;
        let error :=
          DriveService.RemoveResourceFromDirectory service
            (file_id parent) file in
        record (Call.RemoveResourceFromDirectory
                  (file_id parent) file error) ;;
        DidDetachResourceForCreationConflict token error
    end.

Definition CreateRemoteFolder (token : option SyncTaskToken)
    : Task TaskDone :=
  m <- get_this ;;
  let base := BaseName (target_path_ m) in
  modify (set_sync_action SYNC_ACTION_ADDED) ;;
  _ <- drive_service ;;
  md <- metadata_database ;;
  parent <- deref (remote_parent_folder_tracker_ m) ;;
  let '(md', (file, status)) :=
    FolderCreator_Run ext md (file_id parent) base in
  store md' ;;
  record (Call.FolderCreatorRun (file_id parent) base file status) ;;
  DidCreateRemoteFolder token file status.

Definition HandleExistingRemoteFile (token : option SyncTaskToken)
    : Task TaskDone :=
  m <- get_this ;;
  if local_is_missing_ m then
    (* Local file deletion for existing remote file. *)
    DeleteRemoteFile (SyncCompleted token)
  else
    tracker <- deref (remote_file_tracker_ m) ;;
    let synced := synced_details tracker in
    if IsFile (local_change_ m) then
      if FileKind_eqb (file_kind synced) FILE_KIND_FILE
      then UploadExistingFile token
      else DeleteRemoteFile (CompleteWithRetryStatus token)
    else if FileKind_eqb (file_kind synced) FILE_KIND_FILE
    then DeleteRemoteFile (CompleteWithRetryStatus token)
    else SyncCompleted token SYNC_STATUS_OK.

Definition HandleConflict (token : option SyncTaskToken) : Task TaskDone :=
  m <- get_this ;;
  if local_is_missing_ m then SyncCompleted token SYNC_STATUS_OK
  else if IsFile (local_change_ m) then UploadNewFile token
  else
    (* Check if we can reuse the remote folder. *)
    tracker <- deref (remote_file_tracker_ m) ;;
    found <- FindFileByFileID (file_id tracker) ;;
    match found with
    | None => CreateRemoteFolder token
    | Some remote_file_metadata =>
        let remote_details := details remote_file_metadata in
        let base := BaseName (target_path_ m) in
        if negb (missing remote_details)
           && FileKind_eqb (file_kind remote_details) FILE_KIND_FOLDER
           && String.eqb (title remote_details) base
        then
          parent <- deref (remote_parent_folder_tracker_ m) ;;
          if HasFileAsParent remote_details (file_id parent)
          then UpdateTracker (tracker_id tracker) remote_details
                 (SyncCompleted token)
          else CreateRemoteFolder token
        else CreateRemoteFolder token
    end.

(** The components of the target below the nearest active ancestor;
    [None] on the branch the code marks as not reached. *)
Definition missing_entries_of (active_ancestor_path p : FilePath)
    : option FilePath :=
  if empty active_ancestor_path then Some p
  else if negb (FilePath_eqb active_ancestor_path p)
  then AppendRelativePath active_ancestor_path p
  else Some [].

Definition RunExclusive (token : option SyncTaskToken) : Task TaskDone :=
  fun w =>
  if negb (IsContextReady w) then
    (RecordLog token ;;
     NotifyTaskDone token SYNC_STATUS_FAILED) w
  else
  (RecordLog token ;;
   m <- get_this ;;
   if local_is_missing_ m && negb (IsDelete (local_change_ m)) then
     (* Stray file, we can just return. *)
     RecordLog token ;;
     NotifyTaskDone token SYNC_STATUS_OK
   else
     let app_id := origin_host (url_ m) in
     let p := path (url_ m) in
     md <- metadata_database ;;
     let found :=
       MetadataDatabase.FindNearestActiveAncestor
         (metadata_database_class ext) md app_id p in
     record (Call.FindNearestActiveAncestor app_id p found) ;;
     match found with
     | None =>
         (* The app is disabled or not registered. *)
         RecordLog token ;;
         NotifyTaskDone token SYNC_STATUS_UNKNOWN_ORIGIN
     | Some (active_ancestor_tracker, active_ancestor_path) =>
         let active_ancestor_details :=
           synced_details active_ancestor_tracker in
         match missing_entries_of active_ancestor_path p with
         | None =>
             RecordLog token ;;
             NotifyTaskDone token SYNC_STATUS_FAILED
         | Some missing_entries =>
             let missing_components := GetComponents missing_entries in
             if negb (empty missing_components) && local_is_missing_ m
             then
               (* Local file is deleted and remote file is missing,
                  already deleted or not yet synced. *)
               RecordLog token ;;
               NotifyTaskDone token SYNC_STATUS_OK
             else if (1 <? List.length missing_components)%nat then
               (* The original target doesn't have remote file and
                  parent.  Try creating the parent first. *)
               if FileKind_eqb (file_kind active_ancestor_details)
                    FILE_KIND_FOLDER
               then
                 modify (set_remote_parent_folder_tracker
                           (Some active_ancestor_tracker)) ;;
                 modify (set_target_path
                           (Append active_ancestor_path
                              (hd "" missing_components))) ;;
                 RecordLog token ;;
                 CreateRemoteFolder token
               else
                 parent <- FindTrackerByID
                             (parent_tracker_id active_ancestor_tracker) ;;
                 modify (set_remote_parent_folder_tracker parent) ;;
                 modify (set_remote_file_tracker
                           (Some active_ancestor_tracker)) ;;
                 modify (set_target_path active_ancestor_path) ;;
                 RecordLog token ;;
                 DeleteRemoteFile (CompleteWithRetryStatus token)
             else if empty missing_components then
               (* The original target has remote active file/folder. *)
               parent <- FindTrackerByID
                           (parent_tracker_id active_ancestor_tracker) ;;
               modify (set_remote_parent_folder_tracker parent) ;;
               modify (set_remote_file_tracker
                         (Some active_ancestor_tracker)) ;;
               modify (set_target_path p) ;;
               if dirty active_ancestor_tracker
               then
                 (* Both local and remote file has pending
                    modification. *)
                 RecordLog token ;;
                 HandleConflict token
               else
                 (* Non-conflicting file/folder update case. *)
                 HandleExistingRemoteFile token
             else
               (* The original target has remote parent folder and
                  doesn't have remote active file.  Upload the file as a
                  new file or create a folder. *)
               modify (set_remote_parent_folder_tracker
                         (Some active_ancestor_tracker)) ;;
               modify (set_target_path p) ;;
               RecordLog token ;;
               match file_type (local_change_ m) with
               | SYNC_FILE_TYPE_FILE => UploadNewFile token
               | _ => CreateRemoteFolder token
               end
         end
     end) w.

End Task.

(** A run of the task on a fresh syncer, with the pointer [token] to the
    task's token: [RunPreflight] asks for exclusive access and the task
    manager then calls [RunExclusive].  The result is what
    [NotifyTaskDone] is handed, and the world the task leaves. *)
Definition RunTask (DB : Type) (ext : Externals DB)
    (context : SyncEngineContext DB) (token : option SyncTaskToken)
    (local_metadata : SyncFileMetadata) (local_change : FileChange)
    (local_path : FilePath) (url : FileSystemURL)
    : option (TaskDone * World DB) :=
  RunExclusive ext token
    {| this := New local_metadata local_change local_path url;
       context_ := context;
       calls := [] |}.

(** A whole run of the task as the task manager starts it, with a token:
    the status that [NotifyTaskDone] is handed, and the world. *)
Definition Run (DB : Type) (ext : Externals DB) (context : SyncEngineContext DB)
    (local_metadata : SyncFileMetadata) (local_change : FileChange)
    (local_path : FilePath) (url : FileSystemURL)
    : option (SyncStatusCode * World DB) :=
  match RunTask ext context (Some TaskToken)
          local_metadata local_change local_path url with
  | Some (done, w) => Some (done_status done, w)
  | None => None
  end.

End LocalToRemoteSyncer.

(** ** The sync engine ([sync_engine.cc]): service state and change listing *)
Module SyncEngine.

(** Modelled from the spec: [RemoteServiceState],
    "Disabled | TemporarilyUnavailable | AuthenticationRequired | Ok". *)
Inductive RemoteServiceState : Type :=
| REMOTE_SERVICE_OK
| REMOTE_SERVICE_TEMPORARY_UNAVAILABLE
| REMOTE_SERVICE_AUTHENTICATION_REQUIRED
| REMOTE_SERVICE_DISABLED.

Definition RemoteServiceState_eqb (a b : RemoteServiceState) : bool :=
  match a, b with
  | REMOTE_SERVICE_OK, REMOTE_SERVICE_OK
  | REMOTE_SERVICE_TEMPORARY_UNAVAILABLE, REMOTE_SERVICE_TEMPORARY_UNAVAILABLE
  | REMOTE_SERVICE_AUTHENTICATION_REQUIRED,
    REMOTE_SERVICE_AUTHENTICATION_REQUIRED
  | REMOTE_SERVICE_DISABLED, REMOTE_SERVICE_DISABLED => true
  | _, _ => false
  end.

Inductive Priority : Type := PRIORITY_LOW | PRIORITY_MED | PRIORITY_HIGH.

Inductive SyncTaskKind : Type :=
| ListChangesTask
| ConflictResolver
| RegisterAppTask (app_id : string)
| SyncEngineInitializer.

(** What the engine asks of its [SyncTaskManager].  [ScheduleSyncTask]
    always queues the task; [ScheduleSyncTaskIfIdle] admits it only when
    no task runs, and says so. *)
Inductive Request : Type :=
| ScheduleSyncTask (task : SyncTaskKind) (priority : Priority)
| ScheduleSyncTaskIfIdle (task : SyncTaskKind) (admitted : bool).

(** What the engine tells its observers and callers.  A file status is
    always [SYNC_FILE_STATUS_SYNCED]; [OnFileStatusChanged] is the
    notification with [SYNC_DIRECTION_LOCAL_TO_REMOTE],
    [OnRemoteFileStatusChanged] the one with
    [SYNC_DIRECTION_REMOTE_TO_LOCAL].  [CallbackRun] is the run of a
    [SyncStatusCallback], [SyncFileCallbackRun] that of a
    [SyncFileCallback]. *)
Inductive Notification : Type :=
| OnRemoteServiceStateUpdated
    (state : RemoteServiceState) (description : string)
| OnFileStatusChanged (url : FileSystemURL) (action : SyncAction)
| OnRemoteChangeQueueUpdated
| CallbackRun (status : SyncStatusCode)
| OnRemoteFileStatusChanged (url : FileSystemURL) (action : SyncAction)
| SyncFileCallbackRun (status : SyncStatusCode) (url : FileSystemURL).

(** Modelled from the spec: the remote-to-local syncer, a "peer one-shot
    task ... specified only by its completion contract"
    ([remote_to_local_syncer.h] is not among the sources), as the three
    accessors the engine calls on a finished one. *)
Record RemoteToLocalSyncer : Type := {
  is_sync_root_deletion : bool;
  url : FileSystemURL;
  sync_action : SyncAction
}.

Record Members : Type := {
  service_state_ : RemoteServiceState;
  should_check_conflict_ : bool;
  should_check_remote_change_ : bool;
  listing_remote_changes_ : bool;
  sync_enabled_ : bool;
  time_to_check_changes_ : Z;
  network_available_ : bool
}.

Record World : Type := {
  this : Members;
  task_manager_ : list Request;
  notified : list Notification
}.

(** What a member function reads from outside the engine when it runs:
    the clock (in seconds), the Drive service's refresh token, whether the
    context holds a metadata database and whether that has a dirty
    tracker, whether the task manager is idle, whether a sign-in manager
    exists and whether a [RegisterAppTask] can finish immediately. *)
Record Ambient : Type := {
  Now : Z;
  HasRefreshToken : bool;
  HasMetadataDatabase : bool;
  HasDirtyTracker : bool;
  TaskManagerIdle : bool;
  HasSigninManager : bool;
  CanFinishImmediately : bool
}.

(** The constructor's initial values. *)
Definition New : World :=
  {| this := {| service_state_ := REMOTE_SERVICE_TEMPORARY_UNAVAILABLE;
                should_check_conflict_ := true;
                should_check_remote_change_ := true;
                listing_remote_changes_ := false;
                sync_enabled_ := false;
                time_to_check_changes_ := 0;
                network_available_ := false |};
     task_manager_ := [];
     notified := [] |}.

Definition with_this (f : Members -> Members) (w : World) : World :=
  {| this := f (this w);
     task_manager_ := task_manager_ w;
     notified := notified w |}.

Definition set_service_state (s : RemoteServiceState) : World -> World :=
  with_this (fun m =>
    {| service_state_ := s;
       should_check_conflict_ := should_check_conflict_ m;
       should_check_remote_change_ := should_check_remote_change_ m;
       listing_remote_changes_ := listing_remote_changes_ m;
       sync_enabled_ := sync_enabled_ m;
       time_to_check_changes_ := time_to_check_changes_ m;
       network_available_ := network_available_ m |}).

Definition set_should_check_conflict (b : bool) : World -> World :=
  with_this (fun m =>
    {| service_state_ := service_state_ m;
       should_check_conflict_ := b;
       should_check_remote_change_ := should_check_remote_change_ m;
       listing_remote_changes_ := listing_remote_changes_ m;
       sync_enabled_ := sync_enabled_ m;
       time_to_check_changes_ := time_to_check_changes_ m;
       network_available_ := network_available_ m |}).

Definition set_should_check_remote_change (b : bool) : World -> World :=
  with_this (fun m =>
    {| service_state_ := service_state_ m;
       should_check_conflict_ := should_check_conflict_ m;
       should_check_remote_change_ := b;
       listing_remote_changes_ := listing_remote_changes_ m;
       sync_enabled_ := sync_enabled_ m;
       time_to_check_changes_ := time_to_check_changes_ m;
       network_available_ := network_available_ m |}).

Definition set_listing_remote_changes (b : bool) : World -> World :=
  with_this (fun m =>
    {| service_state_ := service_state_ m;
       should_check_conflict_ := should_check_conflict_ m;
       should_check_remote_change_ := should_check_remote_change_ m;
       listing_remote_changes_ := b;
       sync_enabled_ := sync_enabled_ m;
       time_to_check_changes_ := time_to_check_changes_ m;
       network_available_ := network_available_ m |}).

Definition set_sync_enabled (b : bool) : World -> World :=
  with_this (fun m =>
    {| service_state_ := service_state_ m;
       should_check_conflict_ := should_check_conflict_ m;
       should_check_remote_change_ := should_check_remote_change_ m;
       listing_remote_changes_ := listing_remote_changes_ m;
       sync_enabled_ := b;
       time_to_check_changes_ := time_to_check_changes_ m;
       network_available_ := network_available_ m |}).

Definition set_time_to_check_changes (t : Z) : World -> World :=
  with_this (fun m =>
    {| service_state_ := service_state_ m;
       should_check_conflict_ := should_check_conflict_ m;
       should_check_remote_change_ := should_check_remote_change_ m;
       listing_remote_changes_ := listing_remote_changes_ m;
       sync_enabled_ := sync_enabled_ m;
       time_to_check_changes_ := t;
       network_available_ := network_available_ m |}).

Definition set_network_available (b : bool) : World -> World :=
  with_this (fun m =>
    {| service_state_ := service_state_ m;
       should_check_conflict_ := should_check_conflict_ m;
       should_check_remote_change_ := should_check_remote_change_ m;
       listing_remote_changes_ := listing_remote_changes_ m;
       sync_enabled_ := sync_enabled_ m;
       time_to_check_changes_ := time_to_check_changes_ m;
       network_available_ := b |}).

Definition request (r : Request) (w : World) : World :=
  {| this := this w;
     task_manager_ := task_manager_ w ++ [r];
     notified := notified w |}.

Definition notify (n : Notification) (w : World) : World :=
  {| this := this w;
     task_manager_ := task_manager_ w;
     notified := notified w ++ [n] |}.

Section Engine.

(** [kListChangesRetryDelaySeconds] of [drive_backend_constants.h]. *)
Variable kListChangesRetryDelaySeconds : Z.

Definition GetCurrentState (w : World) : RemoteServiceState :=
  if negb (sync_enabled_ (this w)) then REMOTE_SERVICE_DISABLED
  else service_state_ (this w).

Definition UpdateServiceState (state : RemoteServiceState)
    (description : string) (w : World) : World :=
  let old_state := GetCurrentState w in
  let w := set_service_state state w in
  if RemoteServiceState_eqb old_state (GetCurrentState w) then w
  else notify (OnRemoteServiceStateUpdated (GetCurrentState w) description) w.

Definition SetSyncEnabled (enabled : bool) (w : World) : World :=
  if Bool.eqb (sync_enabled_ (this w)) enabled then w
  else
    let old_state := GetCurrentState w in
    let w := set_sync_enabled enabled w in
    if RemoteServiceState_eqb old_state (GetCurrentState w) then w
    else
      notify (OnRemoteServiceStateUpdated (GetCurrentState w)
                (if enabled then "Sync is enabled" else "Sync is disabled"))
             w.

Definition UpdateServiceStateFromSyncStatusCode (a : Ambient)
    (status : SyncStatusCode) (used_network : bool) (w : World) : World :=
  match status with
  | SYNC_STATUS_OK =>
      if used_network then UpdateServiceState REMOTE_SERVICE_OK "" w
      else w
  (* Authentication error. *)
  | SYNC_STATUS_AUTHENTICATION_FAILED =>
      UpdateServiceState REMOTE_SERVICE_AUTHENTICATION_REQUIRED
        "Authentication required" w
  (* OAuth token error. *)
  | SYNC_STATUS_ACCESS_FORBIDDEN =>
      UpdateServiceState REMOTE_SERVICE_AUTHENTICATION_REQUIRED
        "Access forbidden" w
  (* Errors which could make the service temporarily unavailable. *)
  | SYNC_STATUS_SERVICE_TEMPORARILY_UNAVAILABLE
  | SYNC_STATUS_NETWORK_ERROR
  | SYNC_STATUS_ABORT
  | SYNC_STATUS_FAILED =>
      if HasRefreshToken a
      then UpdateServiceState REMOTE_SERVICE_TEMPORARY_UNAVAILABLE
             "Network or temporary service error." w
      else UpdateServiceState REMOTE_SERVICE_AUTHENTICATION_REQUIRED
             "Authentication required" w
  (* Errors which would require manual user intervention to resolve. *)
  | SYNC_DATABASE_ERROR_CORRUPTION
  | SYNC_DATABASE_ERROR_IO_ERROR
  | SYNC_DATABASE_ERROR_FAILED =>
      UpdateServiceState REMOTE_SERVICE_DISABLED
        "Unrecoverable database error" w
  (* Other errors don't affect service state *)
  | _ => w
  end.

Definition DidFetchChanges (status : SyncStatusCode) (w : World) : World :=
  let w := if is_status_ok status then set_should_check_conflict true w
           else w in
  set_listing_remote_changes false w.

Definition DidResolveConflict (status : SyncStatusCode) (w : World)
    : World :=
  if is_status_ok status then set_should_check_conflict true w else w.

Definition MaybeStartFetchChanges (a : Ambient) (w : World) : World :=
  if RemoteServiceState_eqb (GetCurrentState w) REMOTE_SERVICE_DISABLED
  then w
  else if negb (HasMetadataDatabase a) then w
  else if listing_remote_changes_ (this w) then w
  else
    let now := Now a in
    if negb (should_check_remote_change_ (this w))
       && (now <? time_to_check_changes_ (this w))
    then
      if negb (HasDirtyTracker a) && should_check_conflict_ (this w)
      then
        let w := set_should_check_conflict false w in
        request (ScheduleSyncTaskIfIdle ConflictResolver
                   (TaskManagerIdle a)) w
      else w
    else
      let w := request (ScheduleSyncTaskIfIdle ListChangesTask
                          (TaskManagerIdle a)) w in
      if TaskManagerIdle a then
        let w := set_should_check_remote_change false w in
        let w := set_listing_remote_changes true w in
        set_time_to_check_changes (now + kListChangesRetryDelaySeconds) w
      else w.

Definition MaybeScheduleNextTask (a : Ambient) (w : World) : World :=
  if RemoteServiceState_eqb (GetCurrentState w) REMOTE_SERVICE_DISABLED
  then w
  else MaybeStartFetchChanges a w.

Definition NotifyLastOperationStatus (a : Ambient)
    (sync_status : SyncStatusCode) (used_network : bool) (w : World)
    : World :=
  let w := UpdateServiceStateFromSyncStatusCode a sync_status used_network w in
  if HasMetadataDatabase a then notify OnRemoteChangeQueueUpdated w else w.

Definition OnNotificationReceived (a : Ambient) (w : World) : World :=
  let w :=
    match service_state_ (this w) with
    | REMOTE_SERVICE_TEMPORARY_UNAVAILABLE =>
        UpdateServiceState REMOTE_SERVICE_OK
          "Got push notification for Drive." w
    | _ => w
    end in
  let w := set_should_check_remote_change true w in
  MaybeScheduleNextTask a w.

Definition PostInitializeTask (w : World) : World :=
  request (ScheduleSyncTask SyncEngineInitializer PRIORITY_HIGH) w.

Definition OnReadyToSendRequests (a : Ambient) (w : World) : World :=
  match service_state_ (this w) with
  | REMOTE_SERVICE_OK => w
  | _ =>
      let w := UpdateServiceState REMOTE_SERVICE_OK "Authenticated" w in
      if negb (HasMetadataDatabase a) && HasSigninManager a
      then PostInitializeTask w
      else
        let w := set_should_check_remote_change true w in
        MaybeScheduleNextTask a w
  end.

Definition OnRefreshTokenInvalid (w : World) : World :=
  UpdateServiceState REMOTE_SERVICE_AUTHENTICATION_REQUIRED
    "Found invalid refresh token." w.

Definition OnNetworkChanged (a : Ambient) (new_network_availability : bool)
    (w : World) : World :=
  let w :=
    if network_available_ (this w) && negb new_network_availability
    then UpdateServiceState REMOTE_SERVICE_TEMPORARY_UNAVAILABLE
           "Disconnected" w
    else if negb (network_available_ (this w)) && new_network_availability
    then
      let w := UpdateServiceState REMOTE_SERVICE_OK "Connected" w in
      let w := set_should_check_remote_change true w in
      MaybeStartFetchChanges a w
    else w in
  set_network_available new_network_availability w.

(** [RegisterOrigin(origin, base::Bind(&EmptyStatusCallback))]: the
    callback discards the status it is given. *)
Definition RegisterOrigin (a : Ambient) (origin : string) (w : World)
    : World :=
  let w := if negb (HasMetadataDatabase a) && HasRefreshToken a
           then PostInitializeTask w else w in
  if CanFinishImmediately a then w
  else request (ScheduleSyncTask (RegisterAppTask origin) PRIORITY_HIGH) w.

Definition CreateSyncableFileSystemURL (origin : string) (p : FilePath)
    : FileSystemURL :=
  {| origin_host := origin; path := p; is_valid := true |}.

Definition DidApplyLocalChange (a : Ambient)
    (syncer : LocalToRemoteSyncer.Members) (status : SyncStatusCode)
    (w : World) : World :=
  let url := LocalToRemoteSyncer.url_ syncer in
  let w :=
    if (is_status_ok status
        || match status with SYNC_STATUS_RETRY => true | _ => false end)
       && is_valid url
       && match LocalToRemoteSyncer.sync_action_ syncer with
          | SYNC_ACTION_NONE => false
          | _ => true
          end
    then
      let updated_url :=
        if negb (empty (LocalToRemoteSyncer.target_path_ syncer))
        then CreateSyncableFileSystemURL (origin_host url)
               (LocalToRemoteSyncer.target_path_ syncer)
        else url in
      notify (OnFileStatusChanged updated_url
                (LocalToRemoteSyncer.sync_action_ syncer)) w
    else w in
  let w :=
    match status with
    | SYNC_STATUS_UNKNOWN_ORIGIN =>
        if is_valid url then RegisterOrigin a (origin_host url) w else w
    | _ => w
    end in
  let w :=
    if LocalToRemoteSyncer.needs_remote_change_listing_ syncer
       && negb (listing_remote_changes_ (this w))
    then
      let w := request (ScheduleSyncTask ListChangesTask PRIORITY_HIGH) w in
      let w := set_should_check_remote_change false w in
      let w := set_listing_remote_changes true w in
      set_time_to_check_changes (Now a + kListChangesRetryDelaySeconds) w
    else w in
  if negb (is_status_ok status)
     && negb match status with
             | SYNC_STATUS_NO_CHANGE_TO_SYNC => true
             | _ => false
             end
  then notify (CallbackRun status) w
  else
    let w := if is_status_ok status then set_should_check_conflict true w
             else w in
    notify (CallbackRun status) w.

(** [fileapi::VirtualPath::IsRootPath]: the path of a scope's root. *)
Definition IsRootPath (p : FilePath) : bool := empty p.

(** The completion of a remote-to-local syncer.  Clearing the metadata
    database shows in the [Ambient] of the calls that follow, which any
    call reads afresh. *)
Definition DidProcessRemoteChange (a : Ambient)
    (syncer : RemoteToLocalSyncer) (status : SyncStatusCode) (w : World)
    : World :=
  if is_sync_root_deletion syncer then
    let w := PostInitializeTask w in
    notify (SyncFileCallbackRun status (url syncer)) w
  else
    let w :=
      if is_status_ok status then
        let w :=
          if match sync_action syncer with
             | SYNC_ACTION_NONE => false
             | _ => true
             end
             && is_valid (url syncer)
          then notify (OnRemoteFileStatusChanged (url syncer)
                         (sync_action syncer)) w
          else w in
        let w :=
          if match sync_action syncer with
             | SYNC_ACTION_DELETED => true
             | _ => false
             end
             && is_valid (url syncer)
             && IsRootPath (path (url syncer))
          then RegisterOrigin a (origin_host (url syncer)) w
          else w in
        set_should_check_conflict true w
      else w in
    notify (SyncFileCallbackRun status (url syncer)) w.

(** *** The engine as a transition system

    The engine is driven by the calls of its owner, of the observers it
    registered as and of the task manager, which runs the completion
    callback of a task it was given. *)
Inductive Event : Type :=
| CallSetSyncEnabled (enabled : bool)
| CallMaybeScheduleNextTask (a : Ambient)
| CallMaybeStartFetchChanges (a : Ambient)
| CallNotifyLastOperationStatus (a : Ambient)
    (sync_status : SyncStatusCode) (used_network : bool)
| CallOnNotificationReceived (a : Ambient)
| CallOnReadyToSendRequests (a : Ambient)
| CallOnRefreshTokenInvalid
| CallOnNetworkChanged (a : Ambient) (new_network_availability : bool)
| CallRegisterOrigin (a : Ambient) (origin : string)
| LocalToRemoteSyncerDone (a : Ambient)
    (syncer : LocalToRemoteSyncer.Members) (status : SyncStatusCode)
| ConflictResolverDone (status : SyncStatusCode).

Definition handle (e : Event) (w : World) : World :=
  match e with
  | CallSetSyncEnabled enabled => SetSyncEnabled enabled w
  | CallMaybeScheduleNextTask a => MaybeScheduleNextTask a w
  | CallMaybeStartFetchChanges a => MaybeStartFetchChanges a w
  | CallNotifyLastOperationStatus a sync_status used_network =>
      NotifyLastOperationStatus a sync_status used_network w
  | CallOnNotificationReceived a => OnNotificationReceived a w
  | CallOnReadyToSendRequests a => OnReadyToSendRequests a w
  | CallOnRefreshTokenInvalid => OnRefreshTokenInvalid w
  | CallOnNetworkChanged a b => OnNetworkChanged a b w
  | CallRegisterOrigin a origin => RegisterOrigin a origin w
  | LocalToRemoteSyncerDone a syncer status =>
      DidApplyLocalChange a syncer status w
  | ConflictResolverDone status => DidResolveConflict status w
  end.

(** The change listings the task manager accepted. *)
Definition is_accepted_listing (r : Request) : bool :=
  match r with
  | ScheduleSyncTask ListChangesTask _ => true
  | ScheduleSyncTaskIfIdle ListChangesTask admitted => admitted
  | _ => false
  end.

Definition accepted_listings (w : World) : nat :=
  List.length (filter is_accepted_listing (task_manager_ w)).

(** [reachable w done]: the engine can be in [w] with [done] change
    listings completed.  A listing completes, and its callback
    [DidFetchChanges] runs, only if one was accepted and has not yet
    completed. *)
Inductive reachable : World -> nat -> Prop :=
| reachable_new : reachable New 0
| reachable_event : forall w done e,
    reachable w done -> reachable (handle e w) done
| reachable_listing_done : forall w done status,
    reachable w done ->
    (done < accepted_listings w)%nat ->
    reachable (DidFetchChanges status w) (S done).

(** The listings in flight: accepted and not yet completed. *)
Definition listings_in_flight (w : World) (done : nat) : nat :=
  (accepted_listings w - done)%nat.

End Engine.

End SyncEngine.

(** ** Test doubles

    An in-memory metadata store and canned Drive answers, used to run the
    syncer on concrete inputs. *)
Module InMemory.

(** Modelled from the spec: the metadata store ([metadata_database.cc] is
    not among the sources), after its consumed interface: trackers indexed
    by application and virtual path, and the remote metadata by file id. *)
Record Entry : Type := {
  entry_app : string;
  entry_path : FilePath;
  entry_tracker : FileTracker
}.

Record Store : Type := {
  trackers : list Entry;
  files : list FileMetadata;
  next_tracker_id : Z
}.

Definition active_at (app : string) (p : FilePath) (e : Entry) : bool :=
  String.eqb (entry_app e) app
  && FilePath_eqb (entry_path e) p
  && active (entry_tracker e).

(** The deepest prefix of [parent ++ rest] at or below [parent] that has
    an active tracker. *)
Fixpoint nearest (es : list Entry) (app : string) (parent rest : FilePath)
    : option (FileTracker * FilePath) :=
  let here :=
    match find (active_at app parent) es with
    | Some e => Some (entry_tracker e, parent)
    | None => None
    end in
  match rest with
  | [] => here
  | c :: rest' =>
      match nearest es app (parent ++ [c]) rest' with
      | Some r => Some r
      | None => here
      end
  end.

Definition find_nearest_active_ancestor (s : Store) (app : string)
    (p : FilePath) : option (FileTracker * FilePath) :=
  nearest (trackers s) app [] p.

Definition find_tracker_by_id (s : Store) (id : Z) : option FileTracker :=
  match find (fun e => tracker_id (entry_tracker e) =? id) (trackers s) with
  | Some e => Some (entry_tracker e)
  | None => None
  end.

Definition find_file_by_id (s : Store) (file : string) : option FileMetadata :=
  find (fun f => String.eqb (metadata_file_id f) file) (files s).

Definition map_trackers (f : FileTracker -> FileTracker) (s : Store) : Store :=
  {| trackers :=
       map (fun e => {| entry_app := entry_app e;
                        entry_path := entry_path e;
                        entry_tracker := f (entry_tracker e) |}) (trackers s);
     files := files s;
     next_tracker_id := next_tracker_id s |}.

Definition update_tracker (s : Store) (id : Z) (d : FileDetails)
    : Store * SyncStatusCode :=
  (map_trackers
     (fun t => if tracker_id t =? id
               then {| tracker_id := tracker_id t;
                       parent_tracker_id := parent_tracker_id t;
                       file_id := file_id t;
                       active := active t;
                       dirty := false;
                       has_synced_details := true;
                       synced_details := d |}
               else t) s,
   SYNC_STATUS_OK).

(** "Reflect the deletion in the metadata store": the trackers bound to
    the file and its metadata are dropped. *)
Definition update_by_deleted_remote_file (s : Store) (file : string)
    : Store * SyncStatusCode :=
  ({| trackers :=
        filter (fun e => negb (String.eqb (file_id (entry_tracker e)) file))
               (trackers s);
      files :=
        filter (fun f => negb (String.eqb (metadata_file_id f) file))
               (files s);
      next_tracker_id := next_tracker_id s |},
   SYNC_STATUS_OK).

Definition details_of_resource (r : FileResource) : FileDetails :=
  {| parent_folder_ids := resource_parents r;
     title := resource_title r;
     file_kind := if resource_is_directory r then FILE_KIND_FOLDER
                  else FILE_KIND_FILE;
     md5 := resource_md5 r;
     etag := resource_etag r;
     missing := false |}.

Definition put_file (r : FileResource) (fs : list FileMetadata)
    : list FileMetadata :=
  {| metadata_file_id := resource_file_id r;
     details := details_of_resource r |}
  :: filter (fun f => negb (String.eqb (metadata_file_id f)
                                       (resource_file_id r))) fs.

Definition update_by_file_resource (s : Store) (r : FileResource)
    : Store * SyncStatusCode :=
  ({| trackers := trackers s;
      files := put_file r (files s);
      next_tracker_id := next_tracker_id s |},
   SYNC_STATUS_OK).

(** A new tracker for [r] below the tracker [parent], active or not. *)
Definition add_tracker (s : Store) (parent : Z) (r : FileResource)
    (is_active : bool) : Store :=
  match find (fun e => tracker_id (entry_tracker e) =? parent) (trackers s) with
  | None => s
  | Some pe =>
      {| trackers :=
           trackers s ++
           [{| entry_app := entry_app pe;
               entry_path := entry_path pe ++ [resource_title r];
               entry_tracker :=
                 {| tracker_id := next_tracker_id s;
                    parent_tracker_id := parent;
                    file_id := resource_file_id r;
                    active := is_active;
                    dirty := false;
                    has_synced_details := true;
                    synced_details := details_of_resource r |} |}];
         files := put_file r (files s);
         next_tracker_id := next_tracker_id s + 1 |}
  end.

Definition same_slot (parent : Z) (name : string) (t : FileTracker) : bool :=
  (parent_tracker_id t =? parent)
  && String.eqb (title (synced_details t)) name.

Definition replace_active_tracker_with_new_resource (s : Store) (parent : Z)
    (r : FileResource) : Store * SyncStatusCode :=
  (add_tracker
     (map_trackers
        (fun t => if same_slot parent (resource_title r) t
                  then {| tracker_id := tracker_id t;
                          parent_tracker_id := parent_tracker_id t;
                          file_id := file_id t;
                          active := false;
                          dirty := dirty t;
                          has_synced_details := has_synced_details t;
                          synced_details := synced_details t |}
                  else t) s)
     parent r true,
   SYNC_STATUS_OK).

(** "Atomically claim it as the active tracker for that parent+title; if
    another tracker already claims activity for that slot", fail and
    leave the store as it is. *)
Definition try_activate_tracker (s : Store) (parent : Z) (file : string)
    : MetadataDatabase.ActivationStatus Store :=
  match find_file_by_id s file with
  | None => MetadataDatabase.ACTIVATION_PENDING s SYNC_STATUS_FAILED
  | Some f =>
      let name := title (details f) in
      if existsb (fun e => same_slot parent name (entry_tracker e)
                           && active (entry_tracker e)
                           && negb (String.eqb (file_id (entry_tracker e)) file))
                 (trackers s)
      then MetadataDatabase.ACTIVATION_FAILED_ANOTHER_ACTIVE_TRACKER s
      else
        MetadataDatabase.ACTIVATION_PENDING
          (map_trackers
             (fun t => if same_slot parent name t
                          && String.eqb (file_id t) file
                       then {| tracker_id := tracker_id t;
                               parent_tracker_id := parent_tracker_id t;
                               file_id := file_id t;
                               active := true;
                               dirty := dirty t;
                               has_synced_details := has_synced_details t;
                               synced_details := synced_details t |}
                       else t) s)
          SYNC_STATUS_OK
  end.

Definition metadata_database : MetadataDatabase.Interface Store :=
  {| MetadataDatabase.FindNearestActiveAncestor := find_nearest_active_ancestor;
     MetadataDatabase.FindTrackerByTrackerID := find_tracker_by_id;
     MetadataDatabase.FindFileByFileID := find_file_by_id;
     MetadataDatabase.UpdateTracker := update_tracker;
     MetadataDatabase.UpdateByDeletedRemoteFile := update_by_deleted_remote_file;
     MetadataDatabase.UpdateByFileResource := update_by_file_resource;
     MetadataDatabase.ReplaceActiveTrackerWithNewResource :=
       replace_active_tracker_with_new_resource;
     MetadataDatabase.TryActivateTracker := try_activate_tracker |}.

(** The folder creator on the in-memory store: the new folder gets the id
    [new_id] and an inactive tracker below the tracker of [parent]. *)
Definition folder_creator_run (new_id : string) (s : Store)
    (parent name : string) : Store * (string * SyncStatusCode) :=
  match find (fun e => String.eqb (file_id (entry_tracker e)) parent
                       && active (entry_tracker e)) (trackers s) with
  | None => (s, ("", SYNC_STATUS_FAILED))
  | Some pe =>
      (add_tracker s (tracker_id (entry_tracker pe))
         {| resource_file_id := new_id;
            resource_title := name;
            resource_parents := [parent];
            resource_md5 := "";
            resource_etag := "etag-0";
            resource_is_directory := true |}
         false,
       (new_id, SYNC_STATUS_OK))
  end.

(** A mapping of Drive errors to sync status in the manner of
    [drive_backend_util]: success is Ok, "not found" a file error, the
    rest a failure. *)
Definition error_to_status (error : GDataErrorCode) : SyncStatusCode :=
  if error =? HTTP_SUCCESS then SYNC_STATUS_OK
  else if error =? HTTP_NOT_FOUND then SYNC_FILE_ERROR_NOT_FOUND
  else SYNC_STATUS_FAILED.

Definition externals (new_id digest : string) : Externals Store :=
  {| metadata_database_class := metadata_database;
     GDataErrorCodeToSyncStatusCode := error_to_status;
     GetMimeTypeFromTitle := fun _ => "application/octet-stream";
     GetMd5Digest := fun _ => digest;
     FolderCreator_Run := folder_creator_run new_id |}.

(** A folder creator that loses a race: by the time it returns, another
    client's folder of the same name ([rival_id]) is tracked and active
    below the same parent. *)
Definition racing_folder_creator_run (new_id rival_id : string) (s : Store)
    (parent name : string) : Store * (string * SyncStatusCode) :=
  match find (fun e => String.eqb (file_id (entry_tracker e)) parent
                       && active (entry_tracker e)) (trackers s) with
  | None => (s, ("", SYNC_STATUS_FAILED))
  | Some pe =>
      let folder (id : string) :=
        {| resource_file_id := id;
           resource_title := name;
           resource_parents := [parent];
           resource_md5 := "";
           resource_etag := "etag-0";
           resource_is_directory := true |} in
      let s1 := add_tracker s (tracker_id (entry_tracker pe))
                  (folder rival_id) true in
      (add_tracker s1 (tracker_id (entry_tracker pe)) (folder new_id) false,
       (new_id, SYNC_STATUS_OK))
  end.

(** The trackers that claim activity for a parent+title slot. *)
Definition active_in_slot (s : Store) (parent : Z) (name : string)
    : list FileTracker :=
  filter (fun t => same_slot parent name t && active t)
         (map entry_tracker (trackers s)).

Definition racing_externals (new_id rival_id : string) : Externals Store :=
  {| metadata_database_class := metadata_database;
     GDataErrorCodeToSyncStatusCode := error_to_status;
     GetMimeTypeFromTitle := fun _ => "application/octet-stream";
     GetMd5Digest := fun _ => "";
     FolderCreator_Run := racing_folder_creator_run new_id rival_id |}.

(** A Drive service that answers every request with the given codes. *)
Definition drive_service (on_delete on_detach : GDataErrorCode)
    (on_get : GDataErrorCode * option FileResource)
    : DriveService.Interface :=
  {| DriveService.DeleteResource := fun _ _ => on_delete;
     DriveService.GetFileResource := fun _ => on_get;
     DriveService.RemoveResourceFromDirectory := fun _ _ => on_detach |}.

(** An uploader that answers with [error] and, on success, with a resource
    named after the request. *)
Definition drive_uploader (error : GDataErrorCode) (new_id : string)
    : DriveUploader.Interface :=
  let answer (parents : list string) (name : string) :=
    (error,
     if error =? HTTP_SUCCESS
     then Some {| resource_file_id := new_id;
                  resource_title := name;
                  resource_parents := parents;
                  resource_md5 := "md5-new";
                  resource_etag := "etag-new";
                  resource_is_directory := false |}
     else None) in
  {| DriveUploader.UploadNewFile :=
       fun parent _ name _ => answer [parent] name;
     DriveUploader.UploadExistingFile :=
       fun _ _ _ _ => answer [] "" |}.

End InMemory.

(** ** Vocabulary of the statements *)

(** A context in which the three collaborators are present. *)
Definition ready_context {DB : Type} (service : DriveService.Interface)
    (uploader : DriveUploader.Interface) (db : DB) : SyncEngineContext DB :=
  {| GetDriveService := Some service;
     GetDriveUploader := Some uploader;
     GetMetadataDatabase := Some db |}.

(** A delete or an upload of an existing file that the server answered with
    "precondition failed" or "conflict". *)
Definition is_version_mismatch (c : Call.t) : bool :=
  match c with
  | Call.UploadExistingFile _ _ _ error _
  | Call.DeleteResource _ _ error =>
      (error =? HTTP_PRECONDITION) || (error =? HTTP_CONFLICT)
  | _ => false
  end.




(** The service state a task's status code leads to, in the words of the
    specification; [old] is the state before. *)
Definition claimed_service_state (has_refresh_token used_network : bool)
    (old : SyncEngine.RemoteServiceState) (status : SyncStatusCode)
    : SyncEngine.RemoteServiceState :=
  match status with
  | SYNC_STATUS_AUTHENTICATION_FAILED | SYNC_STATUS_ACCESS_FORBIDDEN =>
      SyncEngine.REMOTE_SERVICE_AUTHENTICATION_REQUIRED
  | SYNC_STATUS_SERVICE_TEMPORARILY_UNAVAILABLE | SYNC_STATUS_NETWORK_ERROR
  | SYNC_STATUS_ABORT | SYNC_STATUS_FAILED =>
      if has_refresh_token
      then SyncEngine.REMOTE_SERVICE_TEMPORARY_UNAVAILABLE
      else SyncEngine.REMOTE_SERVICE_AUTHENTICATION_REQUIRED
  | SYNC_DATABASE_ERROR_CORRUPTION | SYNC_DATABASE_ERROR_IO_ERROR
  | SYNC_DATABASE_ERROR_FAILED => SyncEngine.REMOTE_SERVICE_DISABLED
  | SYNC_STATUS_OK =>
      if used_network then SyncEngine.REMOTE_SERVICE_OK else old
  | _ => old
  end.

(** The status codes the specification's mapping names. *)
Definition is_mapped_status (status : SyncStatusCode) : bool :=
  match status with
  | SYNC_STATUS_OK
  | SYNC_STATUS_AUTHENTICATION_FAILED | SYNC_STATUS_ACCESS_FORBIDDEN
  | SYNC_STATUS_SERVICE_TEMPORARILY_UNAVAILABLE | SYNC_STATUS_NETWORK_ERROR
  | SYNC_STATUS_ABORT | SYNC_STATUS_FAILED
  | SYNC_DATABASE_ERROR_CORRUPTION | SYNC_DATABASE_ERROR_IO_ERROR
  | SYNC_DATABASE_ERROR_FAILED => true
  | _ => false
  end.

(** The engine's listing flag and the listings its task manager accepted
    agree, [done] listings having completed. *)
Definition listing_accounted (w : SyncEngine.World) (done : nat) : Prop :=
  SyncEngine.accepted_listings w
  = (done + if SyncEngine.listing_remote_changes_ (SyncEngine.this w)
            then 1 else 0)%nat.

(** A member function that neither touches the listing flag nor has a
    listing accepted. *)
Definition listing_neutral (f : SyncEngine.World -> SyncEngine.World) : Prop :=
  forall w,
    SyncEngine.listing_remote_changes_ (SyncEngine.this (f w))
    = SyncEngine.listing_remote_changes_ (SyncEngine.this w)
    /\ SyncEngine.accepted_listings (f w) = SyncEngine.accepted_listings w.

(** ** Concrete inputs *)
Module Fixture.

Definition folder_details (parent name : string) : FileDetails :=
  {| parent_folder_ids := [parent];
     title := name;
     file_kind := FILE_KIND_FOLDER;
     md5 := "";
     etag := "etag-0";
     missing := false |}.

(** The application's root folder. *)
Definition root : FileTracker :=
  {| tracker_id := 1;
     parent_tracker_id := 0;
     file_id := "root-id";
     active := true;
     dirty := false;
     has_synced_details := true;
     synced_details := folder_details "sync-root" "app" |}.

(** A remote folder [docs] with a remote change pending. *)
Definition docs_dirty : FileTracker :=
  {| tracker_id := 2;
     parent_tracker_id := 1;
     file_id := "folder-2";
     active := true;
     dirty := true;
     has_synced_details := true;
     synced_details := folder_details "root-id" "docs" |}.

(** A synced remote file [report.txt]. *)
Definition report : FileTracker :=
  {| tracker_id := 2;
     parent_tracker_id := 1;
     file_id := "file-2";
     active := true;
     dirty := false;
     has_synced_details := true;
     synced_details :=
       {| parent_folder_ids := ["root-id"];
          title := "report.txt";
          file_kind := FILE_KIND_FILE;
          md5 := "md5-old";
          etag := "etag-old";
          missing := false |} |}.

Definition at_path (p : FilePath) (t : FileTracker) : InMemory.Entry :=
  {| InMemory.entry_app := "app";
     InMemory.entry_path := p;
     InMemory.entry_tracker := t |}.

(** No application registered. *)
Definition store_empty : InMemory.Store :=
  {| InMemory.trackers := [];
     InMemory.files := [];
     InMemory.next_tracker_id := 1 |}.

(** The application registered, nothing below its root. *)
Definition store_root : InMemory.Store :=
  {| InMemory.trackers := [at_path [] root];
     InMemory.files := [];
     InMemory.next_tracker_id := 2 |}.

Definition store_conflict : InMemory.Store :=
  {| InMemory.trackers := [at_path [] root; at_path ["docs"] docs_dirty];
     InMemory.files :=
       [{| metadata_file_id := "folder-2";
           details := folder_details "root-id" "docs" |}];
     InMemory.next_tracker_id := 3 |}.

Definition store_report : InMemory.Store :=
  {| InMemory.trackers := [at_path [] root; at_path ["report.txt"] report];
     InMemory.files :=
       [{| metadata_file_id := "file-2";
           details := synced_details report |}];
     InMemory.next_tracker_id := 3 |}.

Definition add_file : FileChange :=
  {| change := FILE_CHANGE_ADD_OR_UPDATE; file_type := SYNC_FILE_TYPE_FILE |}.
Definition add_folder : FileChange :=
  {| change := FILE_CHANGE_ADD_OR_UPDATE;
     file_type := SYNC_FILE_TYPE_DIRECTORY |}.
Definition delete_file : FileChange :=
  {| change := FILE_CHANGE_DELETE; file_type := SYNC_FILE_TYPE_FILE |}.

Definition is_a_file : SyncFileMetadata :=
  {| metadata_file_type := SYNC_FILE_TYPE_FILE |}.
Definition is_a_folder : SyncFileMetadata :=
  {| metadata_file_type := SYNC_FILE_TYPE_DIRECTORY |}.
Definition is_absent : SyncFileMetadata :=
  {| metadata_file_type := SYNC_FILE_TYPE_UNKNOWN |}.

Definition url (p : FilePath) : FileSystemURL :=
  {| origin_host := "app"; path := p; is_valid := true |}.

Definition local (p : FilePath) : FilePath := "local" :: p.

(** Everything succeeds. *)
Definition service_ok : DriveService.Interface :=
  InMemory.drive_service HTTP_SUCCESS HTTP_SUCCESS (HTTP_NOT_FOUND, None).
Definition uploader_ok : DriveUploader.Interface :=
  InMemory.drive_uploader HTTP_SUCCESS "file-9".
Definition externals : Externals InMemory.Store :=
  InMemory.externals "folder-9" "md5-local".

(** The server finds the version tag of the request stale. *)
Definition uploader_stale : DriveUploader.Interface :=
  InMemory.drive_uploader HTTP_PRECONDITION "file-9".
Definition service_stale : DriveService.Interface :=
  InMemory.drive_service HTTP_PRECONDITION HTTP_SUCCESS
    (HTTP_SUCCESS,
     Some {| resource_file_id := "file-2";
             resource_title := "report.txt";
             resource_parents := ["root-id"];
             resource_md5 := "md5-remote";
             resource_etag := "etag-remote";
             resource_is_directory := false |}).

(** The remote object is already gone. *)
Definition service_gone : DriveService.Interface :=
  InMemory.drive_service HTTP_NOT_FOUND HTTP_SUCCESS (HTTP_NOT_FOUND, None).





(** The engine's surroundings: a store is loaded, the task manager idle. *)
Definition ambient : SyncEngine.Ambient :=
  {| SyncEngine.Now := 1000;
     SyncEngine.HasRefreshToken := true;
     SyncEngine.HasMetadataDatabase := true;
     SyncEngine.HasDirtyTracker := false;
     SyncEngine.TaskManagerIdle := true;
     SyncEngine.HasSigninManager := true;
     SyncEngine.CanFinishImmediately := false |}.

(** The folder creator loses the race against the folder [folder-7]. *)
Definition racing : Externals InMemory.Store :=
  InMemory.racing_externals "folder-9" "folder-7".

(** A finished syncer that asks for a remote change listing. *)
Definition syncer_needing_listing : LocalToRemoteSyncer.Members :=
  LocalToRemoteSyncer.set_needs_remote_change_listing true
    (LocalToRemoteSyncer.New is_a_file add_file (local ["report.txt"])
       (url ["report.txt"])).

(** The engine after sync was enabled and that syncer completed. *)
Definition engine_listing : SyncEngine.World :=
  SyncEngine.handle 3600
    (SyncEngine.LocalToRemoteSyncerDone ambient syncer_needing_listing
       SYNC_STATUS_FILE_BUSY)
    (SyncEngine.handle 3600 (SyncEngine.CallSetSyncEnabled true)
       SyncEngine.New).

End Fixture.

(** ** Further vocabulary: what the record of calls says of a run *)

(** Requests that go to the Drive service or the uploader (the folder
    creator works through the Drive service). *)
Definition is_drive_call (c : Call.t) : bool :=
  match c with
  | Call.DeleteResource _ _ _ | Call.GetFileResource _ _ _
  | Call.RemoveResourceFromDirectory _ _ _
  | Call.UploadNewFile _ _ _ _ _ _ | Call.UploadExistingFile _ _ _ _ _
  | Call.FolderCreatorRun _ _ _ _ => true
  | _ => false
  end.

(** Answers that tell the syncer its picture of the remote tree is stale:
    "precondition failed", "conflict" or "not found" to the upload of an
    existing file, "not found" to the upload of a new file or to the
    creation of a folder. *)
Definition is_listing_trigger (c : Call.t) : bool :=
  match c with
  | Call.UploadExistingFile _ _ _ error _ =>
      (error =? HTTP_PRECONDITION) || (error =? HTTP_CONFLICT)
      || (error =? HTTP_NOT_FOUND)
  | Call.UploadNewFile _ _ _ _ error _ => error =? HTTP_NOT_FOUND
  | Call.FolderCreatorRun _ _ _ SYNC_FILE_ERROR_NOT_FOUND => true
  | _ => false
  end.

(** The sync action that goes with a request that changes the remote
    tree. *)
Definition action_of_call (c : Call.t) : SyncAction :=
  match c with
  | Call.DeleteResource _ _ _ => SYNC_ACTION_DELETED
  | Call.UploadExistingFile _ _ _ _ _ => SYNC_ACTION_UPDATED
  | Call.UploadNewFile _ _ _ _ _ _ | Call.FolderCreatorRun _ _ _ _ =>
      SYNC_ACTION_ADDED
  | _ => SYNC_ACTION_NONE
  end.

Definition action_of_calls (cs : list Call.t) : SyncAction :=
  match filter Call.is_remote_mutation cs with
  | [] => SYNC_ACTION_NONE
  | c :: _ => action_of_call c
  end.

(** The store's answer [ACTIVATION_FAILED_ANOTHER_ACTIVE_TRACKER] to
    [TryActivateTracker]. *)
Definition is_failed_activation (c : Call.t) : bool :=
  match c with
  | Call.TryActivateTracker _ _ Call.FailedAnotherActiveTracker => true
  | _ => false
  end.

(** ** The sync engine: registered applications and initialisation
       ([sync_engine.cc]) *)
Module SyncEngineApps.

(** Modelled from the spec: [RemoteFileSyncService::UninstallFlag]
    (declared outside these sources). *)
Inductive UninstallFlag : Type :=
| UNINSTALL_AND_PURGE_REMOTE
| UNINSTALL_AND_KEEP_REMOTE.

(** Modelled from the spec: the kind of a tracker ([metadata_database.proto]
    is not among the sources); an application's root tracker is of kind
    [TRACKER_KIND_APP_ROOT] while the application is enabled. *)
Inductive TrackerKind : Type :=
| TRACKER_KIND_REGULAR
| TRACKER_KIND_SYNC_ROOT
| TRACKER_KIND_APP_ROOT
| TRACKER_KIND_DISABLED_APP_ROOT.

Definition TrackerKind_eqb (a b : TrackerKind) : bool :=
  match a, b with
  | TRACKER_KIND_REGULAR, TRACKER_KIND_REGULAR
  | TRACKER_KIND_SYNC_ROOT, TRACKER_KIND_SYNC_ROOT
  | TRACKER_KIND_APP_ROOT, TRACKER_KIND_APP_ROOT
  | TRACKER_KIND_DISABLED_APP_ROOT, TRACKER_KIND_DISABLED_APP_ROOT => true
  | _, _ => false
  end.

(** [ExtensionServiceInterface], as the engine uses it:
    [GetInstalledExtension] tells whether the pointer it returns is
    non-null. *)
Record ExtensionServiceInterface : Type := {
  GetInstalledExtension : string -> bool;
  IsExtensionEnabled : string -> bool
}.

(** What the engine reads of the registered applications from the metadata
    database: [FindAppRootTracker] yields the kind of the tracker it
    finds. *)
Record RegisteredApps : Type := {
  GetRegisteredAppIDs : list string;
  FindAppRootTracker : string -> option TrackerKind;
  IsAppEnabled : string -> bool
}.

Record GURL : Type := { host : string }.

Definition GURL_eqb (a b : GURL) : bool := String.eqb (host a) (host b).

(** [OriginStatusMap], a [std::map<GURL, std::string>], as the list of its
    entries; [assign] is [map[key] = value], which replaces the entry of
    the key or adds one. *)
Definition OriginStatusMap : Type := list (GURL * string).

Fixpoint assign (key : GURL) (value : string) (map : OriginStatusMap)
    : OriginStatusMap :=
  match map with
  | [] => [(key, value)]
  | (k, v) :: rest =>
      if GURL_eqb k key then (key, value) :: rest
      else (k, v) :: assign key value rest
  end.

Fixpoint lookup (key : GURL) (map : OriginStatusMap) : option string :=
  match map with
  | [] => None
  | (k, v) :: rest => if GURL_eqb k key then Some v else lookup key rest
  end.

(** The tasks about one application, each scheduled at high priority with
    a callback that drops the status. *)
Inductive AppTask : Type :=
| UninstallAppTask (app_id : string) (flag : UninstallFlag)
| DoEnableApp (app_id : string)
| DoDisableApp (app_id : string).

Section Apps.

(** [extensions::Extension::GetBaseURLFromExtensionId]. *)
Variable GetBaseURLFromExtensionId : string -> GURL.

Definition UninstallOrigin (origin : GURL) (flag : UninstallFlag)
    (task_manager_ : list AppTask) : list AppTask :=
  task_manager_ ++ [UninstallAppTask (host origin) flag].

Definition EnableOrigin (origin : GURL) (task_manager_ : list AppTask)
    : list AppTask :=
  task_manager_ ++ [DoEnableApp (host origin)].

Definition DisableOrigin (origin : GURL) (task_manager_ : list AppTask)
    : list AppTask :=
  task_manager_ ++ [DoDisableApp (host origin)].

(** The body of the loop of [UpdateRegisteredApps]. *)
Definition UpdateRegisteredApp (extension_service : ExtensionServiceInterface)
    (database : RegisteredApps) (task_manager_ : list AppTask)
    (app_id : string) : list AppTask :=
  let origin := GetBaseURLFromExtensionId app_id in
  if negb (GetInstalledExtension extension_service app_id) then
    (* Extension has been uninstalled. *)
    UninstallOrigin origin UNINSTALL_AND_PURGE_REMOTE task_manager_
  else
    match FindAppRootTracker database app_id with
    | None =>
        (* App will register itself on first run. *)
        task_manager_
    | Some tracker_kind =>
        let is_app_enabled := IsExtensionEnabled extension_service app_id in
        let is_app_root_tracker_enabled :=
          TrackerKind_eqb tracker_kind TRACKER_KIND_APP_ROOT in
        if is_app_enabled && negb is_app_root_tracker_enabled
        then EnableOrigin origin task_manager_
        else if negb is_app_enabled && is_app_root_tracker_enabled
        then DisableOrigin origin task_manager_
        else task_manager_
    end.

Definition UpdateRegisteredApps
    (extension_service_ : option ExtensionServiceInterface)
    (database : RegisteredApps) (task_manager_ : list AppTask)
    : list AppTask :=
  match extension_service_ with
  | None => task_manager_
  | Some extension_service =>
      fold_left (UpdateRegisteredApp extension_service database)
        (GetRegisteredAppIDs database) task_manager_
  end.

Definition GetOriginStatusMap
    (extension_service_ : option ExtensionServiceInterface)
    (metadata_database : option RegisteredApps) (status_map : OriginStatusMap)
    : OriginStatusMap :=
  match extension_service_, metadata_database with
  | Some _, Some database =>
      fold_left
        (fun status_map app_id =>
           let origin := GetBaseURLFromExtensionId app_id in
           assign origin
             (if IsAppEnabled database app_id then "Enabled" else "Disabled")
             status_map)
        (GetRegisteredAppIDs database) status_map
  | _, _ => status_map
  end.


End Apps.

End SyncEngineApps.

(** ** Further vocabulary: what the engine asked for and told *)

(** Requests for a change listing or for the conflict resolver. *)
Definition is_fetch_request (r : SyncEngine.Request) : bool :=
  match r with
  | SyncEngine.ScheduleSyncTask SyncEngine.ListChangesTask _
  | SyncEngine.ScheduleSyncTaskIfIdle SyncEngine.ListChangesTask _
  | SyncEngine.ScheduleSyncTask SyncEngine.ConflictResolver _
  | SyncEngine.ScheduleSyncTaskIfIdle SyncEngine.ConflictResolver _ => true
  | _ => false
  end.

Definition is_conflict_request (r : SyncEngine.Request) : bool :=
  match r with
  | SyncEngine.ScheduleSyncTask SyncEngine.ConflictResolver _
  | SyncEngine.ScheduleSyncTaskIfIdle SyncEngine.ConflictResolver _ => true
  | _ => false
  end.

Definition is_listing_request (r : SyncEngine.Request) : bool :=
  match r with
  | SyncEngine.ScheduleSyncTask SyncEngine.ListChangesTask _
  | SyncEngine.ScheduleSyncTaskIfIdle SyncEngine.ListChangesTask _ => true
  | _ => false
  end.

Definition is_state_notification (n : SyncEngine.Notification) : bool :=
  match n with
  | SyncEngine.OnRemoteServiceStateUpdated _ _ => true
  | _ => false
  end.


Definition is_callback_run (n : SyncEngine.Notification) : bool :=
  match n with
  | SyncEngine.CallbackRun _ => true
  | _ => false
  end.

(** The events that neither enable sync nor report a task that asks for
    a remote change listing. *)
Definition keeps_engine_quiet (e : SyncEngine.Event) : bool :=
  match e with
  | SyncEngine.CallSetSyncEnabled enabled => negb enabled
  | SyncEngine.LocalToRemoteSyncerDone _ syncer _ =>
      negb (LocalToRemoteSyncer.needs_remote_change_listing_ syncer)
  | _ => true
  end.

(** The engine after a sequence of events. *)
Definition handle_all (delay : Z) (events : list SyncEngine.Event)
    (w : SyncEngine.World) : SyncEngine.World :=
  fold_left (fun w e => SyncEngine.handle delay e w) events w.

(** The completion of a local-to-remote syncer or of a conflict resolver
    with Ok. *)
Definition is_ok_completion (e : SyncEngine.Event) : bool :=
  match e with
  | SyncEngine.LocalToRemoteSyncerDone _ _ status
  | SyncEngine.ConflictResolverDone status => is_status_ok status
  | _ => false
  end.

(** What a quiet event leaves alone: sync stays disabled, no change
    listing or conflict resolver is asked for, no observer hears of a
    service state. *)
Definition quiet_step (w w' : SyncEngine.World) : Prop :=
  SyncEngine.sync_enabled_ (SyncEngine.this w') = false
  /\ filter is_fetch_request (SyncEngine.task_manager_ w')
     = filter is_fetch_request (SyncEngine.task_manager_ w)
  /\ filter is_state_notification (SyncEngine.notified w')
     = filter is_state_notification (SyncEngine.notified w).

(** The conflict checks owed: the conflict resolvers asked for so far, and
    one more while [should_check_conflict_] is set. *)
Definition conflict_checks (w : SyncEngine.World) : nat :=
  (List.length (filter is_conflict_request (SyncEngine.task_manager_ w))
   + if SyncEngine.should_check_conflict_ (SyncEngine.this w)
     then 1 else 0)%nat.

(** A call of the engine: one of the events above, or the completion of a
    change listing or of a remote-to-local syncer, whose callbacks
    [DidFetchChanges] and [DidProcessRemoteChange] the task manager
    runs. *)
Inductive EngineCall : Type :=
| EngineEvent (e : SyncEngine.Event)
| ListChangesTaskDone (status : SyncStatusCode)
| RemoteToLocalSyncerDone (a : SyncEngine.Ambient)
    (syncer : SyncEngine.RemoteToLocalSyncer) (status : SyncStatusCode).

Definition make_call (delay : Z) (c : EngineCall) (w : SyncEngine.World)
    : SyncEngine.World :=
  match c with
  | EngineEvent e => SyncEngine.handle delay e w
  | ListChangesTaskDone status => SyncEngine.DidFetchChanges status w
  | RemoteToLocalSyncerDone a syncer status =>
      SyncEngine.DidProcessRemoteChange a syncer status w
  end.

(** The engine after a sequence of calls. *)
Definition make_calls (delay : Z) (cs : list EngineCall)
    (w : SyncEngine.World) : SyncEngine.World :=
  fold_left (fun w c => make_call delay c w) cs w.

(** The completion with Ok of a task: a local-to-remote syncer, a
    conflict resolver, a change listing or a remote-to-local syncer. *)
Definition completes_with_ok (c : EngineCall) : bool :=
  match c with
  | EngineEvent e => is_ok_completion e
  | ListChangesTaskDone status
  | RemoteToLocalSyncerDone _ _ status => is_status_ok status
  end.

(** The calls that make the engine look for remote changes whatever the
    time: a push notification, the Drive service getting ready to send
    requests, the network coming up, and the completion of a
    local-to-remote syncer that needs a remote change listing. *)
Definition asks_for_listing (c : EngineCall) : bool :=
  match c with
  | EngineEvent (SyncEngine.CallOnNotificationReceived _)
  | EngineEvent (SyncEngine.CallOnReadyToSendRequests _) => true
  | EngineEvent (SyncEngine.CallOnNetworkChanged _ available) => available
  | EngineEvent (SyncEngine.LocalToRemoteSyncerDone _ syncer _) =>
      LocalToRemoteSyncer.needs_remote_change_listing_ syncer
  | _ => false
  end.

(** What a call reads from outside the engine, if anything. *)
Definition ambient_of (c : EngineCall) : option SyncEngine.Ambient :=
  match c with
  | EngineEvent (SyncEngine.CallMaybeScheduleNextTask a)
  | EngineEvent (SyncEngine.CallMaybeStartFetchChanges a)
  | EngineEvent (SyncEngine.CallNotifyLastOperationStatus a _ _)
  | EngineEvent (SyncEngine.CallOnNotificationReceived a)
  | EngineEvent (SyncEngine.CallOnReadyToSendRequests a)
  | EngineEvent (SyncEngine.CallOnNetworkChanged a _)
  | EngineEvent (SyncEngine.CallRegisterOrigin a _)
  | EngineEvent (SyncEngine.LocalToRemoteSyncerDone a _ _)
  | RemoteToLocalSyncerDone a _ _ => Some a
  | _ => None
  end.

(** The call is made while the clock shows less than [t]. *)
Definition made_before (t : Z) (c : EngineCall) : bool :=
  match ambient_of c with
  | Some a => SyncEngine.Now a <? t
  | None => true
  end.

(** The engine holds back its next look for remote changes until [t]. *)
Definition waits_until (t : Z) (w : SyncEngine.World) : Prop :=
  SyncEngine.should_check_remote_change_ (SyncEngine.this w) = false
  /\ SyncEngine.time_to_check_changes_ (SyncEngine.this w) = t.

(** What a call that does not bear on the look for remote changes leaves
    alone: the flag, the time of the next look, and the change listings
    asked for. *)
Definition keeps_waiting (w w' : SyncEngine.World) : Prop :=
  SyncEngine.should_check_remote_change_ (SyncEngine.this w')
  = SyncEngine.should_check_remote_change_ (SyncEngine.this w)
  /\ SyncEngine.time_to_check_changes_ (SyncEngine.this w')
     = SyncEngine.time_to_check_changes_ (SyncEngine.this w)
  /\ filter is_listing_request (SyncEngine.task_manager_ w')
     = filter is_listing_request (SyncEngine.task_manager_ w).

(** The task [UpdateRegisteredApps] schedules for one application, if
    any. *)
Definition app_task (base_url : string -> SyncEngineApps.GURL)
    (extension_service : SyncEngineApps.ExtensionServiceInterface)
    (database : SyncEngineApps.RegisteredApps) (app_id : string)
    : list SyncEngineApps.AppTask :=
  SyncEngineApps.UpdateRegisteredApp base_url extension_service database
    [] app_id.

(** The metadata database agrees with the extension service about an
    application: it is installed and, when it has a root tracker, that is
    an enabled one exactly when the extension is enabled. *)
Definition app_agrees
    (extension_service : SyncEngineApps.ExtensionServiceInterface)
    (database : SyncEngineApps.RegisteredApps) (app_id : string) : bool :=
  SyncEngineApps.GetInstalledExtension extension_service app_id
  && match SyncEngineApps.FindAppRootTracker database app_id with
     | None => true
     | Some kind =>
         Bool.eqb (SyncEngineApps.IsExtensionEnabled extension_service app_id)
           (SyncEngineApps.TrackerKind_eqb kind
              SyncEngineApps.TRACKER_KIND_APP_ROOT)
     end.

(** ** Further concrete inputs *)
Module Scenario.

(** The local file has the content that was synced last. *)
Definition externals_unchanged : Externals InMemory.Store :=
  InMemory.externals "folder-9" "md5-old".

(** A metadata database whose ancestor lookup answers with a path that
    does not lead to the target. *)
Definition externals_off_path : Externals InMemory.Store :=
  {| metadata_database_class :=
       {| MetadataDatabase.FindNearestActiveAncestor :=
            fun _ _ _ => Some (Fixture.root, ["elsewhere"]);
          MetadataDatabase.FindTrackerByTrackerID :=
            InMemory.find_tracker_by_id;
          MetadataDatabase.FindFileByFileID := InMemory.find_file_by_id;
          MetadataDatabase.UpdateTracker := InMemory.update_tracker;
          MetadataDatabase.UpdateByDeletedRemoteFile :=
            InMemory.update_by_deleted_remote_file;
          MetadataDatabase.UpdateByFileResource :=
            InMemory.update_by_file_resource;
          MetadataDatabase.ReplaceActiveTrackerWithNewResource :=
            InMemory.replace_active_tracker_with_new_resource;
          MetadataDatabase.TryActivateTracker :=
            InMemory.try_activate_tracker |};
     GDataErrorCodeToSyncStatusCode := InMemory.error_to_status;
     GetMimeTypeFromTitle := fun _ => "application/octet-stream";
     GetMd5Digest := fun _ => "md5-local";
     FolderCreator_Run := InMemory.folder_creator_run "folder-9" |}.



(** The engine once sync is enabled. *)
Definition engine_enabled : SyncEngine.World :=
  SyncEngine.SetSyncEnabled true SyncEngine.New.

(** The engine after a change listing was accepted and has failed. *)
Definition engine_after_listing : SyncEngine.World :=
  SyncEngine.DidFetchChanges SYNC_STATUS_FAILED
    (SyncEngine.MaybeStartFetchChanges 3600 Fixture.ambient engine_enabled).

(** Half a minute after [Fixture.ambient]. *)
Definition ambient_soon : SyncEngine.Ambient :=
  {| SyncEngine.Now := 1030;
     SyncEngine.HasRefreshToken := true;
     SyncEngine.HasMetadataDatabase := true;
     SyncEngine.HasDirtyTracker := false;
     SyncEngine.TaskManagerIdle := true;
     SyncEngine.HasSigninManager := true;
     SyncEngine.CanFinishImmediately := false |}.


Definition busy_events : list SyncEngine.Event :=
  [SyncEngine.CallOnNetworkChanged Fixture.ambient true;
   SyncEngine.CallOnNotificationReceived Fixture.ambient;
   SyncEngine.CallMaybeScheduleNextTask Fixture.ambient;
   SyncEngine.CallNotifyLastOperationStatus Fixture.ambient
     SYNC_STATUS_FAILED true;
   SyncEngine.CallOnReadyToSendRequests Fixture.ambient;
   SyncEngine.CallRegisterOrigin Fixture.ambient "app"].

(** A remote-to-local syncer that has deleted [report.txt] locally. *)
Definition remote_syncer : SyncEngine.RemoteToLocalSyncer :=
  {| SyncEngine.is_sync_root_deletion := false;
     SyncEngine.url := Fixture.url ["report.txt"];
     SyncEngine.sync_action := SYNC_ACTION_DELETED |}.

(** Polls within the retry delay, among tasks that fail. *)
Definition polling_calls : list EngineCall :=
  [EngineEvent (SyncEngine.CallMaybeStartFetchChanges ambient_soon);
   RemoteToLocalSyncerDone ambient_soon remote_syncer SYNC_STATUS_FAILED;
   EngineEvent (SyncEngine.CallMaybeScheduleNextTask ambient_soon);
   EngineEvent (SyncEngine.ConflictResolverDone SYNC_STATUS_FAILED);
   ListChangesTaskDone SYNC_STATUS_FAILED;
   EngineEvent (SyncEngine.CallMaybeStartFetchChanges ambient_soon)].

(** The listing completes, a remote change is applied and the engine is
    polled, all within the retry delay. *)
Definition waiting_calls : list EngineCall :=
  [ListChangesTaskDone SYNC_STATUS_OK;
   EngineEvent (SyncEngine.CallMaybeStartFetchChanges ambient_soon);
   RemoteToLocalSyncerDone ambient_soon remote_syncer SYNC_STATUS_OK;
   EngineEvent (SyncEngine.CallMaybeScheduleNextTask ambient_soon);
   EngineEvent (SyncEngine.CallOnNetworkChanged ambient_soon false);
   EngineEvent (SyncEngine.CallMaybeStartFetchChanges ambient_soon)].

(** Applications: [editor] was enabled and [viewer] disabled in the
    browser since the last run, [gone] was uninstalled, [fresh] has not
    registered yet. *)
Definition base_url (app_id : string) : SyncEngineApps.GURL :=
  {| SyncEngineApps.host := app_id |}.

Definition extension_service : SyncEngineApps.ExtensionServiceInterface :=
  {| SyncEngineApps.GetInstalledExtension :=
       fun app_id => negb (String.eqb app_id "gone");
     SyncEngineApps.IsExtensionEnabled :=
       fun app_id => String.eqb app_id "editor" |}.

Definition registered : SyncEngineApps.RegisteredApps :=
  {| SyncEngineApps.GetRegisteredAppIDs :=
       ["editor"; "gone"; "viewer"; "fresh"];
     SyncEngineApps.FindAppRootTracker :=
       fun app_id =>
         if String.eqb app_id "editor"
         then Some SyncEngineApps.TRACKER_KIND_DISABLED_APP_ROOT
         else if String.eqb app_id "fresh" then None
         else Some SyncEngineApps.TRACKER_KIND_APP_ROOT;
     SyncEngineApps.IsAppEnabled :=
       fun app_id => negb (String.eqb app_id "editor") |}.

End Scenario.

(** ** Tactics: running the task symbolically *)

Import LocalToRemoteSyncer.

(** Unfolds the task down to the decisions it takes. *)
Ltac unfold_syncer :=
  cbv beta iota delta
    [Run RunTask RunExclusive RecordLog Pass done_status done_token
     HandleConflict HandleExistingRemoteFile CreateRemoteFolder
     DidCreateRemoteFolder DidDetachResourceForCreationConflict UploadNewFile
     DidUploadNewFile UploadExistingFile DidGetMD5ForUpload DidUploadExistingFile
     DidUpdateDatabaseForUploadExistingFile UpdateRemoteMetadata
     DidGetRemoteMetadata DeleteRemoteFile DidDeleteRemoteFile
     CompleteWithRetryStatus SyncCompleted NotifyTaskDone
     ReplaceActiveTrackerWithNewResource UpdateByFileResource
     UpdateByDeletedRemoteFile UpdateTracker FindFileByFileID FindTrackerByID
     metadata_database drive_uploader drive_service IsContextReady store deref
     record modify get_this bind ret ready_context
     this context_ calls GetDriveService GetDriveUploader GetMetadataDatabase].

Ltac unfold_syncer_in H :=
  cbv beta iota delta
    [Run RunTask RunExclusive RecordLog Pass done_status done_token
     HandleConflict HandleExistingRemoteFile CreateRemoteFolder
     DidCreateRemoteFolder DidDetachResourceForCreationConflict UploadNewFile
     DidUploadNewFile UploadExistingFile DidGetMD5ForUpload DidUploadExistingFile
     DidUpdateDatabaseForUploadExistingFile UpdateRemoteMetadata
     DidGetRemoteMetadata DeleteRemoteFile DidDeleteRemoteFile
     CompleteWithRetryStatus SyncCompleted NotifyTaskDone
     ReplaceActiveTrackerWithNewResource UpdateByFileResource
     UpdateByDeletedRemoteFile UpdateTracker FindFileByFileID FindTrackerByID
     metadata_database drive_uploader drive_service IsContextReady store deref
     record modify get_this bind ret ready_context] in H.

(** Simplifies, leaving the tests on paths, changes and error codes folded. *)
Ltac run_simpl :=
  cbn -[missing_entries_of BaseName IsLocalFileMissing IsFile IsDelete Z.eqb
        HasFileAsParent FilePath_eqb String.eqb].

Ltac run_simpl_in H :=
  cbn -[missing_entries_of BaseName IsLocalFileMissing IsFile IsDelete Z.eqb
        HasFileAsParent FilePath_eqb String.eqb] in H.

Ltac destruct_innermost x :=
  lazymatch x with
  | context [match ?y with _ => _ end] => destruct_innermost y
  | _ => let E := fresh "E" in destruct x eqn:E
  end.

(** One decision of a run [H : ... = Some (status, w)]: splits on the
    innermost undecided test, or reads off the result. *)
Ltac path_step H :=
  match type of H with
  | Some _ = Some _ => inversion H; subst; clear H
  | None = Some _ => discriminate H
  | context [match ?x with _ => _ end] =>
      destruct_innermost x; run_simpl_in H
  end.

(** All the paths of a run. *)
Ltac run_paths H :=
  unfold_syncer_in H; run_simpl_in H; repeat path_step H.

Ltac eqb_atoms :=
  repeat match goal with
         | H : context [Z.eqb ?a ?b] |- _ => destruct (Z.eqb_spec a b)
         | |- context [Z.eqb ?a ?b] => destruct (Z.eqb_spec a b)
         end.

Ltac split_missing_components :=
  repeat match goal with
         | H : missing_entries_of _ _ = Some ?m |- _ =>
             is_var m; destruct m as [|? [|? ?]]
         end;
  cbn [empty GetComponents List.length negb andb] in *;
  try discriminate.

(** Closes the paths whose tests contradict each other. *)
Ltac finish_leaf :=
  split_missing_components;
  unfold HTTP_NOT_FOUND, HTTP_PRECONDITION, HTTP_CONFLICT in *;
  eqb_atoms;
  rewrite ?andb_true_r, ?andb_false_r, ?orb_true_r, ?orb_false_r in *;
  cbn [andb orb negb] in *;
  try discriminate; try congruence.

Ltac decide_delete lc :=
  unfold IsLocalFileMissing in *;
  destruct (IsDelete lc);
  repeat match goal with
         | H : context [(_ || true)%bool] |- _ => rewrite orb_true_r in H
         end;
  cbn [negb andb orb] in *; try discriminate.

(** One decision of a run that faults, [H : ... = None]. *)
Ltac fault_step H :=
  match type of H with
  | Some _ = None => discriminate H
  | context [match ?x with _ => _ end] =>
      destruct_innermost x; run_simpl_in H
  end.

(** All the paths of a run that faults. *)
Ltac fault_paths H :=
  unfold_syncer_in H; run_simpl_in H; repeat fault_step H.

(** * Properties *)

(** ** Paths *)

Lemma FilePath_eqb_refl p : FilePath_eqb p p = true.
Proof.
  induction p as [|a p IH]; simpl; [reflexivity|].
  now rewrite String.eqb_refl.
Qed.

Lemma FilePath_eqb_longer p c rest : FilePath_eqb p (p ++ c :: rest) = false.
Proof.
  induction p as [|a p IH]; simpl; [reflexivity|].
  now rewrite String.eqb_refl.
Qed.


Lemma AppendRelativePath_below p c rest :
  AppendRelativePath p (p ++ c :: rest) = Some (c :: rest).
Proof.
  induction p as [|a p IH]; simpl; [reflexivity|].
  now rewrite String.eqb_refl.
Qed.

Lemma missing_entries_of_below p c rest :
  missing_entries_of p (p ++ c :: rest) = Some (c :: rest).
Proof.
  unfold missing_entries_of. destruct p as [|a p]; [reflexivity|].
  cbn [empty]. rewrite FilePath_eqb_longer. cbn [negb].
  apply AppendRelativePath_below.
Qed.

Lemma missing_entries_of_path p ancestor c rest :
  p = ancestor ++ c :: rest -> missing_entries_of ancestor p = Some (c :: rest).
Proof. intros ->. apply missing_entries_of_below. Qed.

Lemma missing_entries_of_same p : missing_entries_of p p = Some [].
Proof.
  unfold missing_entries_of. destruct p as [|a p]; [reflexivity|].
  cbn [empty]. now rewrite FilePath_eqb_refl.
Qed.



(** ** The local-to-remote syncer *)

(** C10. A change that is not a delete and whose local file is missing
    completes at once with Ok: the task makes no call at all -- it resolves
    no ancestor tracker, sends nothing to the server and writes nothing to
    the metadata store -- and leaves its members as constructed. *)
Theorem stray_change_completes_untouched :
  forall (DB : Type) (ext : Externals DB) service uploader (db : DB)
         local_metadata local_change local_path url,
    IsDelete local_change = false ->
    metadata_file_type local_metadata = SYNC_FILE_TYPE_UNKNOWN ->
    Run ext (ready_context service uploader db)
        local_metadata local_change local_path url
    = Some (SYNC_STATUS_OK,
            {| this := New local_metadata local_change local_path url;
               context_ := ready_context service uploader db;
               calls := [] |}).
Proof.
  intros DB ext service uploader db lm lc lp url Hdel Hunknown.
  unfold_syncer. cbn. unfold IsLocalFileMissing.
  rewrite Hunknown, Hdel. reflexivity.
Qed.

(** C8. A local delete whose target has no tracker at its exact path (at
    least one component is missing below the nearest active ancestor)
    completes with Ok after the ancestor lookup alone: no remote call, no
    store write, no sync action.  Applied a second time on the store the
    first run left, it does the same. *)
Theorem delete_of_absent_is_noop :
  forall (DB : Type) (ext : Externals DB) service uploader (db : DB)
         local_metadata local_change local_path url ancestor ancestor_path
         component rest,
    IsDelete local_change = true ->
    MetadataDatabase.FindNearestActiveAncestor (metadata_database_class ext)
      db (origin_host url) (path url) = Some (ancestor, ancestor_path) ->
    path url = ancestor_path ++ component :: rest ->
    exists w1 w2,
      Run ext (ready_context service uploader db)
          local_metadata local_change local_path url = Some (SYNC_STATUS_OK, w1)
      /\ Run ext (context_ w1)
          local_metadata local_change local_path url = Some (SYNC_STATUS_OK, w2)
      /\ filter Call.is_remote_mutation (calls w1 ++ calls w2) = []
      /\ filter Call.is_store_mutation (calls w1 ++ calls w2) = []
      /\ GetMetadataDatabase (context_ w2) = Some db
      /\ sync_action_ (this w1) = SYNC_ACTION_NONE
      /\ sync_action_ (this w2) = SYNC_ACTION_NONE.
Proof.
  intros DB ext service uploader db lm lc lp url t ap c rest Hdel Hfind Hpath.
  assert (Hrun : Run ext (ready_context service uploader db) lm lc lp url
          = Some (SYNC_STATUS_OK,
                  {| this := New lm lc lp url;
                     context_ := ready_context service uploader db;
                     calls := [Call.FindNearestActiveAncestor (origin_host url)
                                 (path url) (Some (t, ap))] |})).
  { destruct url as [host p valid]; cbn [path origin_host] in *; subst p.
    unfold_syncer. cbn -[missing_entries_of]. unfold IsLocalFileMissing.
    rewrite Hdel, orb_true_r. cbn -[missing_entries_of].
    rewrite Hfind, missing_entries_of_below. reflexivity. }
  eexists; eexists. split; [exact Hrun|]. split; [exact Hrun|].
  cbn. repeat split; reflexivity.
Qed.

(** C1, as amended.  When the tracker at the exact target path is dirty and
    the local change is a file that exists locally, the syncer uploads the
    local file as a new remote file below the parent folder: that upload is
    the only request that changes the remote tree (no remote delete is
    sent), the sync action is Added, and when the upload succeeds the store
    replaces the active tracker by the new resource and its status is the
    task's. *)
Theorem conflict_file_change_uploads_new_file :
  forall (DB : Type) (ext : Externals DB) service uploader (db : DB)
         local_metadata local_change local_path url tracker parent,
    IsLocalFileMissing local_metadata local_change = false ->
    IsFile local_change = true ->
    MetadataDatabase.FindNearestActiveAncestor (metadata_database_class ext)
      db (origin_host url) (path url) = Some (tracker, path url) ->
    dirty tracker = true ->
    MetadataDatabase.FindTrackerByTrackerID (metadata_database_class ext)
      db (parent_tracker_id tracker) = Some parent ->
    let base := BaseName (path url) in
    let mime := GetMimeTypeFromTitle ext base in
    let answer :=
      DriveUploader.UploadNewFile uploader
        (file_id parent) local_path base mime in
    exists status w,
      Run ext (ready_context service uploader db)
          local_metadata local_change local_path url = Some (status, w)
      /\ filter Call.is_remote_mutation (calls w)
         = [Call.UploadNewFile (file_id parent) local_path base mime
              (fst answer) (snd answer)]
      /\ sync_action_ (this w) = SYNC_ACTION_ADDED
      /\ (forall entry,
             snd answer = Some entry ->
             GDataErrorCodeToSyncStatusCode ext (fst answer) = SYNC_STATUS_OK ->
             fst answer <> HTTP_NOT_FOUND ->
             let stored :=
               MetadataDatabase.ReplaceActiveTrackerWithNewResource
                 (metadata_database_class ext) db (tracker_id parent) entry in
             status = snd stored
             /\ GetMetadataDatabase (context_ w) = Some (fst stored)
             /\ filter Call.is_store_mutation (calls w)
                = [Call.ReplaceActiveTrackerWithNewResource
                     (tracker_id parent) entry (snd stored)]).
Proof.
  intros DB ext service uploader db lm lc lp url tracker parent
         Hpresent Hfile Hfind Hdirty Hparent base mime answer.
  subst base mime answer.
  destruct url as [host p valid]; cbn [path origin_host] in *.
  unfold_syncer.
  repeat (run_simpl;
          progress rewrite ?Hpresent, ?Hfind, ?missing_entries_of_same,
                           ?Hparent, ?Hdirty, ?Hfile).
  run_simpl.
  destruct (DriveUploader.UploadNewFile uploader (file_id parent) lp
              (BaseName p) (GetMimeTypeFromTitle ext (BaseName p)))
    as [error entry] eqn:Hanswer.
  run_simpl.
  destruct (Z.eqb_spec error HTTP_NOT_FOUND) as [Hnf|Hnf];
    run_simpl;
    (destruct (GDataErrorCodeToSyncStatusCode ext error) eqn:Hstatus;
     run_simpl;
     try (destruct entry as [e|]; run_simpl);
     try (destruct (MetadataDatabase.ReplaceActiveTrackerWithNewResource
                      (metadata_database_class ext) db (tracker_id parent) e)
            as [db' st] eqn:Hstore; run_simpl);
     eexists; eexists; (split; [reflexivity|]); run_simpl;
     (split; [reflexivity|]); (split; [reflexivity|]);
     intros entry' Hentry Hok Hnot; try discriminate; try contradiction).
  inversion Hentry; subst entry'. rewrite Hstore. cbn.
  rewrite FilePath_eqb_refl. destruct st; cbn; repeat split; reflexivity.
Qed.

(** C2, as amended.  Whenever the server answers "precondition failed" or
    "conflict": to the upload of an existing file, the task completes with
    FileBusy, the syncer has marked that a remote listing is needed, that
    upload is the only upload of the run (nothing is sent again), and the
    one request to Drive that follows it is GetFileResource for the same
    file, which reads the remote metadata again; to a delete, the syncer
    ignores the local deletion -- it marks nothing, writes nothing to the
    store, sends no other request that changes the remote tree -- and the
    task completes with Ok for a local delete and with Retry when the
    delete was to make room for a re-creation. *)
Theorem version_mismatch_handling :
  forall (DB : Type) (ext : Externals DB) context
         local_metadata local_change local_path url status w c,
    Run ext context local_metadata local_change local_path url
    = Some (status, w) ->
    In c (calls w) ->
    is_version_mismatch c = true ->
    match c with
    | Call.UploadExistingFile file _ _ _ _ =>
        status = SYNC_STATUS_FILE_BUSY
        /\ needs_remote_change_listing_ (this w) = true
        /\ filter Call.is_upload (calls w) = [c]
        /\ exists error entry,
             filter is_drive_call (calls w)
             = [c; Call.GetFileResource file error entry]
    | _ =>
        status = (if IsDelete local_change then SYNC_STATUS_OK
                  else SYNC_STATUS_RETRY)
        /\ needs_remote_change_listing_ (this w) = false
        /\ filter Call.is_store_mutation (calls w) = []
        /\ filter Call.is_remote_mutation (calls w) = [c]
    end.
Proof.
  intros DB ext [[service|] [uploader|] [db|]] lm lc lp [host p valid]
         status w c Hrun Hin Hmis.
  all: run_paths Hrun.
  all: cbn in Hin; repeat (destruct Hin as [Hin|Hin]); try contradiction;
    try subst c; try discriminate Hmis.
  all: cbn in Hmis |- *.
  all: rewrite ?FilePath_eqb_refl in *.
  all: finish_leaf.
  all: decide_delete lc; repeat split;
    first [reflexivity | do 2 eexists; reflexivity].
Qed.

(** C7, as amended.  Whenever a remote delete is answered "not found", the
    syncer records the deletion: it calls UpdateByDeletedRemoteFile on the
    store with the file id of the delete, which is its only store write and
    leaves the store as that call returns it; the delete is the only request
    that changes the remote tree.  The task then completes as after a
    successful delete: with the store's status (Ok when the write succeeds)
    for a local delete, and with Retry in place of Ok when the delete was to
    make room for a re-creation. *)
Theorem delete_not_found_is_recorded :
  forall (DB : Type) (ext : Externals DB) context
         local_metadata local_change local_path url status w file version_tag,
    Run ext context local_metadata local_change local_path url
    = Some (status, w) ->
    In (Call.DeleteResource file version_tag HTTP_NOT_FOUND) (calls w) ->
    exists db,
      GetMetadataDatabase context = Some db
      /\ let stored :=
           MetadataDatabase.UpdateByDeletedRemoteFile
             (metadata_database_class ext) db file in
         GetMetadataDatabase (context_ w) = Some (fst stored)
         /\ filter Call.is_store_mutation (calls w)
            = [Call.UpdateByDeletedRemoteFile file (snd stored)]
         /\ filter Call.is_remote_mutation (calls w)
            = [Call.DeleteResource file version_tag HTTP_NOT_FOUND]
         /\ status
            = (if IsDelete local_change then snd stored
               else if is_status_ok (snd stored) then SYNC_STATUS_RETRY
                    else snd stored).
Proof.
  intros DB ext [[service|] [uploader|] [db|]] lm lc lp [host p valid]
         status w file version_tag Hrun Hin.
  all: run_paths Hrun.
  all: cbn in Hin; repeat (destruct Hin as [Hin|Hin]); try contradiction;
    try discriminate Hin.
  all: injection Hin as Hfile Htag Herror; subst file version_tag.
  all: rewrite ?FilePath_eqb_refl in *.
  all: finish_leaf.
  all: eexists; split; [reflexivity|].
  all: match goal with
       | E : MetadataDatabase.UpdateByDeletedRemoteFile _ _ _ = _ |- _ =>
           rewrite E
       end; cbn.
  all: decide_delete lc.
  all: repeat split; try reflexivity; try congruence.
  all: match goal with
       | |- context [is_status_ok ?s] => destruct s; reflexivity
       end.
Qed.

(** C4.  The code on the lost creation race.  Whenever the store answers
    TryActivateTracker with FailedAnotherActiveTracker, the run ends with
    these three calls: the folder creation that succeeded, the failed
    activation, and RemoveResourceFromDirectory of the new folder from the
    parent it was created under.  Creation and detaching are the only
    requests that change the remote tree (the folder is not deleted) and
    the store stays as the failed activation left it.  The status is Retry
    once the detaching succeeds (the detaching's error status otherwise),
    but NotifyTaskDone is handed a null pointer in place of the token of
    the task: the token went into the callback bound for
    TryActivateTracker, which the store does not run. *)
Theorem creation_conflict_hands_back_no_token :
  forall (DB : Type) (ext : Externals DB) context
         local_metadata local_change local_path url done w
         parent_tracker file,
    RunTask ext context (Some TaskToken)
      local_metadata local_change local_path url
    = Some (done, w) ->
    In (Call.TryActivateTracker parent_tracker file
          Call.FailedAnotherActiveTracker) (calls w) ->
    done_token done = None
    /\ exists parent name error db1 db2,
         skipn (List.length (calls w) - 3) (calls w)
         = [Call.FolderCreatorRun parent name file SYNC_STATUS_OK;
            Call.TryActivateTracker parent_tracker file
              Call.FailedAnotherActiveTracker;
            Call.RemoveResourceFromDirectory parent file error]
         /\ filter Call.is_remote_mutation (calls w)
            = [Call.FolderCreatorRun parent name file SYNC_STATUS_OK;
               Call.RemoveResourceFromDirectory parent file error]
         /\ MetadataDatabase.TryActivateTracker (metadata_database_class ext)
              db1 parent_tracker file
            = MetadataDatabase.ACTIVATION_FAILED_ANOTHER_ACTIVE_TRACKER db2
         /\ GetMetadataDatabase (context_ w) = Some db2
         /\ done_status done
            = (if is_status_ok (GDataErrorCodeToSyncStatusCode ext error)
               then SYNC_STATUS_RETRY
               else GDataErrorCodeToSyncStatusCode ext error).
Proof.
  intros DB ext [[service|] [uploader|] [db|]] lm lc lp [host p valid]
         done w parent_tracker file Hrun Hin.
  all: run_paths Hrun.
  all: cbn in Hin; repeat (destruct Hin as [Hin|Hin]); try contradiction;
    try discriminate Hin.
  all: injection Hin as Hparent Hfile; subst parent_tracker file.
  all: cbn [calls context_ GetMetadataDatabase done_token done_status].
  all: split; [reflexivity|].
  all: do 5 eexists.
  all: split; [reflexivity|].
  all: split; [reflexivity|].
  all: split; [eassumption|].
  all: split; [reflexivity|].
  all: rewrite ?FilePath_eqb_refl.
  all: match goal with
       | |- context [is_status_ok ?s] =>
           destruct s; first [reflexivity | discriminate]
       end.
Qed.


(** C6, as amended.  A local change that is a delete, or whose local file
    exists, applied to a scope without active ancestor, completes with
    UnknownOrigin after the lookup alone.  Given that status for a valid
    URL the engine calls RegisterOrigin on the URL's origin with a callback
    that drops the result -- a RegisterAppTask is scheduled at High
    priority unless it can finish immediately --, notifies no file-status
    observer, and passes UnknownOrigin on to the caller's callback. *)
Theorem unknown_origin_registers_app :
  forall (DB : Type) (ext : Externals DB) service uploader (db : DB)
         local_metadata local_change local_path url
         (delay : Z) (a : SyncEngine.Ambient) (engine : SyncEngine.World),
    IsLocalFileMissing local_metadata local_change
      && negb (IsDelete local_change) = false ->
    MetadataDatabase.FindNearestActiveAncestor (metadata_database_class ext)
      db (origin_host url) (path url) = None ->
    is_valid url = true ->
    exists w,
      Run ext (ready_context service uploader db)
          local_metadata local_change local_path url
      = Some (SYNC_STATUS_UNKNOWN_ORIGIN, w)
      /\ calls w
         = [Call.FindNearestActiveAncestor (origin_host url) (path url) None]
      /\ context_ w = ready_context service uploader db
      /\ let engine' :=
           SyncEngine.DidApplyLocalChange delay a (this w)
             SYNC_STATUS_UNKNOWN_ORIGIN engine in
         engine'
         = SyncEngine.notify (SyncEngine.CallbackRun SYNC_STATUS_UNKNOWN_ORIGIN)
             (SyncEngine.RegisterOrigin a (origin_host url) engine)
         /\ SyncEngine.notified engine'
            = SyncEngine.notified engine
              ++ [SyncEngine.CallbackRun SYNC_STATUS_UNKNOWN_ORIGIN]
         /\ (SyncEngine.CanFinishImmediately a = false ->
             exists before,
               SyncEngine.task_manager_ engine'
               = before
                 ++ [SyncEngine.ScheduleSyncTask
                       (SyncEngine.RegisterAppTask (origin_host url))
                       SyncEngine.PRIORITY_HIGH]).
Proof.
  intros DB ext service uploader db lm lc lp url delay a engine
         Hnotstray Hfind Hvalid.
  eexists. split.
  { unfold_syncer. run_simpl. rewrite Hnotstray. run_simpl.
    rewrite Hfind. reflexivity. }
  split; [reflexivity|]. split; [reflexivity|].
  cbn zeta. unfold SyncEngine.DidApplyLocalChange. cbn. rewrite Hvalid.
  cbn. split; [reflexivity|]. split.
  - unfold SyncEngine.RegisterOrigin, SyncEngine.PostInitializeTask.
    destruct (negb (SyncEngine.HasMetadataDatabase a)
              && SyncEngine.HasRefreshToken a);
      destruct (SyncEngine.CanFinishImmediately a); reflexivity.
  - intros Hslow. unfold SyncEngine.RegisterOrigin. rewrite Hslow.
    eexists. reflexivity.
Qed.

(** ** The engine's service state *)

Lemma UpdateServiceState_sets state description w :
  SyncEngine.service_state_ (SyncEngine.this
    (SyncEngine.UpdateServiceState state description w)) = state.
Proof.
  unfold SyncEngine.UpdateServiceState.
  destruct (SyncEngine.RemoteServiceState_eqb _ _); reflexivity.
Qed.

(** C5.  The service state after a task's status code is the one the
    specification's mapping gives, a function of the code, of whether a
    refresh token is present and of whether the network was used; a code
    outside the mapping leaves the whole engine as it was. *)
Theorem status_code_determines_service_state :
  forall (a : SyncEngine.Ambient) (status : SyncStatusCode)
         (used_network : bool) (w : SyncEngine.World),
    let w' := SyncEngine.UpdateServiceStateFromSyncStatusCode
                a status used_network w in
    SyncEngine.service_state_ (SyncEngine.this w')
    = claimed_service_state (SyncEngine.HasRefreshToken a) used_network
        (SyncEngine.service_state_ (SyncEngine.this w)) status
    /\ (is_mapped_status status = false -> w' = w).
Proof.
  intros a status used_network w. cbn zeta.
  unfold SyncEngine.UpdateServiceStateFromSyncStatusCode.
  destruct status, used_network, (SyncEngine.HasRefreshToken a); cbn;
    rewrite ?UpdateServiceState_sets; split;
    try reflexivity; intros; try discriminate; reflexivity.
Qed.


(** ** The engine's change listings *)
Module EngineFacts.
Import SyncEngine.

Lemma accepted_request r w :
  accepted_listings (request r w)
  = (accepted_listings w + if is_accepted_listing r then 1 else 0)%nat.
Proof.
  unfold accepted_listings, request. cbn [task_manager_].
  rewrite filter_app, length_app. cbn [filter].
  destruct (is_accepted_listing r); reflexivity.
Qed.

Lemma neutral_accounted f w done :
  listing_neutral f -> listing_accounted w done -> listing_accounted (f w) done.
Proof.
  unfold listing_accounted. intros Hf Hw.
  destruct (Hf w) as [-> ->]. exact Hw.
Qed.

Lemma neutral_UpdateServiceState state description :
  listing_neutral (UpdateServiceState state description).
Proof.
  intros w. unfold UpdateServiceState.
  destruct (RemoteServiceState_eqb _ _); split; reflexivity.
Qed.

Lemma neutral_SetSyncEnabled enabled : listing_neutral (SetSyncEnabled enabled).
Proof.
  intros w. unfold SetSyncEnabled.
  destruct (Bool.eqb _ _); [split; reflexivity|].
  destruct (RemoteServiceState_eqb _ _); split; reflexivity.
Qed.

Lemma neutral_UpdateServiceStateFromSyncStatusCode a status used_network :
  listing_neutral (UpdateServiceStateFromSyncStatusCode a status used_network).
Proof.
  intros w. unfold UpdateServiceStateFromSyncStatusCode.
  destruct status, used_network, (HasRefreshToken a);
    try apply neutral_UpdateServiceState; split; reflexivity.
Qed.

Lemma neutral_NotifyLastOperationStatus a status used_network :
  listing_neutral (NotifyLastOperationStatus a status used_network).
Proof.
  intros w. unfold NotifyLastOperationStatus.
  destruct (neutral_UpdateServiceStateFromSyncStatusCode
              a status used_network w) as [H1 H2].
  destruct (HasMetadataDatabase a); split; assumption.
Qed.

Lemma neutral_PostInitializeTask : listing_neutral PostInitializeTask.
Proof.
  intros w. unfold PostInitializeTask. rewrite accepted_request.
  split; [reflexivity|]. cbn. apply Nat.add_0_r.
Qed.

Lemma neutral_RegisterOrigin a origin : listing_neutral (RegisterOrigin a origin).
Proof.
  intros w. unfold RegisterOrigin.
  destruct (negb (HasMetadataDatabase a) && HasRefreshToken a);
    destruct (CanFinishImmediately a);
    rewrite ?accepted_request;
    try (destruct (neutral_PostInitializeTask w) as [H1 H2]);
    cbn [is_accepted_listing]; rewrite ?Nat.add_0_r;
    split; first [assumption | reflexivity].
Qed.

Lemma neutral_DidResolveConflict status :
  listing_neutral (DidResolveConflict status).
Proof.
  intros w. unfold DidResolveConflict.
  destruct (is_status_ok status); split; reflexivity.
Qed.

Section Delay.
Variable delay : Z.

Lemma accounted_MaybeStartFetchChanges a w done :
  listing_accounted w done ->
  listing_accounted (MaybeStartFetchChanges delay a w) done.
Proof.
  unfold listing_accounted, MaybeStartFetchChanges. intros Hw.
  destruct (RemoteServiceState_eqb _ _); [exact Hw|].
  destruct (negb (HasMetadataDatabase a)); [exact Hw|].
  destruct (listing_remote_changes_ (this w)) eqn:Hflag;
    [rewrite Hflag; exact Hw|].
  destruct (negb (should_check_remote_change_ (this w))
            && (Now a <? time_to_check_changes_ (this w))).
  - destruct (negb (HasDirtyTracker a) && should_check_conflict_ (this w)).
    + rewrite accepted_request. unfold accepted_listings in *. cbn.
      rewrite Hflag. lia.
    + rewrite Hflag. exact Hw.
  - destruct (TaskManagerIdle a) eqn:Hidle.
    + cbn [this with_this set_time_to_check_changes
             set_listing_remote_changes set_should_check_remote_change
             listing_remote_changes_].
      unfold accepted_listings in *. cbn [task_manager_ with_this
        set_time_to_check_changes set_listing_remote_changes
        set_should_check_remote_change request].
      rewrite filter_app, length_app. cbn. lia.
    + rewrite accepted_request. unfold accepted_listings in *. cbn.
      rewrite Hflag. lia.
Qed.

Lemma accounted_MaybeScheduleNextTask a w done :
  listing_accounted w done ->
  listing_accounted (MaybeScheduleNextTask delay a w) done.
Proof.
  unfold MaybeScheduleNextTask. intros Hw.
  destruct (RemoteServiceState_eqb _ _); [exact Hw|].
  now apply accounted_MaybeStartFetchChanges.
Qed.

Lemma neutral_set_should_check_remote_change b :
  listing_neutral (set_should_check_remote_change b).
Proof. intros w; split; reflexivity. Qed.

Lemma neutral_set_should_check_conflict b :
  listing_neutral (set_should_check_conflict b).
Proof. intros w; split; reflexivity. Qed.

Lemma neutral_set_network_available b :
  listing_neutral (set_network_available b).
Proof. intros w; split; reflexivity. Qed.

Lemma neutral_notify n : listing_neutral (notify n).
Proof. intros w; split; reflexivity. Qed.

Lemma accounted_start_listing r t w done :
  is_accepted_listing r = true ->
  listing_remote_changes_ (this w) = false ->
  listing_accounted w done ->
  listing_accounted
    (set_time_to_check_changes t
       (set_listing_remote_changes true
          (set_should_check_remote_change false (request r w)))) done.
Proof.
  unfold listing_accounted, accepted_listings. intros Hr Hflag Hw.
  rewrite Hflag in Hw. cbn. rewrite filter_app, length_app. cbn.
  rewrite Hr. cbn. lia.
Qed.

Lemma accounted_DidApplyLocalChange a syncer status w done :
  listing_accounted w done ->
  listing_accounted (DidApplyLocalChange delay a syncer status w) done.
Proof.
  intros Hw. unfold DidApplyLocalChange. cbv zeta.
  repeat match goal with
         | |- listing_accounted (if ?c then _ else _) _ =>
             destruct c eqn:?
         | |- listing_accounted (match ?s with _ => _ end) _ =>
             destruct s eqn:?
         | |- listing_accounted (notify _ _) _ =>
             apply neutral_accounted; [apply neutral_notify|]
         | |- listing_accounted (set_should_check_conflict _ _) _ =>
             apply neutral_accounted;
             [apply neutral_set_should_check_conflict|]
         | |- listing_accounted (RegisterOrigin _ _ _) _ =>
             apply neutral_accounted; [apply neutral_RegisterOrigin|]
         | H : (_ && negb (listing_remote_changes_ (this ?x)))%bool = true
           |- listing_accounted (set_time_to_check_changes _ _) _ =>
             apply andb_prop in H; destruct H as [_ H];
             apply negb_true_iff in H;
             apply accounted_start_listing; [reflexivity|exact H|]
         end;
    exact Hw.
Qed.

Lemma accounted_handle e w done :
  listing_accounted w done -> listing_accounted (handle delay e w) done.
Proof.
  intros Hw. destruct e; cbn [handle].
  - apply neutral_accounted; auto using neutral_SetSyncEnabled.
  - now apply accounted_MaybeScheduleNextTask.
  - now apply accounted_MaybeStartFetchChanges.
  - apply neutral_accounted; auto using neutral_NotifyLastOperationStatus.
  - unfold OnNotificationReceived.
    apply accounted_MaybeScheduleNextTask.
    apply neutral_accounted;
      [apply neutral_set_should_check_remote_change|].
    destruct (service_state_ (this w)); auto.
    apply neutral_accounted; auto using neutral_UpdateServiceState.
  - unfold OnReadyToSendRequests.
    destruct (service_state_ (this w)); auto;
      (destruct (negb (HasMetadataDatabase a) && HasSigninManager a);
       [ apply neutral_accounted; [apply neutral_PostInitializeTask|];
         apply neutral_accounted; auto using neutral_UpdateServiceState
       | apply accounted_MaybeScheduleNextTask;
         apply neutral_accounted;
         [apply neutral_set_should_check_remote_change|];
         apply neutral_accounted; auto using neutral_UpdateServiceState ]).
  - apply neutral_accounted; auto. apply neutral_UpdateServiceState.
  - unfold OnNetworkChanged.
    apply neutral_accounted; [apply neutral_set_network_available|].
    destruct (network_available_ (this w) && negb new_network_availability).
    + apply neutral_accounted; auto using neutral_UpdateServiceState.
    + destruct (negb (network_available_ (this w))
                && new_network_availability); auto.
      apply accounted_MaybeStartFetchChanges.
      apply neutral_accounted;
        [apply neutral_set_should_check_remote_change|].
      apply neutral_accounted; auto using neutral_UpdateServiceState.
  - apply neutral_accounted; auto using neutral_RegisterOrigin.
  - now apply accounted_DidApplyLocalChange.
  - apply neutral_accounted; auto using neutral_DidResolveConflict.
Qed.

Lemma accounted_DidFetchChanges status w done :
  (done < accepted_listings w)%nat ->
  listing_accounted w done ->
  listing_accounted (DidFetchChanges status w) (S done).
Proof.
  unfold listing_accounted, DidFetchChanges. intros Hlt Hw.
  destruct (listing_remote_changes_ (this w)); [|lia].
  destruct (is_status_ok status); cbn; unfold accepted_listings in *;
    cbn; lia.
Qed.

Lemma reachable_accounted w done :
  reachable delay w done -> listing_accounted w done.
Proof.
  induction 1.
  - reflexivity.
  - now apply accounted_handle.
  - now apply accounted_DidFetchChanges.
Qed.

End Delay.
End EngineFacts.

Module EngineListing.
Import SyncEngine EngineFacts.

Section Delay.
Variable delay : Z.

Lemma DidApplyLocalChange_listing a syncer status w :
  LocalToRemoteSyncer.needs_remote_change_listing_ syncer = true ->
  let w' := DidApplyLocalChange delay a syncer status w in
  listing_remote_changes_ (this w') = true
  /\ (listing_remote_changes_ (this w) = true ->
      accepted_listings w' = accepted_listings w)
  /\ (listing_remote_changes_ (this w) = false ->
      accepted_listings w' = S (accepted_listings w)
      /\ exists before,
           task_manager_ w'
           = before ++ [ScheduleSyncTask ListChangesTask PRIORITY_HIGH]).
Proof.
  intros Hneeds. unfold DidApplyLocalChange. cbv zeta. rewrite Hneeds.
  match goal with
  | |- context [negb (listing_remote_changes_ (this ?W2))] =>
      assert (HW2 : listing_remote_changes_ (this W2)
                    = listing_remote_changes_ (this w)
                    /\ accepted_listings W2 = accepted_listings w);
      [ | set (x := W2) in *; clearbody x ]
  end.
  { repeat match goal with
           | |- context [if ?c then _ else _] => destruct c
           | |- context [match ?s with _ => _ end] => destruct s
           end;
      repeat match goal with
             | |- context [RegisterOrigin ?a ?o ?y] =>
                 destruct (neutral_RegisterOrigin a o y) as [-> ->]
             end;
      split; reflexivity. }
  destruct HW2 as [Hflag Haccepted]. rewrite <- Hflag, <- Haccepted.
  unfold accepted_listings.
  destruct (listing_remote_changes_ (this x)) eqn:Hx; cbn [andb negb];
    destruct (negb (is_status_ok status) && _), (is_status_ok status);
    cbn; rewrite ?Hx, ?filter_app, ?length_app; cbn;
    (split; [reflexivity|]); (split; intros; try discriminate);
    try reflexivity; (split; [lia | eexists; reflexivity]).
Qed.

Lemma flag_kept_MaybeStartFetchChanges a w :
  listing_remote_changes_ (this w) = true ->
  listing_remote_changes_ (this (MaybeStartFetchChanges delay a w)) = true.
Proof.
  intros Hflag. unfold MaybeStartFetchChanges. rewrite Hflag.
  repeat match goal with
         | |- context [if ?c then _ else _] => destruct c
         end; assumption.
Qed.

Lemma flag_kept_MaybeScheduleNextTask a w :
  listing_remote_changes_ (this w) = true ->
  listing_remote_changes_ (this (MaybeScheduleNextTask delay a w)) = true.
Proof.
  intros Hflag. unfold MaybeScheduleNextTask.
  destruct (RemoteServiceState_eqb _ _); [assumption|].
  now apply flag_kept_MaybeStartFetchChanges.
Qed.

Lemma flag_kept_neutral f w :
  listing_neutral f ->
  listing_remote_changes_ (this w) = true ->
  listing_remote_changes_ (this (f w)) = true.
Proof. intros Hf Hflag. now rewrite (proj1 (Hf w)). Qed.

Lemma listing_flag_kept e w :
  listing_remote_changes_ (this w) = true ->
  listing_remote_changes_ (this (handle delay e w)) = true.
Proof.
  intros Hflag.
  destruct e; cbn [handle].
  - now apply flag_kept_neutral; [apply neutral_SetSyncEnabled|].
  - now apply flag_kept_MaybeScheduleNextTask.
  - now apply flag_kept_MaybeStartFetchChanges.
  - now apply flag_kept_neutral;
      [apply neutral_NotifyLastOperationStatus|].
  - unfold OnNotificationReceived.
    apply flag_kept_MaybeScheduleNextTask.
    apply flag_kept_neutral; [apply neutral_set_should_check_remote_change|].
    destruct (service_state_ (this w)); try assumption.
    now apply flag_kept_neutral; [apply neutral_UpdateServiceState|].
  - unfold OnReadyToSendRequests.
    destruct (service_state_ (this w)); try assumption;
      (destruct (negb (HasMetadataDatabase a) && HasSigninManager a);
       [ apply flag_kept_neutral; [apply neutral_PostInitializeTask|]
       | apply flag_kept_MaybeScheduleNextTask;
         apply flag_kept_neutral;
         [apply neutral_set_should_check_remote_change|] ];
       now apply flag_kept_neutral; [apply neutral_UpdateServiceState|]).
  - now apply flag_kept_neutral; [apply neutral_UpdateServiceState|].
  - unfold OnNetworkChanged.
    apply flag_kept_neutral; [apply neutral_set_network_available|].
    destruct (network_available_ (this w) && negb new_network_availability);
      [ now apply flag_kept_neutral; [apply neutral_UpdateServiceState|] | ].
    destruct (negb (network_available_ (this w))
              && new_network_availability); [|assumption].
    apply flag_kept_MaybeStartFetchChanges.
    apply flag_kept_neutral; [apply neutral_set_should_check_remote_change|].
    now apply flag_kept_neutral; [apply neutral_UpdateServiceState|].
  - now apply flag_kept_neutral; [apply neutral_RegisterOrigin|].
  - unfold DidApplyLocalChange. cbv zeta.
    match goal with
    | |- context [negb (listing_remote_changes_ (this ?W2))] =>
        assert (HW2 : listing_remote_changes_ (this W2) = true);
        [ | set (x := W2) in *; clearbody x ]
    end.
    { repeat match goal with
             | |- context [if ?c then _ else _] => destruct c
             | |- context [match ?s with _ => _ end] => destruct s
             end;
        rewrite ?(proj1 (neutral_RegisterOrigin _ _ _)); assumption. }
    rewrite HW2, andb_false_r.
    repeat match goal with
           | |- context [if ?c then _ else _] => destruct c
           end; assumption.
  - now apply flag_kept_neutral; [apply neutral_DidResolveConflict|].
Qed.

End Delay.
End EngineListing.

(** C9.  In every state the engine can reach, at most one change listing
    is in flight, and one is in flight exactly when listing_remote_changes_
    is set.  No call other than the completion of the listing clears the
    flag.  When a finished local-to-remote task asks for a remote listing,
    the engine ends with the flag set and one listing in flight: with the
    flag already set nothing more is accepted by the task manager, and with
    the flag clear the engine's last request is a ListChangesTask at High
    priority. *)
Theorem at_most_one_listing_in_flight :
  forall (delay : Z) (w : SyncEngine.World) (done : nat),
    SyncEngine.reachable delay w done ->
    (SyncEngine.listings_in_flight w done <= 1)%nat
    /\ (SyncEngine.listing_remote_changes_ (SyncEngine.this w) = true
        <-> SyncEngine.listings_in_flight w done = 1%nat)
    /\ (forall e,
          SyncEngine.listing_remote_changes_ (SyncEngine.this w) = true ->
          SyncEngine.listing_remote_changes_
            (SyncEngine.this (SyncEngine.handle delay e w)) = true)
    /\ (forall a syncer status,
          LocalToRemoteSyncer.needs_remote_change_listing_ syncer = true ->
          let w' := SyncEngine.DidApplyLocalChange delay a syncer status w in
          SyncEngine.reachable delay w' done
          /\ SyncEngine.listings_in_flight w' done = 1%nat
          /\ (SyncEngine.listing_remote_changes_ (SyncEngine.this w) = true ->
              SyncEngine.accepted_listings w' = SyncEngine.accepted_listings w)
          /\ (SyncEngine.listing_remote_changes_ (SyncEngine.this w) = false ->
              exists before,
                SyncEngine.task_manager_ w'
                = before ++ [SyncEngine.ScheduleSyncTask
                               SyncEngine.ListChangesTask
                               SyncEngine.PRIORITY_HIGH])).
Proof.
  intros delay w done Hreach.
  pose proof (EngineFacts.reachable_accounted Hreach) as Hacc.
  unfold listing_accounted in Hacc.
  unfold SyncEngine.listings_in_flight.
  split; [|split; [|split]].
  - destruct (SyncEngine.listing_remote_changes_ (SyncEngine.this w)); lia.
  - destruct (SyncEngine.listing_remote_changes_ (SyncEngine.this w));
      split; intros; try discriminate; try reflexivity; lia.
  - intros e. apply EngineListing.listing_flag_kept.
  - intros a syncer status Hneeds. cbn zeta.
    destruct (@EngineListing.DidApplyLocalChange_listing
                delay a syncer status w Hneeds)
      as [Hflag' [Hsame Hnew]].
    pose proof (@SyncEngine.reachable_event delay w done
                  (SyncEngine.LocalToRemoteSyncerDone a syncer status) Hreach)
      as Hreach'.
    cbn [SyncEngine.handle] in Hreach'.
    pose proof (EngineFacts.reachable_accounted Hreach') as Hacc'.
    unfold listing_accounted in Hacc'. rewrite Hflag' in Hacc'.
    split; [exact Hreach'|]. split; [lia|]. split; [exact Hsame|].
    intros Hfalse. exact (proj2 (Hnew Hfalse)).
Qed.

(** ** More on paths *)

Lemma FilePath_eqb_eq p q : FilePath_eqb p q = true -> p = q.
Proof.
  revert q. induction p as [|a p IH]; intros [|b q] H; simpl in H;
    try discriminate; [reflexivity|].
  apply andb_prop in H. destruct H as [Hab Hpq].
  apply String.eqb_eq in Hab. subst b. f_equal. now apply IH.
Qed.

Lemma AppendRelativePath_sound parent child below :
  AppendRelativePath parent child = Some below ->
  child = parent ++ below.
Proof.
  revert child. induction parent as [|a parent IH]; intros [|b child] H;
    simpl in H; try discriminate.
  - now injection H as <-.
  - destruct (String.eqb_spec a b) as [->|]; [|discriminate].
    simpl. f_equal. now apply IH.
Qed.

Lemma missing_entries_of_sound ancestor p missing_entries :
  missing_entries_of ancestor p = Some missing_entries ->
  p = ancestor ++ missing_entries.
Proof.
  unfold missing_entries_of. destruct ancestor as [|a ap].
  - cbn. now intros [= <-].
  - cbn [empty]. destruct (FilePath_eqb (a :: ap) p) eqn:Heq; cbn [negb].
    + intros [= <-]. rewrite app_nil_r. symmetry. now apply FilePath_eqb_eq.
    + apply AppendRelativePath_sound.
Qed.

Lemma missing_entries_of_nil ancestor p :
  missing_entries_of ancestor p = Some [] -> ancestor = p.
Proof.
  intros H. apply missing_entries_of_sound in H.
  now rewrite app_nil_r in H.
Qed.

(** X1.  The components [RunExclusive] takes as missing are what is left of
    the target path below the ancestor's path: the computation succeeds
    exactly when the ancestor's path is a prefix of the target, and then the
    ancestor's path followed by the missing components is the target. *)
Theorem missing_entries_complete_the_path :
  forall (active_ancestor_path p missing_entries : FilePath),
    missing_entries_of active_ancestor_path p = Some missing_entries
    <-> p = active_ancestor_path ++ missing_entries.
Proof.
  intros ap p m. split; [apply missing_entries_of_sound|].
  intros ->. destruct m as [|c rest].
  - rewrite app_nil_r. apply missing_entries_of_same.
  - apply missing_entries_of_below.
Qed.

(** ** Every run of the syncer *)

(** X2.  In every run the syncer asks for a remote change listing exactly
    when the server answered the upload of an existing file with
    "precondition failed", "conflict" or "not found", the upload of a new
    file with "not found", or the folder creation with "not found"; and a
    run that asks for the listing completes with FileBusy, whatever it did
    afterwards. *)
Theorem listing_request_reported_busy :
  forall (DB : Type) (ext : Externals DB) context
         local_metadata local_change local_path url status w,
    Run ext context local_metadata local_change local_path url
    = Some (status, w) ->
    needs_remote_change_listing_ (this w)
    = existsb is_listing_trigger (calls w)
    /\ (needs_remote_change_listing_ (this w) = true ->
        status = SYNC_STATUS_FILE_BUSY).
Proof.
  intros DB ext [[service|] [uploader|] [db|]] lm lc lp [host p valid]
         status w Hrun.
  all: run_paths Hrun.
  all: cbn.
  all: finish_leaf.
  all: split; [reflexivity|intro; first [reflexivity|discriminate]].
Qed.

(** X3.  In every run, used_network is set exactly when a request went out
    through the Drive service or the uploader (the folder creator's
    included). *)
Theorem network_flag_tells_drive_calls :
  forall (DB : Type) (ext : Externals DB) context
         local_metadata local_change local_path url status w,
    Run ext context local_metadata local_change local_path url
    = Some (status, w) ->
    used_network_ (this w) = existsb is_drive_call (calls w).
Proof.
  intros DB ext [[service|] [uploader|] [db|]] lm lc lp [host p valid]
         status w Hrun.
  all: run_paths Hrun.
  all: reflexivity.
Qed.

(** X4.  In every run the sync action reported is that of the first request
    that changed the remote tree: Deleted for a delete, Updated for the
    upload of an existing file, Added for the upload of a new file or the
    creation of a folder, and None when no such request was sent. *)
Theorem sync_action_tells_first_remote_change :
  forall (DB : Type) (ext : Externals DB) context
         local_metadata local_change local_path url status w,
    Run ext context local_metadata local_change local_path url
    = Some (status, w) ->
    sync_action_ (this w) = action_of_calls (calls w).
Proof.
  intros DB ext [[service|] [uploader|] [db|]] lm lc lp [host p valid]
         status w Hrun.
  all: run_paths Hrun.
  all: reflexivity.
Qed.

(** X5.  A run sends at most one request that changes the remote tree, with
    one exception: a folder creation that succeeded, followed by the
    detaching of that same folder from that same parent. *)
Theorem remote_changes_of_one_run :
  forall (DB : Type) (ext : Externals DB) context
         local_metadata local_change local_path url status w,
    Run ext context local_metadata local_change local_path url
    = Some (status, w) ->
    match filter Call.is_remote_mutation (calls w) with
    | [] | [_] => True
    | [Call.FolderCreatorRun parent _ file SYNC_STATUS_OK;
       Call.RemoveResourceFromDirectory parent' file' _] =>
        parent' = parent /\ file' = file
    | _ => False
    end.
Proof.
  intros DB ext [[service|] [uploader|] [db|]] lm lc lp [host p valid]
         status w Hrun.
  all: run_paths Hrun.
  all: cbn; auto.
Qed.

(** X6.  A run that changed the remote tree completes with Ok only when the
    path it worked on is the path of the URL: work on an ancestor of the
    target never ends in Ok. *)
Theorem ok_only_for_the_target :
  forall (DB : Type) (ext : Externals DB) context
         local_metadata local_change local_path url status w,
    Run ext context local_metadata local_change local_path url
    = Some (status, w) ->
    status = SYNC_STATUS_OK ->
    filter Call.is_remote_mutation (calls w) <> [] ->
    target_path_ (this w) = path url.
Proof.
  intros DB ext [[service|] [uploader|] [db|]] lm lc lp [host p valid]
         status w Hrun Hok Hmut.
  all: run_paths Hrun.
  all: cbn in Hmut |- *; try congruence.
  all: finish_leaf.
  all: match goal with
       | H : context [FilePath_eqb ?a ?b] |- ?a = ?b =>
           destruct (FilePath_eqb a b) eqn:Heq;
           [apply FilePath_eqb_eq; exact Heq|]
       end.
  all: repeat match goal with
              | H : context [is_status_ok ?s] |- _ =>
                  destruct s; cbn in H; try discriminate H
              end.
Qed.

(** X7.  Every remote delete names the file and the synced version tag of
    the tracker the ancestor lookup returned, and the run's target path is
    that tracker's path.  Every upload of an existing file names the file
    and the synced version tag of the tracker found at the exact target
    path, sends the local path given, and is sent only when that tracker is
    clean, was synced as a file, and the local content hash differs from the
    synced one. *)
Theorem conditional_requests_carry_synced_version :
  forall (DB : Type) (ext : Externals DB) context
         local_metadata local_change local_path url status w c,
    Run ext context local_metadata local_change local_path url
    = Some (status, w) ->
    In c (calls w) ->
    match c with
    | Call.DeleteResource file version_tag _ =>
        exists tracker ancestor_path,
          In (Call.FindNearestActiveAncestor (origin_host url) (path url)
                (Some (tracker, ancestor_path))) (calls w)
          /\ file = file_id tracker
          /\ version_tag = etag (synced_details tracker)
          /\ target_path_ (this w) = ancestor_path
    | Call.UploadExistingFile file sent_path version_tag _ _ =>
        exists tracker,
          In (Call.FindNearestActiveAncestor (origin_host url) (path url)
                (Some (tracker, path url))) (calls w)
          /\ file = file_id tracker
          /\ version_tag = etag (synced_details tracker)
          /\ sent_path = local_path
          /\ dirty tracker = false
          /\ file_kind (synced_details tracker) = FILE_KIND_FILE
          /\ String.eqb (GetMd5Digest ext local_path)
               (md5 (synced_details tracker)) = false
    | _ => True
    end.
Proof.
  intros DB ext [[service|] [uploader|] [db|]] lm lc lp [host p valid]
         status w c Hrun Hin.
  all: run_paths Hrun.
  all: cbn in Hin; repeat (destruct Hin as [Hin|Hin]); try contradiction;
    subst c; try exact I.
  all: cbn [calls this origin_host path].
  all: split_missing_components.
  all: repeat match goal with
              | H : missing_entries_of _ _ = Some [] |- _ =>
                  apply missing_entries_of_nil in H; subst
              end.
  all: try (eexists; eexists; split; [cbn; left; reflexivity|];
            repeat split; reflexivity).
  all: eexists; split; [cbn; left; reflexivity|].
  all: repeat split; try reflexivity; try assumption.
  all: match goal with
       | H : FileKind_eqb ?k FILE_KIND_FILE = true |- ?k = _ =>
           destruct k; first [reflexivity | discriminate H]
       end.
Qed.

(** X8.  Whenever a remote delete is answered with anything but "not found",
    it is the run's only request that changes the remote tree and the store
    is not written.  When the answer maps to Ok or is "precondition failed"
    or "conflict", the task completes with Ok for a local delete and with
    Retry when the delete was to make room; otherwise it completes with the
    status the answer maps to. *)
Theorem delete_answer_decides_outcome :
  forall (DB : Type) (ext : Externals DB) context
         local_metadata local_change local_path url status w
         file version_tag error,
    Run ext context local_metadata local_change local_path url
    = Some (status, w) ->
    In (Call.DeleteResource file version_tag error) (calls w) ->
    error <> HTTP_NOT_FOUND ->
    filter Call.is_remote_mutation (calls w)
    = [Call.DeleteResource file version_tag error]
    /\ filter Call.is_store_mutation (calls w) = []
    /\ GetMetadataDatabase (context_ w) = GetMetadataDatabase context
    /\ status
       = (let answered := GDataErrorCodeToSyncStatusCode ext error in
          if is_status_ok answered
             || (error =? HTTP_PRECONDITION) || (error =? HTTP_CONFLICT)
          then if IsDelete local_change then SYNC_STATUS_OK
               else SYNC_STATUS_RETRY
          else answered).
Proof.
  intros DB ext [[service|] [uploader|] [db|]] lm lc lp [host p valid]
         status w file version_tag error Hrun Hin Hnf.
  all: run_paths Hrun.
  all: cbn in Hin; repeat (destruct Hin as [Hin|Hin]); try contradiction;
    try discriminate Hin.
  all: injection Hin as Hfile Htag Herror; subst file version_tag error.
  all: rewrite ?FilePath_eqb_refl in *.
  all: finish_leaf.
  all: cbn.
  all: decide_delete lc.
  all: repeat split; try reflexivity.
  all: repeat match goal with
              | |- context [is_status_ok ?s] =>
                  lazymatch s with
                  | context [if _ then _ else _] => fail
                  | _ => destruct s; cbn in *; try discriminate
                  end
              end.
  all: rewrite ?FilePath_eqb_refl; reflexivity.
Qed.

(** X9.  With the three collaborators present, and provided that the store
    finds the parent of any tracker it finds at the exact target path, a
    run dereferences no null pointer and ends in NotifyTaskDone.  What
    NotifyTaskDone is handed in place of the token is the token of the
    task -- except in a run whose TryActivateTracker was answered
    FailedAnotherActiveTracker, where it is a null pointer. *)
Theorem run_ends_in_NotifyTaskDone :
  forall (DB : Type) (ext : Externals DB) service uploader (db : DB)
         local_metadata local_change local_path url,
    (forall tracker,
        MetadataDatabase.FindNearestActiveAncestor
          (metadata_database_class ext) db (origin_host url) (path url)
        = Some (tracker, path url) ->
        MetadataDatabase.FindTrackerByTrackerID (metadata_database_class ext)
          db (parent_tracker_id tracker) <> None) ->
    exists done w,
      RunTask ext (ready_context service uploader db) (Some TaskToken)
        local_metadata local_change local_path url = Some (done, w)
      /\ done_token done
         = (if existsb is_failed_activation (calls w) then None
            else Some TaskToken).
Proof.
  intros DB ext service uploader db lm lc lp [host p valid] Hparent.
  cbn [origin_host path] in Hparent.
  destruct (RunTask ext (ready_context service uploader db) (Some TaskToken)
              lm lc lp
              {| origin_host := host; path := p; is_valid := valid |})
    as [[done w]|] eqn:Hrun.
  - exists done, w. split; [reflexivity|]. clear Hparent.
    run_paths Hrun.
    all: reflexivity.
  - exfalso.
    fault_paths Hrun.
    all: split_missing_components.
    all: match goal with
         | H : missing_entries_of _ _ = Some [] |- _ =>
             apply missing_entries_of_nil in H; subst
         end.
    all: match goal with
         | N : MetadataDatabase.FindTrackerByTrackerID _ _
                 (parent_tracker_id ?t) = None |- _ =>
             exact (Hparent t eq_refl N)
         end.
Qed.

(** ** Runs on a tracked target *)

(** X10.  A local add or update over a clean tracker at the exact path does
    nothing when the remote side already matches: a file whose local content
    hash is the synced one, or a folder over a remote entry that is not a
    file.  The run completes with Ok, sends nothing to Drive, writes nothing
    to the store, reports the action None and leaves used_network unset. *)
Theorem synced_entry_is_left_alone :
  forall (DB : Type) (ext : Externals DB) service uploader (db : DB)
         local_metadata local_change local_path url tracker,
    IsLocalFileMissing local_metadata local_change = false ->
    MetadataDatabase.FindNearestActiveAncestor (metadata_database_class ext)
      db (origin_host url) (path url) = Some (tracker, path url) ->
    dirty tracker = false ->
    (if IsFile local_change
     then file_kind (synced_details tracker) = FILE_KIND_FILE
          /\ GetMd5Digest ext local_path = md5 (synced_details tracker)
     else file_kind (synced_details tracker) <> FILE_KIND_FILE) ->
    exists w,
      Run ext (ready_context service uploader db)
          local_metadata local_change local_path url
      = Some (SYNC_STATUS_OK, w)
      /\ filter is_drive_call (calls w) = []
      /\ filter Call.is_store_mutation (calls w) = []
      /\ context_ w = ready_context service uploader db
      /\ sync_action_ (this w) = SYNC_ACTION_NONE
      /\ used_network_ (this w) = false
      /\ needs_remote_change_listing_ (this w) = false.
Proof.
  intros DB ext service uploader db lm lc lp [host p valid] tracker
         Hpresent Hfind Hclean Hsame.
  cbn [path origin_host] in *.
  unfold_syncer.
  repeat (run_simpl;
          progress rewrite ?Hpresent, ?Hfind, ?missing_entries_of_same,
                           ?Hclean).
  run_simpl.
  destruct (IsFile lc).
  - destruct Hsame as [Hkind Hmd5]. run_simpl. rewrite Hkind. run_simpl.
    rewrite Hmd5, String.eqb_refl, FilePath_eqb_refl. run_simpl.
    eexists. split; [reflexivity|]. cbn. repeat split; reflexivity.
  - destruct (file_kind (synced_details tracker)); try contradiction;
      run_simpl; rewrite FilePath_eqb_refl; run_simpl;
      (eexists; split; [reflexivity|]; cbn; repeat split; reflexivity).
Qed.

(** X11.  A local delete whose tracker at the exact path is dirty (a remote
    change is pending) is dropped: the run completes with Ok, sends nothing
    to Drive, writes nothing to the store and reports the action None. *)
Theorem delete_loses_to_remote_change :
  forall (DB : Type) (ext : Externals DB) service uploader (db : DB)
         local_metadata local_change local_path url tracker,
    IsDelete local_change = true ->
    MetadataDatabase.FindNearestActiveAncestor (metadata_database_class ext)
      db (origin_host url) (path url) = Some (tracker, path url) ->
    dirty tracker = true ->
    exists w,
      Run ext (ready_context service uploader db)
          local_metadata local_change local_path url
      = Some (SYNC_STATUS_OK, w)
      /\ filter is_drive_call (calls w) = []
      /\ filter Call.is_store_mutation (calls w) = []
      /\ context_ w = ready_context service uploader db
      /\ sync_action_ (this w) = SYNC_ACTION_NONE.
Proof.
  intros DB ext service uploader db lm lc lp [host p valid] tracker
         Hdelete Hfind Hdirty.
  cbn [path origin_host] in *.
  assert (Hmissing : IsLocalFileMissing lm lc = true).
  { unfold IsLocalFileMissing. rewrite Hdelete. apply orb_true_r. }
  unfold_syncer.
  repeat (run_simpl;
          progress rewrite ?Hmissing, ?Hdelete, ?Hfind,
                           ?missing_entries_of_same, ?Hdirty,
                           ?FilePath_eqb_refl).
  run_simpl.
  eexists. split; [reflexivity|]. cbn. repeat split; reflexivity.
Qed.

(** X12.  A local file over a clean remote entry that is not a file, or a
    local folder over a clean remote file: the syncer sends one remote
    delete of the tracked entry with its synced version tag, its only
    request that changes the remote tree, and reports Deleted.  The task
    never completes with Ok; when the delete succeeds it completes with
    Retry and the store is as it was. *)
Theorem kind_mismatch_deletes_remote :
  forall (DB : Type) (ext : Externals DB) service uploader (db : DB)
         local_metadata local_change local_path url tracker,
    IsLocalFileMissing local_metadata local_change = false ->
    MetadataDatabase.FindNearestActiveAncestor (metadata_database_class ext)
      db (origin_host url) (path url) = Some (tracker, path url) ->
    dirty tracker = false ->
    IsFile local_change
    = negb (FileKind_eqb (file_kind (synced_details tracker)) FILE_KIND_FILE) ->
    let answer :=
      DriveService.DeleteResource service
        (file_id tracker) (etag (synced_details tracker)) in
    exists status w,
      Run ext (ready_context service uploader db)
          local_metadata local_change local_path url = Some (status, w)
      /\ filter Call.is_remote_mutation (calls w)
         = [Call.DeleteResource (file_id tracker)
              (etag (synced_details tracker)) answer]
      /\ sync_action_ (this w) = SYNC_ACTION_DELETED
      /\ status <> SYNC_STATUS_OK
      /\ (GDataErrorCodeToSyncStatusCode ext answer = SYNC_STATUS_OK ->
          answer <> HTTP_NOT_FOUND ->
          status = SYNC_STATUS_RETRY
          /\ context_ w = ready_context service uploader db).
Proof.
  intros DB ext service uploader db lm lc lp [host p valid] tracker
         Hpresent Hfind Hclean Hkind answer.
  cbn [path origin_host] in *.
  subst answer. unfold_syncer.
  repeat (run_simpl;
          progress rewrite ?Hpresent, ?Hfind, ?missing_entries_of_same,
                           ?Hclean, ?Hkind).
  run_simpl.
  destruct (FileKind_eqb (file_kind (synced_details tracker)) FILE_KIND_FILE);
    run_simpl; rewrite ?FilePath_eqb_refl;
    remember (DriveService.DeleteResource service (file_id tracker)
                (etag (synced_details tracker))) as answer eqn:Hanswer;
    clear Hanswer;
    (destruct (GDataErrorCodeToSyncStatusCode ext answer) eqn:Hstatus;
     run_simpl;
     unfold HTTP_NOT_FOUND, HTTP_PRECONDITION, HTTP_CONFLICT;
     destruct (Z.eqb_spec answer 404); run_simpl;
     try (destruct (MetadataDatabase.UpdateByDeletedRemoteFile
                      (metadata_database_class ext) db (file_id tracker))
            as [db' st] eqn:Hstore; run_simpl);
     try (destruct (Z.eqb_spec answer 412); run_simpl);
     try (destruct (Z.eqb_spec answer 409); run_simpl);
     eexists; eexists; (split; [reflexivity|]); cbn;
     (split; [reflexivity|]); (split; [reflexivity|]);
     (split; [try (destruct st; cbn); discriminate|]);
     intros Hok Hnf; try discriminate Hok; try contradiction;
     split; reflexivity).
Qed.

(** X13.  For a local add or update whose local file exists: when more
    than one component is missing below a nearest active ancestor that is
    not a folder, the syncer deletes that ancestor: one remote delete with
    the ancestor's synced version tag, the target path set to the
    ancestor's path, the action Deleted.  The task never completes with Ok;
    when the delete succeeds it completes with Retry and the store is as it
    was. *)
Theorem file_in_the_way_is_deleted :
  forall (DB : Type) (ext : Externals DB) service uploader (db : DB)
         local_metadata local_change local_path url
         ancestor ancestor_path first second rest,
    IsLocalFileMissing local_metadata local_change = false ->
    MetadataDatabase.FindNearestActiveAncestor (metadata_database_class ext)
      db (origin_host url) (path url) = Some (ancestor, ancestor_path) ->
    path url = ancestor_path ++ first :: second :: rest ->
    file_kind (synced_details ancestor) <> FILE_KIND_FOLDER ->
    let answer :=
      DriveService.DeleteResource service
        (file_id ancestor) (etag (synced_details ancestor)) in
    exists status w,
      Run ext (ready_context service uploader db)
          local_metadata local_change local_path url = Some (status, w)
      /\ filter Call.is_remote_mutation (calls w)
         = [Call.DeleteResource (file_id ancestor)
              (etag (synced_details ancestor)) answer]
      /\ sync_action_ (this w) = SYNC_ACTION_DELETED
      /\ target_path_ (this w) = ancestor_path
      /\ status <> SYNC_STATUS_OK
      /\ (GDataErrorCodeToSyncStatusCode ext answer = SYNC_STATUS_OK ->
          answer <> HTTP_NOT_FOUND ->
          status = SYNC_STATUS_RETRY
          /\ context_ w = ready_context service uploader db).
Proof.
  intros DB ext service uploader db lm lc lp [host p valid]
         ancestor ap first second rest Hpresent Hfind Hpath Hkind answer.
  cbn [path origin_host] in *. subst answer. unfold_syncer.
  run_simpl; rewrite Hpresent; run_simpl; rewrite Hfind; run_simpl.
  rewrite (@missing_entries_of_path _ _ _ _ Hpath). run_simpl.
  assert (Hnot : FileKind_eqb (file_kind (synced_details ancestor))
                   FILE_KIND_FOLDER = false).
  { destruct (file_kind (synced_details ancestor));
      first [reflexivity | contradiction]. }
  rewrite Hnot. run_simpl.
  remember (DriveService.DeleteResource service (file_id ancestor)
              (etag (synced_details ancestor))) as answer eqn:Hanswer.
  clear Hanswer.
  destruct (GDataErrorCodeToSyncStatusCode ext answer) eqn:Hstatus;
    run_simpl;
    unfold HTTP_NOT_FOUND, HTTP_PRECONDITION, HTTP_CONFLICT;
    destruct (Z.eqb_spec answer 404); run_simpl;
    try (destruct (MetadataDatabase.UpdateByDeletedRemoteFile
                     (metadata_database_class ext) db (file_id ancestor))
           as [db' st] eqn:Hstore; run_simpl);
    try (destruct (Z.eqb_spec answer 412); run_simpl);
    try (destruct (Z.eqb_spec answer 409); run_simpl);
    eexists; eexists; (split; [reflexivity|]); cbn;
    (split; [reflexivity|]); (split; [reflexivity|]);
    (split; [reflexivity|]);
    (split; [try (destruct st; cbn);
             try (destruct (FilePath_eqb ap p); cbn); discriminate|]);
    intros Hok Hnf; try discriminate Hok; try contradiction;
    (split; [|reflexivity]);
    destruct (FilePath_eqb ap p); reflexivity.
Qed.

(** X14.  A local folder over a dirty tracker whose remote metadata is a
    present folder of the target's name below the same parent: the syncer
    reuses the remote folder.  It sends nothing to Drive, its only store
    write is UpdateTracker of that tracker with the remote details, and the
    task completes with that write's status; the action stays None. *)
Theorem conflict_reuses_remote_folder :
  forall (DB : Type) (ext : Externals DB) service uploader (db : DB)
         local_metadata local_change local_path url tracker parent remote,
    IsLocalFileMissing local_metadata local_change = false ->
    IsFile local_change = false ->
    MetadataDatabase.FindNearestActiveAncestor (metadata_database_class ext)
      db (origin_host url) (path url) = Some (tracker, path url) ->
    dirty tracker = true ->
    MetadataDatabase.FindTrackerByTrackerID (metadata_database_class ext)
      db (parent_tracker_id tracker) = Some parent ->
    MetadataDatabase.FindFileByFileID (metadata_database_class ext)
      db (file_id tracker) = Some remote ->
    missing (details remote) = false ->
    file_kind (details remote) = FILE_KIND_FOLDER ->
    title (details remote) = BaseName (path url) ->
    HasFileAsParent (details remote) (file_id parent) = true ->
    let stored :=
      MetadataDatabase.UpdateTracker (metadata_database_class ext) db
        (tracker_id tracker) (details remote) in
    exists w,
      Run ext (ready_context service uploader db)
          local_metadata local_change local_path url = Some (snd stored, w)
      /\ filter is_drive_call (calls w) = []
      /\ filter Call.is_store_mutation (calls w)
         = [Call.UpdateTracker (tracker_id tracker) (details remote)
              (snd stored)]
      /\ GetMetadataDatabase (context_ w) = Some (fst stored)
      /\ sync_action_ (this w) = SYNC_ACTION_NONE
      /\ used_network_ (this w) = false.
Proof.
  intros DB ext service uploader db lm lc lp [host p valid] tracker parent
         remote Hpresent Hfolder Hfind Hdirty Hparent Hremote Hthere Hkind
         Htitle Hchild stored.
  cbn [path origin_host] in *. subst stored. unfold_syncer.
  repeat (run_simpl;
          progress rewrite ?Hpresent, ?Hfind, ?missing_entries_of_same,
                           ?Hparent, ?Hdirty, ?Hfolder, ?Hremote, ?Hthere,
                           ?Hkind, ?Htitle, ?String.eqb_refl, ?Hchild).
  run_simpl.
  destruct (MetadataDatabase.UpdateTracker (metadata_database_class ext) db
              (tracker_id tracker) (details remote)) as [db' st] eqn:Hstore.
  run_simpl. rewrite FilePath_eqb_refl. run_simpl.
  eexists. split; [destruct st; reflexivity|].
  cbn. repeat split; reflexivity.
Qed.

(** X15.  A changed local file over a clean remote file, the upload
    succeeding: the upload of the existing file is the only request that
    changes the remote tree, the action is Updated, no listing is asked for,
    and the store takes the uploaded resource.  If the store then holds the
    file as a present file of the target's name below the parent, the
    tracker is updated with these details and the task completes with the
    status of that write; otherwise nothing more is written and the task
    does not complete with Ok. *)
Theorem changed_file_is_uploaded_in_place :
  forall (DB : Type) (ext : Externals DB) service uploader (db : DB)
         local_metadata local_change local_path url tracker parent
         error entry,
    IsLocalFileMissing local_metadata local_change = false ->
    IsFile local_change = true ->
    MetadataDatabase.FindNearestActiveAncestor (metadata_database_class ext)
      db (origin_host url) (path url) = Some (tracker, path url) ->
    dirty tracker = false ->
    file_kind (synced_details tracker) = FILE_KIND_FILE ->
    GetMd5Digest ext local_path <> md5 (synced_details tracker) ->
    MetadataDatabase.FindTrackerByTrackerID (metadata_database_class ext)
      db (parent_tracker_id tracker) = Some parent ->
    DriveUploader.UploadExistingFile uploader (file_id tracker) local_path
      "application/octet_stream" (etag (synced_details tracker))
    = (error, Some entry) ->
    GDataErrorCodeToSyncStatusCode ext error = SYNC_STATUS_OK ->
    is_listing_trigger
      (Call.UploadExistingFile (file_id tracker) local_path
         (etag (synced_details tracker)) error (Some entry)) = false ->
    let recorded :=
      MetadataDatabase.UpdateByFileResource (metadata_database_class ext)
        db entry in
    snd recorded = SYNC_STATUS_OK ->
    let current :=
      match MetadataDatabase.FindFileByFileID (metadata_database_class ext)
              (fst recorded) (file_id tracker) with
      | Some remote =>
          if negb (missing (details remote))
             && FileKind_eqb (file_kind (details remote)) FILE_KIND_FILE
             && String.eqb (title (details remote)) (BaseName (path url))
             && HasFileAsParent (details remote) (file_id parent)
          then Some (details remote) else None
      | None => None
      end in
    exists status w,
      Run ext (ready_context service uploader db)
          local_metadata local_change local_path url = Some (status, w)
      /\ filter Call.is_remote_mutation (calls w)
         = [Call.UploadExistingFile (file_id tracker) local_path
              (etag (synced_details tracker)) error (Some entry)]
      /\ sync_action_ (this w) = SYNC_ACTION_UPDATED
      /\ needs_remote_change_listing_ (this w) = false
      /\ match current with
         | Some remote_details =>
             let stored :=
               MetadataDatabase.UpdateTracker (metadata_database_class ext)
                 (fst recorded) (tracker_id tracker) remote_details in
             status = snd stored
             /\ GetMetadataDatabase (context_ w) = Some (fst stored)
             /\ filter Call.is_store_mutation (calls w)
                = [Call.UpdateByFileResource entry SYNC_STATUS_OK;
                   Call.UpdateTracker (tracker_id tracker) remote_details
                     (snd stored)]
         | None =>
             status <> SYNC_STATUS_OK
             /\ GetMetadataDatabase (context_ w) = Some (fst recorded)
             /\ filter Call.is_store_mutation (calls w)
                = [Call.UpdateByFileResource entry SYNC_STATUS_OK]
         end.
Proof.
  intros DB ext service uploader db lm lc lp [host p valid] tracker parent
         error entry Hpresent Hfile Hfind Hclean Hkind Hchanged Hparent
         Hupload Hok Hfresh recorded Hrecorded current.
  cbn [path origin_host] in *. subst current recorded.
  apply String.eqb_neq in Hchanged.
  cbn [is_listing_trigger] in Hfresh.
  unfold_syncer.
  repeat (run_simpl;
          progress rewrite ?Hpresent, ?Hfind, ?missing_entries_of_same,
                           ?Hparent, ?Hclean, ?Hfile, ?Hkind, ?Hchanged,
                           ?Hupload, ?Hfresh, ?Hok).
  run_simpl.
  destruct (MetadataDatabase.UpdateByFileResource (metadata_database_class ext)
              db entry) as [db1 st1] eqn:Hstore1.
  cbn [fst snd] in *. subst st1. run_simpl.
  destruct (MetadataDatabase.FindFileByFileID (metadata_database_class ext)
              db1 (file_id tracker)) as [remote|] eqn:Hremote; run_simpl.
  - destruct (negb (missing (details remote))
              && FileKind_eqb (file_kind (details remote)) FILE_KIND_FILE
              && String.eqb (title (details remote)) (BaseName p));
      run_simpl.
    + destruct (HasFileAsParent (details remote) (file_id parent)); run_simpl.
      * destruct (MetadataDatabase.UpdateTracker (metadata_database_class ext)
                    db1 (tracker_id tracker) (details remote))
          as [db2 st2] eqn:Hstore2.
        run_simpl. rewrite FilePath_eqb_refl.
        eexists; eexists. split; [reflexivity|]. cbn.
        repeat split; try reflexivity. destruct st2; reflexivity.
      * eexists; eexists. split; [reflexivity|]. cbn.
        repeat split; try reflexivity. discriminate.
    + eexists; eexists. split; [reflexivity|]. cbn.
      repeat split; try reflexivity. discriminate.
  - eexists; eexists. split; [reflexivity|]. cbn.
    repeat split; try reflexivity. discriminate.
Qed.

(** X16.  When the ancestor lookup answers with a path that is no prefix of
    the target, the run completes with Failed after the lookup alone:
    nothing is sent, nothing written, and the syncer's members stay as
    constructed. *)
Theorem ancestor_off_the_path_fails :
  forall (DB : Type) (ext : Externals DB) service uploader (db : DB)
         local_metadata local_change local_path url ancestor ancestor_path,
    IsLocalFileMissing local_metadata local_change
      && negb (IsDelete local_change) = false ->
    MetadataDatabase.FindNearestActiveAncestor (metadata_database_class ext)
      db (origin_host url) (path url) = Some (ancestor, ancestor_path) ->
    (forall rest, path url <> ancestor_path ++ rest) ->
    Run ext (ready_context service uploader db)
        local_metadata local_change local_path url
    = Some (SYNC_STATUS_FAILED,
            {| this := New local_metadata local_change local_path url;
               context_ := ready_context service uploader db;
               calls := [Call.FindNearestActiveAncestor (origin_host url)
                           (path url) (Some (ancestor, ancestor_path))] |}).
Proof.
  intros DB ext service uploader db lm lc lp [host p valid] ancestor ap
         Hnotstray Hfind Hoff.
  cbn [path origin_host] in *.
  assert (Hnone : missing_entries_of ap p = None).
  { destruct (missing_entries_of ap p) as [rest|] eqn:Hsome; [|reflexivity].
    apply missing_entries_of_sound in Hsome. destruct (Hoff rest Hsome). }
  unfold_syncer. run_simpl.
  rewrite Hnotstray. run_simpl. rewrite Hfind. run_simpl. rewrite Hnone.
  reflexivity.
Qed.

(** ** More on the engine *)
Module EngineProperties.
Import SyncEngine.

Lemma UpdateServiceState_disabled state description w :
  sync_enabled_ (this w) = false ->
  UpdateServiceState state description w = set_service_state state w.
Proof.
  intros Hoff. unfold UpdateServiceState, GetCurrentState.
  cbn [set_service_state with_this this sync_enabled_].
  rewrite Hoff. reflexivity.
Qed.

Section Delay.
Variable delay : Z.

Lemma MaybeStartFetchChanges_disabled a w :
  sync_enabled_ (this w) = false -> MaybeStartFetchChanges delay a w = w.
Proof.
  intros Hoff. unfold MaybeStartFetchChanges, GetCurrentState.
  rewrite Hoff. reflexivity.
Qed.

Lemma MaybeScheduleNextTask_disabled a w :
  sync_enabled_ (this w) = false -> MaybeScheduleNextTask delay a w = w.
Proof.
  intros Hoff. unfold MaybeScheduleNextTask, GetCurrentState.
  rewrite Hoff. reflexivity.
Qed.

Lemma quiet_refl w : sync_enabled_ (this w) = false -> quiet_step w w.
Proof. intros H. repeat split; assumption || reflexivity. Qed.

Lemma quiet_trans w1 w2 w3 :
  quiet_step w1 w2 -> quiet_step w2 w3 -> quiet_step w1 w3.
Proof.
  intros [_ [H1 H2]] [H3 [H4 H5]].
  repeat split; [assumption|congruence|congruence].
Qed.

Lemma quiet_UpdateServiceState state description w :
  sync_enabled_ (this w) = false ->
  quiet_step w (UpdateServiceState state description w).
Proof.
  intros Hoff. rewrite (UpdateServiceState_disabled state description w Hoff).
  repeat split; assumption || reflexivity.
Qed.

Lemma quiet_request r w :
  is_fetch_request r = false ->
  sync_enabled_ (this w) = false -> quiet_step w (request r w).
Proof.
  intros Hr Hoff. split; [assumption|]. split; [|reflexivity].
  unfold request. cbn [task_manager_]. rewrite filter_app. cbn [filter].
  rewrite Hr. apply app_nil_r.
Qed.

Lemma quiet_notify n w :
  is_state_notification n = false ->
  sync_enabled_ (this w) = false -> quiet_step w (notify n w).
Proof.
  intros Hn Hoff. split; [assumption|]. split; [reflexivity|].
  unfold notify. cbn [notified]. rewrite filter_app. cbn [filter].
  rewrite Hn. apply app_nil_r.
Qed.

Lemma quiet_handle e w :
  keeps_engine_quiet e = true ->
  sync_enabled_ (this w) = false -> quiet_step w (handle delay e w).
Proof.
  intros Hquiet Hoff.
  destruct e as [enabled|a|a|a status used|a|a| |a b|a origin|a syncer status
                |status]; cbn [handle keeps_engine_quiet] in *.
  - destruct enabled; [discriminate|]. unfold SetSyncEnabled.
    rewrite Hoff. now apply quiet_refl.
  - rewrite MaybeScheduleNextTask_disabled by assumption. now apply quiet_refl.
  - rewrite MaybeStartFetchChanges_disabled by assumption. now apply quiet_refl.
  - unfold NotifyLastOperationStatus.
    assert (Hstate : quiet_step w
              (UpdateServiceStateFromSyncStatusCode a status used w)).
    { unfold UpdateServiceStateFromSyncStatusCode.
      destruct status, used, (HasRefreshToken a);
        first [now apply quiet_UpdateServiceState | now apply quiet_refl]. }
    destruct (HasMetadataDatabase a); [|exact Hstate].
    eapply quiet_trans; [exact Hstate|].
    apply quiet_notify; [reflexivity|apply Hstate].
  - unfold OnNotificationReceived.
    assert (Hstate : quiet_step w
              (match service_state_ (this w) with
               | REMOTE_SERVICE_TEMPORARY_UNAVAILABLE =>
                   UpdateServiceState REMOTE_SERVICE_OK
                     "Got push notification for Drive." w
               | _ => w
               end)).
    { destruct (service_state_ (this w));
        first [now apply quiet_UpdateServiceState | now apply quiet_refl]. }
    rewrite MaybeScheduleNextTask_disabled by apply Hstate.
    eapply quiet_trans; [exact Hstate|].
    repeat split; try reflexivity. apply Hstate.
  - unfold OnReadyToSendRequests.
    destruct (service_state_ (this w)) eqn:Hstate;
      [now apply quiet_refl| | |];
      (pose proof (quiet_UpdateServiceState REMOTE_SERVICE_OK
                     "Authenticated" w Hoff) as Hup;
       destruct (negb (HasMetadataDatabase a) && HasSigninManager a);
       [ eapply quiet_trans; [exact Hup|];
         apply quiet_request; [reflexivity|exact (proj1 Hup)]
       | rewrite MaybeScheduleNextTask_disabled by apply Hup;
         eapply quiet_trans; [exact Hup|];
         repeat split; try reflexivity; apply Hup ]).
  - now apply quiet_UpdateServiceState.
  - unfold OnNetworkChanged.
    assert (Hstep : quiet_step w
              (if network_available_ (this w) && negb b
               then UpdateServiceState REMOTE_SERVICE_TEMPORARY_UNAVAILABLE
                      "Disconnected" w
               else if negb (network_available_ (this w)) && b
               then MaybeStartFetchChanges delay a
                      (set_should_check_remote_change true
                         (UpdateServiceState REMOTE_SERVICE_OK "Connected" w))
               else w)).
    { destruct (network_available_ (this w) && negb b);
        [now apply quiet_UpdateServiceState|].
      destruct (negb (network_available_ (this w)) && b);
        [|now apply quiet_refl].
      pose proof (quiet_UpdateServiceState REMOTE_SERVICE_OK "Connected" w
                    Hoff) as Hup.
      rewrite MaybeStartFetchChanges_disabled by apply Hup.
      eapply quiet_trans; [exact Hup|].
      repeat split; try reflexivity. apply Hup. }
    eapply quiet_trans; [exact Hstep|].
    repeat split; try reflexivity. apply Hstep.
  - unfold RegisterOrigin, PostInitializeTask.
    destruct (negb (HasMetadataDatabase a) && HasRefreshToken a);
      destruct (CanFinishImmediately a).
    + apply quiet_request; [reflexivity|assumption].
    + apply quiet_trans
        with (w2 := request (ScheduleSyncTask SyncEngineInitializer
                               PRIORITY_HIGH) w);
        (apply quiet_request; [reflexivity|exact Hoff]).
    + now apply quiet_refl.
    + apply quiet_request; [reflexivity|assumption].
  - apply negb_true_iff in Hquiet. unfold DidApplyLocalChange.
    rewrite Hquiet. cbn [andb].
    repeat split.
    + repeat match goal with
             | |- context [if ?c then _ else _] => destruct c
             | |- context [match ?s with SYNC_STATUS_OK => _ | _ => _ end] =>
                 destruct s
             end; cbn; try assumption;
        unfold RegisterOrigin, PostInitializeTask;
        repeat match goal with
               | |- context [if ?c then _ else _] => destruct c
               end; cbn; assumption.
    + unfold RegisterOrigin, PostInitializeTask.
      repeat match goal with
             | |- context [if ?c then _ else _] => destruct c
             | |- context [match ?s with SYNC_STATUS_OK => _ | _ => _ end] =>
                 destruct s
             end; cbn; rewrite ?filter_app; cbn; rewrite ?app_nil_r;
        reflexivity.
    + unfold RegisterOrigin, PostInitializeTask.
      repeat match goal with
             | |- context [if ?c then _ else _] => destruct c
             | |- context [match ?s with SYNC_STATUS_OK => _ | _ => _ end] =>
                 destruct s
             end; cbn; rewrite ?filter_app; cbn; rewrite ?app_nil_r;
        reflexivity.
  - unfold DidResolveConflict. destruct (is_status_ok status);
      repeat split; try reflexivity; assumption.
Qed.


Lemma quiet_handle_all events : forall w,
  forallb keeps_engine_quiet events = true ->
  sync_enabled_ (this w) = false ->
  quiet_step w (handle_all delay events w).
Proof.
  induction events as [|e events IH]; intros w Hall Hoff.
  - now apply quiet_refl.
  - cbn [forallb] in Hall. apply andb_prop in Hall. destruct Hall as [He Hall].
    pose proof (quiet_handle e w He Hoff) as Hstep.
    eapply quiet_trans; [exact Hstep|].
    apply (IH (handle delay e w) Hall). apply Hstep.
Qed.

Lemma conflict_checks_UpdateServiceState state description w :
  conflict_checks (UpdateServiceState state description w) = conflict_checks w.
Proof.
  unfold UpdateServiceState.
  destruct (RemoteServiceState_eqb _ _); reflexivity.
Qed.

Lemma conflict_checks_request r w :
  conflict_checks (request r w)
  = (conflict_checks w + if is_conflict_request r then 1 else 0)%nat.
Proof.
  unfold conflict_checks, request. cbn [task_manager_ this].
  rewrite filter_app, length_app. cbn [filter].
  destruct (is_conflict_request r); cbn [List.length]; lia.
Qed.

Lemma conflict_checks_MaybeStartFetchChanges a w :
  conflict_checks (MaybeStartFetchChanges delay a w) = conflict_checks w.
Proof.
  unfold MaybeStartFetchChanges.
  destruct (RemoteServiceState_eqb _ _); [reflexivity|].
  destruct (negb (HasMetadataDatabase a)); [reflexivity|].
  destruct (listing_remote_changes_ (this w)); [reflexivity|].
  destruct (negb (should_check_remote_change_ (this w))
            && (Now a <? time_to_check_changes_ (this w))).
  - destruct (negb (HasDirtyTracker a)) ; cbn [andb]; [|reflexivity].
    destruct (should_check_conflict_ (this w)) eqn:Hcheck; [|reflexivity].
    rewrite conflict_checks_request. unfold conflict_checks.
    cbn. rewrite Hcheck. lia.
  - destruct (TaskManagerIdle a).
    + unfold conflict_checks. cbn. rewrite filter_app, length_app. cbn. lia.
    + rewrite conflict_checks_request. cbn. lia.
Qed.

Lemma conflict_checks_MaybeScheduleNextTask a w :
  conflict_checks (MaybeScheduleNextTask delay a w) = conflict_checks w.
Proof.
  unfold MaybeScheduleNextTask.
  destruct (RemoteServiceState_eqb _ _); [reflexivity|].
  apply conflict_checks_MaybeStartFetchChanges.
Qed.

Lemma conflict_checks_RegisterOrigin a origin w :
  conflict_checks (RegisterOrigin a origin w) = conflict_checks w.
Proof.
  unfold RegisterOrigin, PostInitializeTask.
  destruct (negb (HasMetadataDatabase a) && HasRefreshToken a);
    destruct (CanFinishImmediately a);
    rewrite ?conflict_checks_request; cbn; lia.
Qed.

Lemma conflict_checks_notify n w :
  conflict_checks (notify n w) = conflict_checks w.
Proof. reflexivity. Qed.

Lemma conflict_checks_start_listing (needs : bool) (now : Z) w :
  conflict_checks
    (if needs && negb (listing_remote_changes_ (this w))
     then set_time_to_check_changes now
            (set_listing_remote_changes true
               (set_should_check_remote_change false
                  (request (ScheduleSyncTask ListChangesTask PRIORITY_HIGH)
                     w)))
     else w)
  = conflict_checks w.
Proof.
  destruct (needs && negb (listing_remote_changes_ (this w))); [|reflexivity].
  unfold conflict_checks. cbn. rewrite filter_app, length_app. cbn. lia.
Qed.

Lemma conflict_checks_handle e w :
  is_ok_completion e = false ->
  conflict_checks (handle delay e w) = conflict_checks w.
Proof.
  intros Hnot.
  destruct e as [enabled|a|a|a status used|a|a| |a b|a origin|a syncer status
                |status]; cbn [handle is_ok_completion] in *.
  - unfold SetSyncEnabled. destruct (Bool.eqb _ _); [reflexivity|].
    destruct (RemoteServiceState_eqb _ _); reflexivity.
  - apply conflict_checks_MaybeScheduleNextTask.
  - apply conflict_checks_MaybeStartFetchChanges.
  - unfold NotifyLastOperationStatus.
    assert (H : conflict_checks
                  (UpdateServiceStateFromSyncStatusCode a status used w)
                = conflict_checks w).
    { unfold UpdateServiceStateFromSyncStatusCode.
      destruct status, used, (HasRefreshToken a);
        first [apply conflict_checks_UpdateServiceState | reflexivity]. }
    destruct (HasMetadataDatabase a); [|exact H].
    rewrite <- H. reflexivity.
  - unfold OnNotificationReceived.
    rewrite conflict_checks_MaybeScheduleNextTask.
    destruct (service_state_ (this w));
      try reflexivity.
    exact (conflict_checks_UpdateServiceState REMOTE_SERVICE_OK
             "Got push notification for Drive." w).
  - unfold OnReadyToSendRequests.
    destruct (service_state_ (this w)); [reflexivity| | |];
      (destruct (negb (HasMetadataDatabase a) && HasSigninManager a);
       [ unfold PostInitializeTask; rewrite conflict_checks_request;
         cbn [is_conflict_request]; rewrite Nat.add_0_r
       | rewrite conflict_checks_MaybeScheduleNextTask ];
       exact (conflict_checks_UpdateServiceState REMOTE_SERVICE_OK
                "Authenticated" w)).
  - apply conflict_checks_UpdateServiceState.
  - unfold OnNetworkChanged.
    transitivity (conflict_checks
      (if network_available_ (this w) && negb b
       then UpdateServiceState REMOTE_SERVICE_TEMPORARY_UNAVAILABLE
              "Disconnected" w
       else if negb (network_available_ (this w)) && b
       then MaybeStartFetchChanges delay a
              (set_should_check_remote_change true
                 (UpdateServiceState REMOTE_SERVICE_OK "Connected" w))
       else w)); [reflexivity|].
    destruct (network_available_ (this w) && negb b);
      [apply conflict_checks_UpdateServiceState|].
    destruct (negb (network_available_ (this w)) && b); [|reflexivity].
    rewrite conflict_checks_MaybeStartFetchChanges.
    exact (conflict_checks_UpdateServiceState REMOTE_SERVICE_OK
             "Connected" w).
  - apply conflict_checks_RegisterOrigin.
  - unfold DidApplyLocalChange. cbv zeta.
    destruct status; try discriminate Hnot;
      cbn [is_status_ok negb andb orb]; cbv iota;
      rewrite conflict_checks_notify, conflict_checks_start_listing;
      try (destruct (is_valid (LocalToRemoteSyncer.url_ syncer));
           rewrite ?conflict_checks_RegisterOrigin);
      repeat match goal with
             | |- context [if ?c then _ else _] => destruct c
             end;
      reflexivity.
  - unfold DidResolveConflict. rewrite Hnot. reflexivity.
Qed.

Lemma MaybeStartFetchChanges_accepted a w :
  accepted_listings (MaybeStartFetchChanges delay a w)
  = S (accepted_listings w) ->
  MaybeStartFetchChanges delay a w
  = set_time_to_check_changes (Now a + delay)
      (set_listing_remote_changes true
         (set_should_check_remote_change false
            (request (ScheduleSyncTaskIfIdle ListChangesTask true) w)))
  /\ RemoteServiceState_eqb (GetCurrentState w) REMOTE_SERVICE_DISABLED
     = false.
Proof.
  unfold MaybeStartFetchChanges.
  destruct (RemoteServiceState_eqb (GetCurrentState w)
              REMOTE_SERVICE_DISABLED); [intros H; exfalso; lia|].
  destruct (negb (HasMetadataDatabase a)); [intros H; exfalso; lia|].
  destruct (listing_remote_changes_ (this w)); [intros H; exfalso; lia|].
  destruct (negb (should_check_remote_change_ (this w))
            && (Now a <? time_to_check_changes_ (this w))).
  { destruct (negb (HasDirtyTracker a) && should_check_conflict_ (this w));
      intros H; exfalso; unfold accepted_listings in H;
      cbn in H; rewrite ?filter_app, ?length_app in H; cbn in H; lia. }
  destruct (TaskManagerIdle a).
  - intros _. split; reflexivity.
  - intros H; exfalso; unfold accepted_listings in H;
      cbn in H; rewrite ?filter_app, ?length_app in H; cbn in H; lia.
Qed.

Lemma task_manager_grows e w :
  exists more, task_manager_ (handle delay e w) = task_manager_ w ++ more.
Proof.
  destruct e; cbn [handle];
    unfold SetSyncEnabled, MaybeScheduleNextTask, MaybeStartFetchChanges,
      NotifyLastOperationStatus, OnNotificationReceived,
      OnReadyToSendRequests, OnRefreshTokenInvalid, OnNetworkChanged,
      DidApplyLocalChange, DidResolveConflict, RegisterOrigin,
      MaybeScheduleNextTask, MaybeStartFetchChanges, PostInitializeTask,
      UpdateServiceStateFromSyncStatusCode, UpdateServiceState;
    cbv zeta;
    repeat match goal with
           | |- context [if ?c then _ else _] => destruct c
           | |- context [match ?s with SYNC_STATUS_OK => _ | _ => _ end] =>
               destruct s
           | |- context [match ?s with REMOTE_SERVICE_OK => _ | _ => _ end] =>
               destruct s
           | |- context [match ?s with SYNC_ACTION_NONE => _ | _ => _ end] =>
               destruct s
           end;
    cbn; eexists;
    solve [ symmetry; apply app_nil_r
          | reflexivity
          | rewrite <- ?app_assoc; reflexivity ].
Qed.

End Delay.
End EngineProperties.

Module EngineCalls.
Import SyncEngine.

Section Delay.
Variable delay : Z.

Lemma conflict_checks_DidFetchChanges status w :
  is_status_ok status = false ->
  conflict_checks (DidFetchChanges status w) = conflict_checks w.
Proof. intros Hnot. unfold DidFetchChanges. rewrite Hnot. reflexivity. Qed.

Lemma conflict_checks_DidProcessRemoteChange a syncer status w :
  is_status_ok status = false ->
  conflict_checks (DidProcessRemoteChange a syncer status w)
  = conflict_checks w.
Proof.
  intros Hnot. unfold DidProcessRemoteChange, PostInitializeTask.
  rewrite Hnot.
  destruct (is_sync_root_deletion syncer);
    rewrite EngineProperties.conflict_checks_notify; [|reflexivity].
  rewrite EngineProperties.conflict_checks_request. cbn. lia.
Qed.

Lemma conflict_checks_make_call c w :
  completes_with_ok c = false ->
  conflict_checks (make_call delay c w) = conflict_checks w.
Proof.
  destruct c as [e|status|a syncer status]; cbn [completes_with_ok make_call].
  - apply EngineProperties.conflict_checks_handle.
  - apply conflict_checks_DidFetchChanges.
  - apply conflict_checks_DidProcessRemoteChange.
Qed.

Lemma conflict_checks_make_calls cs : forall w,
  forallb (fun c => negb (completes_with_ok c)) cs = true ->
  conflict_checks (make_calls delay cs w) = conflict_checks w.
Proof.
  induction cs as [|c cs IH]; intros w Hall; [reflexivity|].
  cbn [forallb] in Hall. apply andb_prop in Hall. destruct Hall as [Hc Hall].
  apply negb_true_iff in Hc.
  unfold make_calls in *. cbn [fold_left].
  rewrite (IH _ Hall). now apply conflict_checks_make_call.
Qed.

Lemma task_manager_grows_by_call c w :
  exists more, task_manager_ (make_call delay c w) = task_manager_ w ++ more.
Proof.
  destruct c as [e|status|a syncer status]; cbn [make_call].
  - apply EngineProperties.task_manager_grows.
  - exists []. unfold DidFetchChanges.
    destruct (is_status_ok status); cbn; symmetry; apply app_nil_r.
  - unfold DidProcessRemoteChange, RegisterOrigin, PostInitializeTask.
    cbv zeta.
    repeat match goal with
           | |- context [if ?c then _ else _] => destruct c
           end;
    cbn; eexists;
    solve [ symmetry; apply app_nil_r
          | reflexivity
          | rewrite <- ?app_assoc; reflexivity ].
Qed.

Lemma conflict_requests_grow_by_calls cs : forall w,
  exists more,
    filter is_conflict_request (task_manager_ (make_calls delay cs w))
    = filter is_conflict_request (task_manager_ w) ++ more.
Proof.
  induction cs as [|c cs IH]; intros w.
  - exists []. symmetry. apply app_nil_r.
  - unfold make_calls in *. cbn [fold_left].
    destruct (IH (make_call delay c w)) as [more Hmore].
    destruct (task_manager_grows_by_call c w) as [extra Hextra].
    rewrite Hmore, Hextra, filter_app, <- app_assoc. eexists. reflexivity.
Qed.

(** *** Holding back the look for remote changes *)

Lemma keeps_refl w : keeps_waiting w w.
Proof. repeat split. Qed.

Lemma keeps_trans w1 w2 w3 :
  keeps_waiting w1 w2 -> keeps_waiting w2 w3 -> keeps_waiting w1 w3.
Proof.
  intros [A [B C]] [A' [B' C']]. repeat split; congruence.
Qed.

Lemma keeps_UpdateServiceState state description w :
  keeps_waiting w (UpdateServiceState state description w).
Proof.
  unfold UpdateServiceState.
  destruct (RemoteServiceState_eqb _ _); repeat split.
Qed.

Lemma keeps_notify n w : keeps_waiting w (notify n w).
Proof. repeat split. Qed.

Lemma keeps_request r w :
  is_listing_request r = false -> keeps_waiting w (request r w).
Proof.
  intros Hr. unfold keeps_waiting, request. cbn [this task_manager_].
  rewrite filter_app. cbn [filter]. rewrite Hr, app_nil_r. repeat split.
Qed.

Lemma keeps_set_should_check_conflict b w :
  keeps_waiting w (set_should_check_conflict b w).
Proof. repeat split. Qed.

Lemma keeps_RegisterOrigin a origin w :
  keeps_waiting w (RegisterOrigin a origin w).
Proof.
  unfold RegisterOrigin, PostInitializeTask. cbv zeta.
  repeat match goal with
         | |- keeps_waiting _ (if ?c then _ else _) => destruct c
         | |- keeps_waiting _ (request _ _) =>
             eapply keeps_trans; [|apply keeps_request; reflexivity]
         end;
    apply keeps_refl.
Qed.

Lemma keeps_UpdateServiceStateFromSyncStatusCode a status used w :
  keeps_waiting w (UpdateServiceStateFromSyncStatusCode a status used w).
Proof.
  unfold UpdateServiceStateFromSyncStatusCode.
  destruct status, used, (HasRefreshToken a);
    first [apply keeps_UpdateServiceState | apply keeps_refl].
Qed.

Lemma waits_kept t w w' :
  keeps_waiting w w' -> waits_until t w ->
  waits_until t w'
  /\ filter is_listing_request (task_manager_ w')
     = filter is_listing_request (task_manager_ w).
Proof.
  intros [A [B C]] [D E]. unfold waits_until. repeat split; congruence.
Qed.

Lemma keeps_MaybeStartFetchChanges a t w :
  waits_until t w -> (Now a <? t) = true ->
  keeps_waiting w (MaybeStartFetchChanges delay a w).
Proof.
  intros [Hflag Htime] Hsoon. unfold MaybeStartFetchChanges.
  destruct (RemoteServiceState_eqb _ _); [apply keeps_refl|].
  destruct (negb (HasMetadataDatabase a)); [apply keeps_refl|].
  destruct (listing_remote_changes_ (this w)); [apply keeps_refl|].
  rewrite Hflag, Htime, Hsoon. cbn [negb andb].
  destruct (negb (HasDirtyTracker a) && should_check_conflict_ (this w));
    [|apply keeps_refl].
  eapply keeps_trans; [apply keeps_set_should_check_conflict|].
  apply keeps_request. reflexivity.
Qed.

Lemma keeps_MaybeScheduleNextTask a t w :
  waits_until t w -> (Now a <? t) = true ->
  keeps_waiting w (MaybeScheduleNextTask delay a w).
Proof.
  intros Hwait Hsoon. unfold MaybeScheduleNextTask.
  destruct (RemoteServiceState_eqb _ _); [apply keeps_refl|].
  now apply keeps_MaybeStartFetchChanges with (t := t).
Qed.

Lemma keeps_DidApplyLocalChange a syncer status w :
  LocalToRemoteSyncer.needs_remote_change_listing_ syncer = false ->
  keeps_waiting w (DidApplyLocalChange delay a syncer status w).
Proof.
  intros Hneeds. unfold DidApplyLocalChange. cbv zeta. rewrite Hneeds.
  cbn [andb].
  repeat match goal with
         | |- keeps_waiting _ (if ?c then _ else _) => destruct c
         | |- keeps_waiting _ (notify _ _) =>
             eapply keeps_trans; [|apply keeps_notify]
         | |- keeps_waiting _ (set_should_check_conflict _ _) =>
             eapply keeps_trans; [|apply keeps_set_should_check_conflict]
         | |- keeps_waiting _ (RegisterOrigin _ _ _) =>
             eapply keeps_trans; [|apply keeps_RegisterOrigin]
         | |- keeps_waiting _ (match ?s with
                               | SYNC_STATUS_UNKNOWN_ORIGIN => _
                               | _ => _
                               end) => destruct s
         end;
    apply keeps_refl.
Qed.

Lemma keeps_DidProcessRemoteChange a syncer status w :
  keeps_waiting w (DidProcessRemoteChange a syncer status w).
Proof.
  unfold DidProcessRemoteChange, PostInitializeTask. cbv zeta.
  repeat match goal with
         | |- keeps_waiting _ (if ?c then _ else _) => destruct c
         | |- keeps_waiting _ (notify _ _) =>
             eapply keeps_trans; [|apply keeps_notify]
         | |- keeps_waiting _ (set_should_check_conflict _ _) =>
             eapply keeps_trans; [|apply keeps_set_should_check_conflict]
         | |- keeps_waiting _ (RegisterOrigin _ _ _) =>
             eapply keeps_trans; [|apply keeps_RegisterOrigin]
         | |- keeps_waiting _ (request _ _) =>
             eapply keeps_trans; [|apply keeps_request; reflexivity]
         end;
    apply keeps_refl.
Qed.

Lemma keeps_make_call t c w :
  waits_until t w ->
  asks_for_listing c = false ->
  made_before t c = true ->
  keeps_waiting w (make_call delay c w).
Proof.
  intros Hwait Hask Hsoon.
  destruct c as [e|status|a syncer status]; cbn [make_call].
  - destruct e as [enabled|a|a|a status used|a|a| |a b|a origin
                  |a syncer status|status];
      cbn [handle asks_for_listing] in *;
      unfold made_before in Hsoon; cbn [ambient_of] in Hsoon;
      try discriminate Hask.
    + unfold SetSyncEnabled. destruct (Bool.eqb _ _); [apply keeps_refl|].
      destruct (RemoteServiceState_eqb _ _); repeat split.
    + now apply keeps_MaybeScheduleNextTask with (t := t).
    + now apply keeps_MaybeStartFetchChanges with (t := t).
    + unfold NotifyLastOperationStatus.
      destruct (HasMetadataDatabase a);
        [eapply keeps_trans; [|apply keeps_notify]|];
        apply keeps_UpdateServiceStateFromSyncStatusCode.
    + apply keeps_UpdateServiceState.
    + subst b. unfold OnNetworkChanged. cbn [negb andb].
      rewrite andb_false_r.
      destruct (network_available_ (this w)); cbn [andb].
      * destruct (keeps_UpdateServiceState
                    REMOTE_SERVICE_TEMPORARY_UNAVAILABLE "Disconnected" w)
          as [A [B C]].
        repeat split; assumption.
      * repeat split.
    + apply keeps_RegisterOrigin.
    + now apply keeps_DidApplyLocalChange.
    + unfold DidResolveConflict. destruct (is_status_ok status);
        repeat split.
  - unfold DidFetchChanges. destruct (is_status_ok status); repeat split.
  - apply keeps_DidProcessRemoteChange.
Qed.

Lemma waits_make_calls t cs : forall w,
  waits_until t w ->
  forallb (fun c => negb (asks_for_listing c) && made_before t c) cs = true ->
  waits_until t (make_calls delay cs w)
  /\ filter is_listing_request (task_manager_ (make_calls delay cs w))
     = filter is_listing_request (task_manager_ w).
Proof.
  induction cs as [|c cs IH]; intros w Hwait Hall;
    [split; [exact Hwait|reflexivity]|].
  cbn [forallb] in Hall. apply andb_prop in Hall. destruct Hall as [Hc Hall].
  apply andb_prop in Hc. destruct Hc as [Hask Hsoon].
  apply negb_true_iff in Hask.
  destruct (waits_kept (keeps_make_call c Hwait Hask Hsoon) Hwait)
    as [Hwait' Hsame].
  unfold make_calls in *. cbn [fold_left].
  destruct (IH _ Hwait' Hall) as [Hwait'' Hsame'].
  split; [exact Hwait''|]. now rewrite Hsame'.
Qed.

End Delay.
End EngineCalls.

(** X17.  While sync is disabled the engine reports Disabled and an update
    of the service state is recorded without telling the observers; enabling
    sync then reports the recorded state and announces it to the observers,
    unless that state is Disabled. *)
Theorem state_recorded_while_disabled_shows_on_enable :
  forall (state : SyncEngine.RemoteServiceState) (description : string)
         (w : SyncEngine.World),
    SyncEngine.sync_enabled_ (SyncEngine.this w) = false ->
    let w1 := SyncEngine.UpdateServiceState state description w in
    SyncEngine.notified w1 = SyncEngine.notified w
    /\ SyncEngine.GetCurrentState w1 = SyncEngine.REMOTE_SERVICE_DISABLED
    /\ SyncEngine.GetCurrentState (SyncEngine.SetSyncEnabled true w1) = state
    /\ SyncEngine.notified (SyncEngine.SetSyncEnabled true w1)
       = SyncEngine.notified w
         ++ match state with
            | SyncEngine.REMOTE_SERVICE_DISABLED => []
            | _ => [SyncEngine.OnRemoteServiceStateUpdated state
                      "Sync is enabled"]
            end.
Proof.
  intros state description w Hoff. cbn zeta.
  rewrite (EngineProperties.UpdateServiceState_disabled
             state description w Hoff).
  unfold SyncEngine.SetSyncEnabled, SyncEngine.GetCurrentState.
  cbn [SyncEngine.set_service_state SyncEngine.with_this SyncEngine.this
       SyncEngine.sync_enabled_ SyncEngine.notified
       SyncEngine.set_sync_enabled SyncEngine.service_state_].
  rewrite Hoff. cbn.
  destruct state; cbn; rewrite ?app_nil_r; repeat split; reflexivity.
Qed.

(** X18.  While sync is disabled, through any sequence of calls of the
    engine that neither enables sync nor completes a local-to-remote syncer
    that asks for a listing, the engine keeps reporting Disabled, asks for
    no change listing and no conflict resolver, and announces no service
    state. *)
Theorem disabled_engine_stays_quiet :
  forall (delay : Z) (events : list SyncEngine.Event) (w : SyncEngine.World),
    SyncEngine.sync_enabled_ (SyncEngine.this w) = false ->
    forallb keeps_engine_quiet events = true ->
    let w' := handle_all delay events w in
    SyncEngine.GetCurrentState w' = SyncEngine.REMOTE_SERVICE_DISABLED
    /\ filter is_fetch_request (SyncEngine.task_manager_ w')
       = filter is_fetch_request (SyncEngine.task_manager_ w)
    /\ filter is_state_notification (SyncEngine.notified w')
       = filter is_state_notification (SyncEngine.notified w).
Proof.
  intros delay events w Hoff Hall. cbn zeta.
  destruct (EngineProperties.quiet_handle_all delay events w Hall Hoff)
    as [Hoff' [Htasks Hnotes]].
  split; [|split; assumption].
  unfold SyncEngine.GetCurrentState. rewrite Hoff'. reflexivity.
Qed.

(** X19.  Through any sequence of calls of the engine -- the calls of its
    owner, observers and task manager, and the completions of change
    listings, syncers in either direction and conflict resolvers -- in
    which no such task completes with Ok, the conflict resolver is asked
    for at most once, and not at all when should_check_conflict was clear
    at the start. *)
Theorem conflict_resolver_asked_once_between_successes :
  forall (delay : Z) (cs : list EngineCall) (w : SyncEngine.World),
    forallb (fun c => negb (completes_with_ok c)) cs = true ->
    let w' := make_calls delay cs w in
    (List.length (filter is_conflict_request (SyncEngine.task_manager_ w'))
     <= List.length (filter is_conflict_request (SyncEngine.task_manager_ w))
        + 1)%nat
    /\ (SyncEngine.should_check_conflict_ (SyncEngine.this w) = false ->
        filter is_conflict_request (SyncEngine.task_manager_ w')
        = filter is_conflict_request (SyncEngine.task_manager_ w)).
Proof.
  intros delay cs w Hall. cbn zeta.
  pose proof (EngineCalls.conflict_checks_make_calls delay cs w Hall)
    as Hsame.
  pose proof (EngineCalls.conflict_requests_grow_by_calls delay cs w)
    as [more Hmore].
  unfold conflict_checks in Hsame. rewrite Hmore in *.
  rewrite length_app in *.
  split.
  - destruct (SyncEngine.should_check_conflict_
                (SyncEngine.this (make_calls delay cs w)));
      destruct (SyncEngine.should_check_conflict_ (SyncEngine.this w)); lia.
  - intros Hclear. rewrite Hclear in Hsame.
    destruct more as [|r more]; [apply app_nil_r|].
    cbn [List.length] in Hsame.
    destruct (SyncEngine.should_check_conflict_
                (SyncEngine.this (make_calls delay cs w))); lia.
Qed.

(** X20.  After MaybeStartFetchChanges had a change listing accepted, the
    engine asks for no other change listing through any sequence of calls
    made earlier than the retry delay after it -- polls, the completion of
    the listing and of other tasks, status reports, the loss of the
    network, registrations -- as long as none of them is a push
    notification, the Drive service getting ready, the network coming up
    or the completion of a local-to-remote syncer that needs a remote
    change listing. *)
Theorem listing_is_rate_limited :
  forall (delay : Z) (a : SyncEngine.Ambient) (cs : list EngineCall)
         (w : SyncEngine.World),
    let w1 := SyncEngine.MaybeStartFetchChanges delay a w in
    SyncEngine.accepted_listings w1 = S (SyncEngine.accepted_listings w) ->
    forallb (fun c => negb (asks_for_listing c)
                      && made_before (SyncEngine.Now a + delay) c) cs
    = true ->
    let w2 := make_calls delay cs w1 in
    filter is_listing_request (SyncEngine.task_manager_ w2)
    = filter is_listing_request (SyncEngine.task_manager_ w1)
    /\ waits_until (SyncEngine.Now a + delay) w2.
Proof.
  intros delay a cs w. cbn zeta. intros Haccepted Hall.
  destruct (EngineProperties.MaybeStartFetchChanges_accepted delay a w
              Haccepted) as [Hw1 _].
  assert (Hwait : waits_until (SyncEngine.Now a + delay)
                    (SyncEngine.MaybeStartFetchChanges delay a w)).
  { rewrite Hw1. split; reflexivity. }
  destruct (EngineCalls.waits_make_calls delay cs Hwait Hall)
    as [Hwait' Hsame].
  split; assumption.
Qed.

(** X21.  A network change reported twice with the same availability changes
    the engine the first time only. *)
Theorem network_change_is_idempotent :
  forall (delay : Z) (a a' : SyncEngine.Ambient)
         (new_network_availability : bool) (w : SyncEngine.World),
    SyncEngine.OnNetworkChanged delay a' new_network_availability
      (SyncEngine.OnNetworkChanged delay a new_network_availability w)
    = SyncEngine.OnNetworkChanged delay a new_network_availability w.
Proof.
  intros delay a a' b w.
  unfold SyncEngine.OnNetworkChanged at 1.
  set (w1 := SyncEngine.OnNetworkChanged delay a b w).
  assert (Hb : SyncEngine.network_available_ (SyncEngine.this w1) = b)
    by reflexivity.
  rewrite Hb. destruct b; cbn [negb andb]; reflexivity.
Qed.

(** X22.  On every path of DidApplyLocalChange the caller's callback is run
    exactly once, with the status of the task, as the last thing the engine
    tells anyone. *)
Theorem local_change_callback_runs_once :
  forall (delay : Z) (a : SyncEngine.Ambient)
         (syncer : LocalToRemoteSyncer.Members) (status : SyncStatusCode)
         (w : SyncEngine.World),
    exists before,
      SyncEngine.notified
        (SyncEngine.DidApplyLocalChange delay a syncer status w)
      = before ++ [SyncEngine.CallbackRun status]
      /\ filter is_callback_run before
         = filter is_callback_run (SyncEngine.notified w).
Proof.
  intros delay a syncer status w.
  unfold SyncEngine.DidApplyLocalChange, SyncEngine.RegisterOrigin,
    SyncEngine.PostInitializeTask.
  cbv zeta.
  destruct status; cbn [is_status_ok negb andb orb]; cbv iota;
    repeat match goal with
           | |- context [if ?c then _ else _] => destruct c
           | |- context [match ?s with SYNC_ACTION_NONE => _ | _ => _ end] =>
               destruct s
           end;
    cbn; eexists; (split; [reflexivity|]);
    rewrite ?filter_app; cbn; rewrite ?app_nil_r; reflexivity.
Qed.

(** ** The engine and the syncer together *)




(** ** The registered applications *)
Module AppFacts.
Import SyncEngineApps.

Section Apps.
Variable base_url : string -> GURL.

Lemma UpdateRegisteredApp_appends es db tm app_id :
  UpdateRegisteredApp base_url es db tm app_id
  = tm ++ app_task base_url es db app_id.
Proof.
  unfold app_task, UpdateRegisteredApp, UninstallOrigin, EnableOrigin,
    DisableOrigin.
  destruct (negb (GetInstalledExtension es app_id)); [reflexivity|].
  destruct (FindAppRootTracker db app_id) as [kind|];
    [|symmetry; apply app_nil_r].
  destruct (IsExtensionEnabled es app_id
            && negb (TrackerKind_eqb kind TRACKER_KIND_APP_ROOT));
    [reflexivity|].
  destruct (negb (IsExtensionEnabled es app_id)
            && TrackerKind_eqb kind TRACKER_KIND_APP_ROOT);
    [reflexivity|symmetry; apply app_nil_r].
Qed.

Lemma UpdateRegisteredApps_appends es db tm :
  UpdateRegisteredApps base_url (Some es) db tm
  = tm ++ flat_map (app_task base_url es db) (GetRegisteredAppIDs db).
Proof.
  unfold UpdateRegisteredApps.
  generalize (GetRegisteredAppIDs db) as apps. intros apps. revert tm.
  induction apps as [|app_id apps IH]; intros tm; cbn [fold_left flat_map].
  - symmetry. apply app_nil_r.
  - rewrite IH, UpdateRegisteredApp_appends, <- app_assoc. reflexivity.
Qed.

Lemma app_task_agrees es db app_id :
  app_task base_url es db app_id = [] <-> app_agrees es db app_id = true.
Proof.
  unfold app_task, app_agrees, UpdateRegisteredApp, UninstallOrigin,
    EnableOrigin, DisableOrigin.
  destruct (GetInstalledExtension es app_id); cbn [negb andb app];
    [|split; discriminate].
  destruct (FindAppRootTracker db app_id) as [kind|]; [|tauto].
  destruct (IsExtensionEnabled es app_id),
    (TrackerKind_eqb kind TRACKER_KIND_APP_ROOT); cbn;
    split; intros H; try reflexivity; discriminate H.
Qed.

End Apps.
End AppFacts.

(** X24.  UpdateRegisteredApps schedules nothing exactly when the metadata
    database agrees with the extension service on every registered
    application: each is installed and, if it has a root tracker, that is an
    enabled application root exactly when the extension is enabled. *)
Theorem agreeing_apps_need_no_task :
  forall (base_url : string -> SyncEngineApps.GURL)
         (extension_service : SyncEngineApps.ExtensionServiceInterface)
         (database : SyncEngineApps.RegisteredApps)
         (task_manager_ : list SyncEngineApps.AppTask),
    SyncEngineApps.UpdateRegisteredApps base_url (Some extension_service)
      database task_manager_ = task_manager_
    <-> forallb (app_agrees extension_service database)
          (SyncEngineApps.GetRegisteredAppIDs database) = true.
Proof.
  intros base_url es db tm.
  rewrite AppFacts.UpdateRegisteredApps_appends.
  generalize (SyncEngineApps.GetRegisteredAppIDs db) as apps.
  intros apps. split.
  - intros H. rewrite <- (app_nil_r tm) in H at 2.
    apply app_inv_head in H.
    induction apps as [|app_id apps IH]; [reflexivity|].
    cbn [flat_map forallb] in *.
    apply app_eq_nil in H. destruct H as [Hhere Hrest].
    apply AppFacts.app_task_agrees in Hhere. rewrite Hhere. now apply IH.
  - intros H.
    assert (Hnone : flat_map (app_task base_url es db) apps = []).
    { induction apps as [|app_id apps IH]; [reflexivity|].
      cbn [flat_map forallb] in *. apply andb_prop in H.
      destruct H as [Hhere Hrest].
      apply (AppFacts.app_task_agrees base_url) in Hhere.
      rewrite Hhere. now apply IH. }
    rewrite Hnone. apply app_nil_r.
Qed.

(** X25.  Every task UpdateRegisteredApps schedules is for a registered
    application and is justified by the extension service: an uninstall
    (purging the remote folder) only for an extension no longer installed,
    an enable only for an installed, enabled extension whose root tracker is
    not an enabled application root, a disable only for an installed,
    disabled extension whose root tracker is one. *)
Theorem app_tasks_follow_extension_service :
  forall (base_url : string -> SyncEngineApps.GURL)
         (extension_service : SyncEngineApps.ExtensionServiceInterface)
         (database : SyncEngineApps.RegisteredApps)
         (task_manager_ : list SyncEngineApps.AppTask)
         (task : SyncEngineApps.AppTask),
    In task
      (SyncEngineApps.UpdateRegisteredApps base_url (Some extension_service)
         database task_manager_) ->
    In task task_manager_
    \/ exists app_id,
         In app_id (SyncEngineApps.GetRegisteredAppIDs database)
         /\ match task with
            | SyncEngineApps.UninstallAppTask app flag =>
                app = SyncEngineApps.host (base_url app_id)
                /\ flag = SyncEngineApps.UNINSTALL_AND_PURGE_REMOTE
                /\ SyncEngineApps.GetInstalledExtension
                     extension_service app_id = false
            | SyncEngineApps.DoEnableApp app =>
                app = SyncEngineApps.host (base_url app_id)
                /\ SyncEngineApps.GetInstalledExtension
                     extension_service app_id = true
                /\ SyncEngineApps.IsExtensionEnabled
                     extension_service app_id = true
                /\ exists kind,
                     SyncEngineApps.FindAppRootTracker database app_id
                     = Some kind
                     /\ kind <> SyncEngineApps.TRACKER_KIND_APP_ROOT
            | SyncEngineApps.DoDisableApp app =>
                app = SyncEngineApps.host (base_url app_id)
                /\ SyncEngineApps.GetInstalledExtension
                     extension_service app_id = true
                /\ SyncEngineApps.IsExtensionEnabled
                     extension_service app_id = false
                /\ SyncEngineApps.FindAppRootTracker database app_id
                   = Some SyncEngineApps.TRACKER_KIND_APP_ROOT
            end.
Proof.
  intros base_url es db tm task.
  rewrite AppFacts.UpdateRegisteredApps_appends.
  intros Hin. apply in_app_or in Hin. destruct Hin as [Hin|Hin];
    [left; exact Hin|right].
  apply in_flat_map in Hin. destruct Hin as [app_id [Happ Htask]].
  exists app_id. split; [exact Happ|].
  unfold app_task, SyncEngineApps.UpdateRegisteredApp,
    SyncEngineApps.UninstallOrigin, SyncEngineApps.EnableOrigin,
    SyncEngineApps.DisableOrigin in Htask.
  destruct (SyncEngineApps.GetInstalledExtension es app_id) eqn:Hinstalled;
    cbn [negb] in Htask.
  - destruct (SyncEngineApps.FindAppRootTracker db app_id) as [kind|] eqn:Hroot;
      [|contradiction].
    destruct (SyncEngineApps.IsExtensionEnabled es app_id) eqn:Henabled;
      destruct kind; cbn in Htask; try contradiction;
      destruct Htask as [<-|[]];
      repeat split; try reflexivity;
      eexists; (split; [reflexivity|discriminate]).
  - destruct Htask as [<-|[]]. repeat split; reflexivity.
Qed.


Module StatusMapFacts.
Import SyncEngineApps.

Lemma GURL_eqb_refl k : GURL_eqb k k = true.
Proof. unfold GURL_eqb. apply String.eqb_refl. Qed.

Lemma GURL_eqb_sym a b : GURL_eqb a b = GURL_eqb b a.
Proof. unfold GURL_eqb. apply String.eqb_sym. Qed.

Lemma GURL_eqb_trans a b c :
  GURL_eqb a b = true -> GURL_eqb b c = true -> GURL_eqb a c = true.
Proof.
  unfold GURL_eqb. intros Hab Hbc.
  apply String.eqb_eq in Hab. apply String.eqb_eq in Hbc.
  rewrite Hab, Hbc. apply String.eqb_refl.
Qed.

Lemma lookup_assign_same key key' value map :
  GURL_eqb key key' = true ->
  lookup key' (assign key value map) = Some value.
Proof.
  intros Hsame. induction map as [|[k v] rest IH]; cbn.
  - now rewrite Hsame.
  - destruct (GURL_eqb k key) eqn:Hk; cbn.
    + now rewrite Hsame.
    + destruct (GURL_eqb k key') eqn:Hk'; [|exact IH].
      rewrite (GURL_eqb_trans k key' key Hk') in Hk; [discriminate|].
      now rewrite GURL_eqb_sym.
Qed.

Lemma lookup_assign_other key key' value map :
  GURL_eqb key key' = false ->
  lookup key' (assign key value map) = lookup key' map.
Proof.
  intros Hother. induction map as [|[k v] rest IH]; cbn.
  - now rewrite Hother.
  - destruct (GURL_eqb k key) eqn:Hk; cbn.
    + rewrite Hother. destruct (GURL_eqb k key') eqn:Hk'; [|reflexivity].
      rewrite GURL_eqb_sym in Hk.
      now rewrite (GURL_eqb_trans key k key' Hk Hk') in Hother.
    + destruct (GURL_eqb k key'); [reflexivity|exact IH].
Qed.

End StatusMapFacts.

(** X27.  GetOriginStatusMap, given an extension service and a metadata
    database, leaves the entries of the origins of no registered application
    as they were, and maps the origin of a registered application to Enabled
    or Disabled as the database has the application enabled or not (the
    applications that share its origin being enabled alike). *)
Theorem origin_status_of_registered_apps :
  forall (base_url : string -> SyncEngineApps.GURL)
         (extension_service : SyncEngineApps.ExtensionServiceInterface)
         (database : SyncEngineApps.RegisteredApps)
         (status_map : SyncEngineApps.OriginStatusMap)
         (origin : SyncEngineApps.GURL),
    let reported :=
      SyncEngineApps.GetOriginStatusMap base_url (Some extension_service)
        (Some database) status_map in
    ((forall app_id,
         In app_id (SyncEngineApps.GetRegisteredAppIDs database) ->
         SyncEngineApps.GURL_eqb (base_url app_id) origin = false) ->
     SyncEngineApps.lookup origin reported
     = SyncEngineApps.lookup origin status_map)
    /\ (forall app_id,
           In app_id (SyncEngineApps.GetRegisteredAppIDs database) ->
           SyncEngineApps.GURL_eqb (base_url app_id) origin = true ->
           (forall other,
               In other (SyncEngineApps.GetRegisteredAppIDs database) ->
               SyncEngineApps.GURL_eqb (base_url other) origin = true ->
               SyncEngineApps.IsAppEnabled database other
               = SyncEngineApps.IsAppEnabled database app_id) ->
           SyncEngineApps.lookup origin reported
           = Some (if SyncEngineApps.IsAppEnabled database app_id
                   then "Enabled" else "Disabled")).
Proof.
  intros base_url es db status_map origin. cbn zeta.
  unfold SyncEngineApps.GetOriginStatusMap.
  generalize (SyncEngineApps.GetRegisteredAppIDs db) as apps.
  intros apps. revert status_map.
  induction apps as [|first apps IH] using rev_ind; intros status_map.
  - split; [reflexivity|]. intros app_id [].
  - rewrite fold_left_app. cbn [fold_left].
    destruct (IH status_map) as [IHother IHsame]. split.
    + intros Hnone. rewrite StatusMapFacts.lookup_assign_other.
      * apply IHother. intros app_id Hin. apply Hnone.
        apply in_or_app. now left.
      * apply Hnone. apply in_or_app. right. now left.
    + intros app_id Hin Horigin Halike.
      destruct (SyncEngineApps.GURL_eqb (base_url first) origin) eqn:Hlast.
      * rewrite StatusMapFacts.lookup_assign_same by exact Hlast.
        rewrite (Halike first); [reflexivity| |exact Hlast].
        apply in_or_app. right. now left.
      * rewrite StatusMapFacts.lookup_assign_other by exact Hlast.
        apply in_app_or in Hin. destruct Hin as [Hin|[<-|[]]].
        -- apply IHsame; [exact Hin|exact Horigin|].
           intros other Hother. apply Halike. apply in_or_app. now left.
        -- rewrite Horigin in Hlast. discriminate Hlast.
Qed.

(** ** The properties on concrete inputs *)

(** C10 on a stray add of [report.txt] in a registered scope. *)
Lemma stray_change_completes_untouched_witness :
  IsDelete Fixture.add_file = false
  /\ metadata_file_type Fixture.is_absent = SYNC_FILE_TYPE_UNKNOWN
  /\ Run Fixture.externals
       (ready_context Fixture.service_ok Fixture.uploader_ok Fixture.store_root)
       Fixture.is_absent Fixture.add_file
       (Fixture.local ["report.txt"]) (Fixture.url ["report.txt"])
     = Some (SYNC_STATUS_OK,
             {| this := New Fixture.is_absent Fixture.add_file
                          (Fixture.local ["report.txt"])
                          (Fixture.url ["report.txt"]);
                context_ := ready_context Fixture.service_ok
                              Fixture.uploader_ok Fixture.store_root;
                calls := [] |}).
Proof.
  split; [reflexivity|]. split; [reflexivity|].
  apply stray_change_completes_untouched; reflexivity.
Defined.

(** C8 on the delete of [docs/old.txt] below a root that has no [docs]. *)
Lemma delete_of_absent_is_noop_witness :
  IsDelete Fixture.delete_file = true
  /\ InMemory.find_nearest_active_ancestor Fixture.store_root
       "app" ["docs"; "old.txt"] = Some (Fixture.root, [])
  /\ exists w1 w2,
       Run Fixture.externals
         (ready_context Fixture.service_ok Fixture.uploader_ok
            Fixture.store_root)
         Fixture.is_absent Fixture.delete_file
         (Fixture.local ["docs"; "old.txt"]) (Fixture.url ["docs"; "old.txt"])
       = Some (SYNC_STATUS_OK, w1)
       /\ Run Fixture.externals (context_ w1)
            Fixture.is_absent Fixture.delete_file
            (Fixture.local ["docs"; "old.txt"])
            (Fixture.url ["docs"; "old.txt"])
          = Some (SYNC_STATUS_OK, w2)
       /\ filter Call.is_remote_mutation (calls w1 ++ calls w2) = []
       /\ filter Call.is_store_mutation (calls w1 ++ calls w2) = []
       /\ GetMetadataDatabase (context_ w2) = Some Fixture.store_root
       /\ sync_action_ (this w1) = SYNC_ACTION_NONE
       /\ sync_action_ (this w2) = SYNC_ACTION_NONE.
Proof.
  split; [reflexivity|]. split; [vm_compute; reflexivity|].
  apply delete_of_absent_is_noop
    with (ancestor := Fixture.root) (ancestor_path := [])
         (component := "docs") (rest := ["old.txt"]).
  - reflexivity.
  - vm_compute; reflexivity.
  - reflexivity.
Defined.

(** C1: a file [docs] added locally over the dirty remote folder [docs].
    The claim's delete is not sent: the run's only request that changes the
    remote tree is the upload. *)
Lemma dirty_folder_conflict_sends_no_delete :
  InMemory.find_nearest_active_ancestor Fixture.store_conflict "app" ["docs"]
  = Some (Fixture.docs_dirty, ["docs"])
  /\ dirty Fixture.docs_dirty = true
  /\ file_kind (synced_details Fixture.docs_dirty) = FILE_KIND_FOLDER
  /\ IsAddOrUpdate Fixture.add_file = true
  /\ IsFile Fixture.add_file = true
  /\ exists w,
       Run Fixture.externals
         (ready_context Fixture.service_ok Fixture.uploader_ok
            Fixture.store_conflict)
         Fixture.is_a_file Fixture.add_file
         (Fixture.local ["docs"]) (Fixture.url ["docs"])
       = Some (SYNC_STATUS_OK, w)
       /\ existsb Call.is_delete (calls w) = false
       /\ filter Call.is_remote_mutation (calls w)
          = [Call.UploadNewFile "root-id" ["local"; "docs"] "docs"
               "application/octet-stream" HTTP_SUCCESS
               (Some {| resource_file_id := "file-9";
                        resource_title := "docs";
                        resource_parents := ["root-id"];
                        resource_md5 := "md5-new";
                        resource_etag := "etag-new";
                        resource_is_directory := false |})].
Proof.
  split; [vm_compute; reflexivity|].
  do 4 (split; [reflexivity|]).
  eexists. split; [vm_compute; reflexivity|].
  split; vm_compute; reflexivity.
Qed.

(** C1, as amended, on the same input. *)
Lemma conflict_file_change_uploads_new_file_witness :
  IsLocalFileMissing Fixture.is_a_file Fixture.add_file = false
  /\ IsFile Fixture.add_file = true
  /\ InMemory.find_nearest_active_ancestor Fixture.store_conflict "app" ["docs"]
     = Some (Fixture.docs_dirty, ["docs"])
  /\ dirty Fixture.docs_dirty = true
  /\ InMemory.find_tracker_by_id Fixture.store_conflict 1 = Some Fixture.root
  /\ exists status w,
       Run Fixture.externals
         (ready_context Fixture.service_ok Fixture.uploader_ok
            Fixture.store_conflict)
         Fixture.is_a_file Fixture.add_file
         (Fixture.local ["docs"]) (Fixture.url ["docs"])
       = Some (status, w)
       /\ List.length (filter Call.is_remote_mutation (calls w)) = 1%nat
       /\ existsb Call.is_delete (calls w) = false
       /\ sync_action_ (this w) = SYNC_ACTION_ADDED.
Proof.
  split; [reflexivity|]. split; [reflexivity|].
  split; [vm_compute; reflexivity|]. split; [reflexivity|].
  split; [vm_compute; reflexivity|].
  destruct (@conflict_file_change_uploads_new_file
              InMemory.Store Fixture.externals
              Fixture.service_ok Fixture.uploader_ok Fixture.store_conflict
              Fixture.is_a_file Fixture.add_file
              (Fixture.local ["docs"]) (Fixture.url ["docs"])
              Fixture.docs_dirty Fixture.root)
    as [status [w [Hrun [Hcalls [Haction _]]]]];
    try (vm_compute; reflexivity).
  exists status, w. split; [exact Hrun|].
  split; [rewrite Hcalls; reflexivity|].
  split; [|exact Haction].
  assert (Hnone : forall cs,
             existsb Call.is_delete (filter Call.is_remote_mutation cs) = false ->
             existsb Call.is_delete cs = false).
  { induction cs as [|c cs IH]; [reflexivity|].
    destruct c; cbn; auto. }
  apply Hnone. rewrite Hcalls. reflexivity.
Defined.

(** C2: an update of [report.txt] whose upload the server answers with
    "precondition failed" completes with FileBusy, not Retry; a delete
    answered so completes with Ok and marks no listing. *)
Lemma stale_version_tag_completes_without_retry :
  (exists w,
      Run Fixture.externals
        (ready_context Fixture.service_stale Fixture.uploader_stale
           Fixture.store_report)
        Fixture.is_a_file Fixture.add_file
        (Fixture.local ["report.txt"]) (Fixture.url ["report.txt"])
      = Some (SYNC_STATUS_FILE_BUSY, w)
      /\ In (Call.UploadExistingFile "file-2" ["local"; "report.txt"]
               "etag-old" HTTP_PRECONDITION None) (calls w))
  /\ (exists w,
         Run Fixture.externals
           (ready_context Fixture.service_stale Fixture.uploader_stale
              Fixture.store_report)
           Fixture.is_absent Fixture.delete_file
           (Fixture.local ["report.txt"]) (Fixture.url ["report.txt"])
         = Some (SYNC_STATUS_OK, w)
         /\ In (Call.DeleteResource "file-2" "etag-old" HTTP_PRECONDITION)
               (calls w)
         /\ needs_remote_change_listing_ (this w) = false)
  /\ SYNC_STATUS_FILE_BUSY <> SYNC_STATUS_RETRY
  /\ SYNC_STATUS_OK <> SYNC_STATUS_RETRY.
Proof.
  split; [|split; [|split; discriminate]].
  - eexists. split; [vm_compute; reflexivity|]. cbn. tauto.
  - eexists. split; [vm_compute; reflexivity|]. cbn. tauto.
Qed.

(** C2, as amended, on the stale upload. *)
Lemma version_mismatch_handling_witness :
  exists status w,
    Run Fixture.externals
      (ready_context Fixture.service_stale Fixture.uploader_stale
         Fixture.store_report)
      Fixture.is_a_file Fixture.add_file
      (Fixture.local ["report.txt"]) (Fixture.url ["report.txt"])
    = Some (status, w)
    /\ In (Call.UploadExistingFile "file-2" ["local"; "report.txt"]
             "etag-old" HTTP_PRECONDITION None) (calls w)
    /\ is_version_mismatch
         (Call.UploadExistingFile "file-2" ["local"; "report.txt"]
            "etag-old" HTTP_PRECONDITION None) = true
    /\ status = SYNC_STATUS_FILE_BUSY
    /\ needs_remote_change_listing_ (this w) = true
    /\ filter Call.is_upload (calls w)
       = [Call.UploadExistingFile "file-2" ["local"; "report.txt"]
            "etag-old" HTTP_PRECONDITION None]
    /\ exists error entry,
         filter is_drive_call (calls w)
         = [Call.UploadExistingFile "file-2" ["local"; "report.txt"]
              "etag-old" HTTP_PRECONDITION None;
            Call.GetFileResource "file-2" error entry].
Proof.
  destruct (Run Fixture.externals
              (ready_context Fixture.service_stale Fixture.uploader_stale
                 Fixture.store_report)
              Fixture.is_a_file Fixture.add_file
              (Fixture.local ["report.txt"]) (Fixture.url ["report.txt"]))
    as [[status w]|] eqn:Hrun; [|vm_compute in Hrun; discriminate Hrun].
  pose proof Hrun as Hvalue. vm_compute in Hvalue.
  injection Hvalue as Hstatus Hw.
  assert (Hin : In (Call.UploadExistingFile "file-2" ["local"; "report.txt"]
                      "etag-old" HTTP_PRECONDITION None) (calls w)).
  { rewrite <- Hw. cbn. tauto. }
  exists status, w. split; [reflexivity|]. split; [exact Hin|].
  split; [reflexivity|].
  exact (@version_mismatch_handling _ _ _ _ _ _ _ _ _ _ Hrun Hin eq_refl).
Defined.



(** C4 on the creation of [docs] lost to another client's [docs]: the new
    folder is detached and the rival's tracker is the only active one of
    the slot, but NotifyTaskDone is handed Retry with a null pointer in
    place of the token. *)
Lemma creation_conflict_hands_back_no_token_witness :
  exists done w,
    RunTask Fixture.racing
      (ready_context Fixture.service_ok Fixture.uploader_ok Fixture.store_root)
      (Some TaskToken) Fixture.is_a_folder Fixture.add_folder
      (Fixture.local ["docs"]) (Fixture.url ["docs"])
    = Some (done, w)
    /\ In (Call.TryActivateTracker 1 "folder-9"
             Call.FailedAnotherActiveTracker) (calls w)
    /\ done = {| done_token := None; done_status := SYNC_STATUS_RETRY |}
    /\ filter Call.is_remote_mutation (calls w)
       = [Call.FolderCreatorRun "root-id" "docs" "folder-9" SYNC_STATUS_OK;
          Call.RemoveResourceFromDirectory "root-id" "folder-9" HTTP_SUCCESS]
    /\ (done_token done = None
        /\ exists parent name error db1 db2,
             skipn (List.length (calls w) - 3) (calls w)
             = [Call.FolderCreatorRun parent name "folder-9" SYNC_STATUS_OK;
                Call.TryActivateTracker 1 "folder-9"
                  Call.FailedAnotherActiveTracker;
                Call.RemoveResourceFromDirectory parent "folder-9" error]
             /\ filter Call.is_remote_mutation (calls w)
                = [Call.FolderCreatorRun parent name "folder-9"
                     SYNC_STATUS_OK;
                   Call.RemoveResourceFromDirectory parent "folder-9" error]
             /\ InMemory.try_activate_tracker db1 1 "folder-9"
                = MetadataDatabase.ACTIVATION_FAILED_ANOTHER_ACTIVE_TRACKER
                    db2
             /\ GetMetadataDatabase (context_ w) = Some db2
             /\ done_status done
                = (if is_status_ok (InMemory.error_to_status error)
                   then SYNC_STATUS_RETRY
                   else InMemory.error_to_status error))
    /\ option_map (fun s => map file_id (InMemory.active_in_slot s 1 "docs"))
         (GetMetadataDatabase (context_ w))
       = Some ["folder-7"].
Proof.
  destruct (RunTask Fixture.racing
              (ready_context Fixture.service_ok Fixture.uploader_ok
                 Fixture.store_root)
              (Some TaskToken) Fixture.is_a_folder Fixture.add_folder
              (Fixture.local ["docs"]) (Fixture.url ["docs"]))
    as [[done w]|] eqn:Hrun; [|vm_compute in Hrun; discriminate Hrun].
  pose proof Hrun as Hvalue. vm_compute in Hvalue.
  injection Hvalue as Hdone Hw.
  assert (Hin : In (Call.TryActivateTracker 1 "folder-9"
                      Call.FailedAnotherActiveTracker) (calls w)).
  { rewrite <- Hw. cbn. tauto. }
  exists done, w. split; [reflexivity|]. split; [exact Hin|].
  split; [symmetry; exact Hdone|].
  split; [rewrite <- Hw; reflexivity|].
  split; [exact (@creation_conflict_hands_back_no_token
                   _ _ _ _ _ _ _ _ _ _ _ Hrun Hin)|].
  rewrite <- Hw. vm_compute. reflexivity.
Defined.

(** C6: a stray add of [report.txt] in a scope that is not registered
    completes with Ok, not UnknownOrigin, and looks no tracker up. *)
Lemma stray_change_in_unknown_scope_completes_ok :
  InMemory.find_nearest_active_ancestor Fixture.store_empty
    "app" ["report.txt"] = None
  /\ Run Fixture.externals
       (ready_context Fixture.service_ok Fixture.uploader_ok
          Fixture.store_empty)
       Fixture.is_absent Fixture.add_file
       (Fixture.local ["report.txt"]) (Fixture.url ["report.txt"])
     = Some (SYNC_STATUS_OK,
             {| this := New Fixture.is_absent Fixture.add_file
                          (Fixture.local ["report.txt"])
                          (Fixture.url ["report.txt"]);
                context_ := ready_context Fixture.service_ok
                              Fixture.uploader_ok Fixture.store_empty;
                calls := [] |})
  /\ SYNC_STATUS_OK <> SYNC_STATUS_UNKNOWN_ORIGIN.
Proof.
  split; [reflexivity|]. split; [vm_compute; reflexivity|]. discriminate.
Qed.

(** C6, as amended, on the add of an existing [report.txt] in a scope that
    is not registered. *)
Lemma unknown_origin_registers_app_witness :
  IsLocalFileMissing Fixture.is_a_file Fixture.add_file
    && negb (IsDelete Fixture.add_file) = false
  /\ InMemory.find_nearest_active_ancestor Fixture.store_empty
       "app" ["report.txt"] = None
  /\ is_valid (Fixture.url ["report.txt"]) = true
  /\ SyncEngine.CanFinishImmediately Fixture.ambient = false
  /\ exists w,
       Run Fixture.externals
         (ready_context Fixture.service_ok Fixture.uploader_ok
            Fixture.store_empty)
         Fixture.is_a_file Fixture.add_file
         (Fixture.local ["report.txt"]) (Fixture.url ["report.txt"])
       = Some (SYNC_STATUS_UNKNOWN_ORIGIN, w)
       /\ SyncEngine.task_manager_
            (SyncEngine.DidApplyLocalChange 3600 Fixture.ambient (this w)
               SYNC_STATUS_UNKNOWN_ORIGIN SyncEngine.New)
          = [SyncEngine.ScheduleSyncTask (SyncEngine.RegisterAppTask "app")
               SyncEngine.PRIORITY_HIGH]
       /\ SyncEngine.notified
            (SyncEngine.DidApplyLocalChange 3600 Fixture.ambient (this w)
               SYNC_STATUS_UNKNOWN_ORIGIN SyncEngine.New)
          = [SyncEngine.CallbackRun SYNC_STATUS_UNKNOWN_ORIGIN].
Proof.
  do 4 (split; [reflexivity|]).
  destruct (@unknown_origin_registers_app
              InMemory.Store Fixture.externals
              Fixture.service_ok Fixture.uploader_ok Fixture.store_empty
              Fixture.is_a_file Fixture.add_file
              (Fixture.local ["report.txt"]) (Fixture.url ["report.txt"])
              3600 Fixture.ambient SyncEngine.New
              eq_refl eq_refl eq_refl)
    as [w [Hrun [Hcalls [Hcontext [Hengine [Hnotified Hregister]]]]]].
  exists w. split; [exact Hrun|]. split.
  - rewrite Hengine. reflexivity.
  - exact Hnotified.
Defined.

(** C7: a local folder put where the remote tree has the file
    [report.txt]; the delete of that file is answered "not found", the
    deletion is recorded, and the task completes with Retry, not Ok. *)
Lemma missing_remote_file_under_new_folder_completes_with_retry :
  exists w,
    Run Fixture.externals
      (ready_context Fixture.service_gone Fixture.uploader_ok
         Fixture.store_report)
      Fixture.is_a_folder Fixture.add_folder
      (Fixture.local ["report.txt"]) (Fixture.url ["report.txt"])
    = Some (SYNC_STATUS_RETRY, w)
    /\ In (Call.DeleteResource "file-2" "etag-old" HTTP_NOT_FOUND) (calls w)
    /\ In (Call.UpdateByDeletedRemoteFile "file-2" SYNC_STATUS_OK) (calls w)
    /\ SYNC_STATUS_RETRY <> SYNC_STATUS_OK.
Proof.
  eexists. split; [vm_compute; reflexivity|].
  split; [cbn; tauto|]. split; [cbn; tauto|]. discriminate.
Qed.

(** C7, as amended, on the local delete of [report.txt] whose remote file
    is already gone: the task completes with Ok and no tracker of the file
    is left in the store. *)
Lemma delete_not_found_is_recorded_witness :
  exists status w,
    Run Fixture.externals
      (ready_context Fixture.service_gone Fixture.uploader_ok
         Fixture.store_report)
      Fixture.is_absent Fixture.delete_file
      (Fixture.local ["report.txt"]) (Fixture.url ["report.txt"])
    = Some (status, w)
    /\ In (Call.DeleteResource "file-2" "etag-old" HTTP_NOT_FOUND) (calls w)
    /\ status = SYNC_STATUS_OK
    /\ GetMetadataDatabase (context_ w)
       = Some (fst (InMemory.update_by_deleted_remote_file
                      Fixture.store_report "file-2"))
    /\ filter Call.is_store_mutation (calls w)
       = [Call.UpdateByDeletedRemoteFile "file-2" SYNC_STATUS_OK]
    /\ option_map (fun s => InMemory.find_tracker_by_id s 2)
         (GetMetadataDatabase (context_ w)) = Some None.
Proof.
  destruct (Run Fixture.externals
              (ready_context Fixture.service_gone Fixture.uploader_ok
                 Fixture.store_report)
              Fixture.is_absent Fixture.delete_file
              (Fixture.local ["report.txt"]) (Fixture.url ["report.txt"]))
    as [[status w]|] eqn:Hrun; [|vm_compute in Hrun; discriminate Hrun].
  pose proof Hrun as Hvalue. vm_compute in Hvalue.
  injection Hvalue as Hstatus Hw.
  assert (Hin : In (Call.DeleteResource "file-2" "etag-old" HTTP_NOT_FOUND)
                   (calls w)).
  { rewrite <- Hw. cbn. tauto. }
  destruct (@delete_not_found_is_recorded _ _ _ _ _ _ _ _ _ _ _ Hrun Hin)
    as [db [Hdb [Hstore [Hwrites [_ Hresult]]]]].
  injection Hdb as <-.
  exists status, w. split; [reflexivity|]. split; [exact Hin|].
  split; [exact Hresult|]. split; [exact Hstore|]. split; [exact Hwrites|].
  rewrite Hstore. vm_compute. reflexivity.
Defined.

(** C9 on the engine after a syncer asked for a listing: the listing is in
    flight, and a second syncer asking for one has nothing more accepted. *)
Lemma at_most_one_listing_in_flight_witness :
  SyncEngine.reachable 3600 Fixture.engine_listing 0
  /\ SyncEngine.listings_in_flight Fixture.engine_listing 0 = 1%nat
  /\ SyncEngine.listing_remote_changes_
       (SyncEngine.this Fixture.engine_listing) = true
  /\ SyncEngine.task_manager_ Fixture.engine_listing
     = [SyncEngine.ScheduleSyncTask SyncEngine.ListChangesTask
          SyncEngine.PRIORITY_HIGH]
  /\ SyncEngine.accepted_listings
       (SyncEngine.DidApplyLocalChange 3600 Fixture.ambient
          Fixture.syncer_needing_listing SYNC_STATUS_FILE_BUSY
          Fixture.engine_listing)
     = SyncEngine.accepted_listings Fixture.engine_listing
  /\ SyncEngine.listings_in_flight
       (SyncEngine.DidApplyLocalChange 3600 Fixture.ambient
          Fixture.syncer_needing_listing SYNC_STATUS_FILE_BUSY
          Fixture.engine_listing) 0
     = 1%nat.
Proof.
  assert (Hreach : SyncEngine.reachable 3600 Fixture.engine_listing 0).
  { unfold Fixture.engine_listing.
    apply SyncEngine.reachable_event. apply SyncEngine.reachable_event.
    apply SyncEngine.reachable_new. }
  destruct (at_most_one_listing_in_flight Hreach)
    as [Hone [Hflag [Hkept Hsyncer]]].
  destruct (Hsyncer Fixture.ambient Fixture.syncer_needing_listing
              SYNC_STATUS_FILE_BUSY eq_refl)
    as [_ [Hflight [Hsame _]]].
  split; [exact Hreach|]. split; [reflexivity|]. split; [reflexivity|].
  split; [reflexivity|]. split; [exact (Hsame eq_refl)|]. exact Hflight.
Defined.

(** ** The further properties on concrete inputs *)

(** X2 on the stale update of [report.txt]: the listing is asked for and
    the task reports FileBusy. *)
Lemma listing_request_reported_busy_witness :
  exists status w,
    Run Fixture.externals
      (ready_context Fixture.service_stale Fixture.uploader_stale
         Fixture.store_report)
      Fixture.is_a_file Fixture.add_file
      (Fixture.local ["report.txt"]) (Fixture.url ["report.txt"])
    = Some (status, w)
    /\ needs_remote_change_listing_ (this w) = true
    /\ existsb is_listing_trigger (calls w) = true
    /\ status = SYNC_STATUS_FILE_BUSY.
Proof.
  destruct (Run Fixture.externals
              (ready_context Fixture.service_stale Fixture.uploader_stale
                 Fixture.store_report)
              Fixture.is_a_file Fixture.add_file
              (Fixture.local ["report.txt"]) (Fixture.url ["report.txt"]))
    as [[status w]|] eqn:Hrun;
    [|vm_compute in Hrun; discriminate Hrun].
  pose proof Hrun as Hvalue. vm_compute in Hvalue.
  injection Hvalue as Hstatus Hw.
  assert (Hneeds : needs_remote_change_listing_ (this w) = true)
    by (rewrite <- Hw; reflexivity).
  destruct (@listing_request_reported_busy _ _ _ _ _ _ _ _ _ Hrun)
    as [Hsame Hbusy].
  exists status, w. split; [reflexivity|]. split; [exact Hneeds|].
  split; [rewrite <- Hsame; exact Hneeds|]. exact (Hbusy Hneeds).
Defined.

(** X3 on the first upload of [report.txt]: the uploader was called and
    the flag is set. *)
Lemma network_flag_tells_drive_calls_witness :
  exists status w,
    Run Fixture.externals
      (ready_context Fixture.service_ok Fixture.uploader_ok
         Fixture.store_root)
      Fixture.is_a_file Fixture.add_file
      (Fixture.local ["report.txt"]) (Fixture.url ["report.txt"])
    = Some (status, w)
    /\ existsb is_drive_call (calls w) = true
    /\ used_network_ (this w) = true.
Proof.
  destruct (Run Fixture.externals
              (ready_context Fixture.service_ok Fixture.uploader_ok
                 Fixture.store_root)
              Fixture.is_a_file Fixture.add_file
              (Fixture.local ["report.txt"]) (Fixture.url ["report.txt"]))
    as [[status w]|] eqn:Hrun;
    [|vm_compute in Hrun; discriminate Hrun].
  pose proof Hrun as Hvalue. vm_compute in Hvalue.
  injection Hvalue as Hstatus Hw.
  assert (Hcalls : existsb is_drive_call (calls w) = true)
    by (rewrite <- Hw; reflexivity).
  exists status, w. split; [reflexivity|]. split; [exact Hcalls|].
  rewrite (@network_flag_tells_drive_calls _ _ _ _ _ _ _ _ _ Hrun).
  exact Hcalls.
Defined.

(** X4 on the local delete of [report.txt]: the first request that
    changes the remote tree is a delete, and the action is Deleted. *)
Lemma sync_action_tells_first_remote_change_witness :
  exists status w,
    Run Fixture.externals
      (ready_context Fixture.service_ok Fixture.uploader_ok
         Fixture.store_report)
      Fixture.is_absent Fixture.delete_file
      (Fixture.local ["report.txt"]) (Fixture.url ["report.txt"])
    = Some (status, w)
    /\ action_of_calls (calls w) = SYNC_ACTION_DELETED
    /\ sync_action_ (this w) = SYNC_ACTION_DELETED.
Proof.
  destruct (Run Fixture.externals
              (ready_context Fixture.service_ok Fixture.uploader_ok
                 Fixture.store_report)
              Fixture.is_absent Fixture.delete_file
              (Fixture.local ["report.txt"]) (Fixture.url ["report.txt"]))
    as [[status w]|] eqn:Hrun;
    [|vm_compute in Hrun; discriminate Hrun].
  pose proof Hrun as Hvalue. vm_compute in Hvalue.
  injection Hvalue as Hstatus Hw.
  assert (Hcalls : action_of_calls (calls w) = SYNC_ACTION_DELETED)
    by (rewrite <- Hw; reflexivity).
  exists status, w. split; [reflexivity|]. split; [exact Hcalls|].
  rewrite (@sync_action_tells_first_remote_change _ _ _ _ _ _ _ _ _ Hrun).
  exact Hcalls.
Defined.

(** X5 on the folder creation that loses a race: two requests change the
    remote tree, the creation and the detaching of the same folder. *)
Lemma remote_changes_of_one_run_witness :
  exists status w,
    Run Fixture.racing
      (ready_context Fixture.service_ok Fixture.uploader_ok
         Fixture.store_root)
      Fixture.is_a_folder Fixture.add_folder
      (Fixture.local ["docs"]) (Fixture.url ["docs"])
    = Some (status, w)
    /\ List.length (filter Call.is_remote_mutation (calls w)) = 2%nat
    /\ match filter Call.is_remote_mutation (calls w) with
       | [] | [_] => True
       | [Call.FolderCreatorRun parent _ file SYNC_STATUS_OK;
          Call.RemoveResourceFromDirectory parent' file' _] =>
           parent' = parent /\ file' = file
       | _ => False
       end.
Proof.
  destruct (Run Fixture.racing
              (ready_context Fixture.service_ok Fixture.uploader_ok
                 Fixture.store_root)
              Fixture.is_a_folder Fixture.add_folder
              (Fixture.local ["docs"]) (Fixture.url ["docs"]))
    as [[status w]|] eqn:Hrun;
    [|vm_compute in Hrun; discriminate Hrun].
  pose proof Hrun as Hvalue. vm_compute in Hvalue.
  injection Hvalue as Hstatus Hw.
  exists status, w. split; [reflexivity|].
  split; [rewrite <- Hw; reflexivity|].
  exact (@remote_changes_of_one_run _ _ _ _ _ _ _ _ _ Hrun).
Defined.

(** X6 on the first upload of [report.txt], which completes with Ok. *)
Lemma ok_only_for_the_target_witness :
  exists status w,
    Run Fixture.externals
      (ready_context Fixture.service_ok Fixture.uploader_ok
         Fixture.store_root)
      Fixture.is_a_file Fixture.add_file
      (Fixture.local ["report.txt"]) (Fixture.url ["report.txt"])
    = Some (status, w)
    /\ status = SYNC_STATUS_OK
    /\ filter Call.is_remote_mutation (calls w) <> []
    /\ target_path_ (this w) = ["report.txt"].
Proof.
  destruct (Run Fixture.externals
              (ready_context Fixture.service_ok Fixture.uploader_ok
                 Fixture.store_root)
              Fixture.is_a_file Fixture.add_file
              (Fixture.local ["report.txt"]) (Fixture.url ["report.txt"]))
    as [[status w]|] eqn:Hrun;
    [|vm_compute in Hrun; discriminate Hrun].
  pose proof Hrun as Hvalue. vm_compute in Hvalue.
  injection Hvalue as Hstatus Hw.
  assert (Hok : status = SYNC_STATUS_OK) by (symmetry; exact Hstatus).
  assert (Hsent : filter Call.is_remote_mutation (calls w) <> [])
    by (rewrite <- Hw; cbn; discriminate).
  exists status, w. split; [reflexivity|]. split; [exact Hok|].
  split; [exact Hsent|].
  exact (@ok_only_for_the_target _ _ _ _ _ _ _ _ _ Hrun Hok Hsent).
Defined.

(** X7 on the stale update of [report.txt]: the upload carried the
    version tag synced last. *)
Lemma conditional_requests_carry_synced_version_witness :
  exists status w,
    Run Fixture.externals
      (ready_context Fixture.service_stale Fixture.uploader_stale
         Fixture.store_report)
      Fixture.is_a_file Fixture.add_file
      (Fixture.local ["report.txt"]) (Fixture.url ["report.txt"])
    = Some (status, w)
    /\ In (Call.UploadExistingFile "file-2" ["local"; "report.txt"]
             "etag-old" HTTP_PRECONDITION None) (calls w)
    /\ exists tracker,
         In (Call.FindNearestActiveAncestor "app" ["report.txt"]
               (Some (tracker, ["report.txt"]))) (calls w)
         /\ "file-2" = file_id tracker
         /\ "etag-old" = etag (synced_details tracker)
         /\ ["local"; "report.txt"] = Fixture.local ["report.txt"]
         /\ dirty tracker = false
         /\ file_kind (synced_details tracker) = FILE_KIND_FILE
         /\ String.eqb
              (GetMd5Digest Fixture.externals (Fixture.local ["report.txt"]))
              (md5 (synced_details tracker)) = false.
Proof.
  destruct (Run Fixture.externals
              (ready_context Fixture.service_stale Fixture.uploader_stale
                 Fixture.store_report)
              Fixture.is_a_file Fixture.add_file
              (Fixture.local ["report.txt"]) (Fixture.url ["report.txt"]))
    as [[status w]|] eqn:Hrun;
    [|vm_compute in Hrun; discriminate Hrun].
  pose proof Hrun as Hvalue. vm_compute in Hvalue.
  injection Hvalue as Hstatus Hw.
  assert (Hin : In (Call.UploadExistingFile "file-2" ["local"; "report.txt"]
                      "etag-old" HTTP_PRECONDITION None) (calls w)).
  { rewrite <- Hw. cbn. tauto. }
  exists status, w. split; [reflexivity|]. split; [exact Hin|].
  exact (@conditional_requests_carry_synced_version
           _ _ _ _ _ _ _ _ _ _ Hrun Hin).
Defined.

(** X8 on the local delete of [report.txt] that the server carries out:
    no store write, and the task completes with Ok. *)
Lemma delete_answer_decides_outcome_witness :
  exists status w,
    Run Fixture.externals
      (ready_context Fixture.service_ok Fixture.uploader_ok
         Fixture.store_report)
      Fixture.is_absent Fixture.delete_file
      (Fixture.local ["report.txt"]) (Fixture.url ["report.txt"])
    = Some (status, w)
    /\ In (Call.DeleteResource "file-2" "etag-old" HTTP_SUCCESS) (calls w)
    /\ HTTP_SUCCESS <> HTTP_NOT_FOUND
    /\ filter Call.is_remote_mutation (calls w)
       = [Call.DeleteResource "file-2" "etag-old" HTTP_SUCCESS]
    /\ filter Call.is_store_mutation (calls w) = []
    /\ GetMetadataDatabase (context_ w) = Some Fixture.store_report
    /\ status = SYNC_STATUS_OK.
Proof.
  destruct (Run Fixture.externals
              (ready_context Fixture.service_ok Fixture.uploader_ok
                 Fixture.store_report)
              Fixture.is_absent Fixture.delete_file
              (Fixture.local ["report.txt"]) (Fixture.url ["report.txt"]))
    as [[status w]|] eqn:Hrun;
    [|vm_compute in Hrun; discriminate Hrun].
  pose proof Hrun as Hvalue. vm_compute in Hvalue.
  injection Hvalue as Hstatus Hw.
  assert (Hin : In (Call.DeleteResource "file-2" "etag-old" HTTP_SUCCESS)
                   (calls w)).
  { rewrite <- Hw. cbn. tauto. }
  assert (Hfound : HTTP_SUCCESS <> HTTP_NOT_FOUND) by discriminate.
  exists status, w. split; [reflexivity|]. split; [exact Hin|].
  split; [exact Hfound|].
  exact (@delete_answer_decides_outcome
           _ _ _ _ _ _ _ _ _ _ _ _ Hrun Hin Hfound).
Defined.

(** X9 on the update of [report.txt], whose parent the store tracks: the
    token comes back; and on the creation of [docs] that loses the race:
    a null pointer comes back. *)
Lemma run_ends_in_NotifyTaskDone_witness :
  InMemory.find_nearest_active_ancestor Fixture.store_report
    "app" ["report.txt"] = Some (Fixture.report, ["report.txt"])
  /\ InMemory.find_tracker_by_id Fixture.store_report
       (parent_tracker_id Fixture.report) = Some Fixture.root
  /\ (exists done w,
         RunTask Fixture.externals
           (ready_context Fixture.service_ok Fixture.uploader_ok
              Fixture.store_report)
           (Some TaskToken) Fixture.is_a_file Fixture.add_file
           (Fixture.local ["report.txt"]) (Fixture.url ["report.txt"])
         = Some (done, w)
         /\ done_token done
            = (if existsb is_failed_activation (calls w) then None
               else Some TaskToken))
  /\ InMemory.find_nearest_active_ancestor Fixture.store_root
       "app" ["docs"] = Some (Fixture.root, [])
  /\ (exists done w,
         RunTask Fixture.racing
           (ready_context Fixture.service_ok Fixture.uploader_ok
              Fixture.store_root)
           (Some TaskToken) Fixture.is_a_folder Fixture.add_folder
           (Fixture.local ["docs"]) (Fixture.url ["docs"])
         = Some (done, w)
         /\ done_token done
            = (if existsb is_failed_activation (calls w) then None
               else Some TaskToken)).
Proof.
  split; [vm_compute; reflexivity|]. split; [vm_compute; reflexivity|].
  split.
  - apply run_ends_in_NotifyTaskDone.
    intros tracker Hfound. vm_compute in Hfound.
    injection Hfound as <-. vm_compute. discriminate.
  - split; [vm_compute; reflexivity|].
    apply run_ends_in_NotifyTaskDone.
    intros tracker Hfound. vm_compute in Hfound. discriminate Hfound.
Defined.

(** X10 on [report.txt] whose local content hash is the synced one. *)
Lemma synced_entry_is_left_alone_witness :
  IsLocalFileMissing Fixture.is_a_file Fixture.add_file = false
  /\ InMemory.find_nearest_active_ancestor Fixture.store_report
       "app" ["report.txt"] = Some (Fixture.report, ["report.txt"])
  /\ dirty Fixture.report = false
  /\ IsFile Fixture.add_file = true
  /\ file_kind (synced_details Fixture.report) = FILE_KIND_FILE
  /\ GetMd5Digest Scenario.externals_unchanged (Fixture.local ["report.txt"])
     = md5 (synced_details Fixture.report)
  /\ exists w,
       Run Scenario.externals_unchanged
         (ready_context Fixture.service_ok Fixture.uploader_ok
            Fixture.store_report)
         Fixture.is_a_file Fixture.add_file
         (Fixture.local ["report.txt"]) (Fixture.url ["report.txt"])
       = Some (SYNC_STATUS_OK, w)
       /\ filter is_drive_call (calls w) = []
       /\ filter Call.is_store_mutation (calls w) = []
       /\ context_ w
          = ready_context Fixture.service_ok Fixture.uploader_ok
              Fixture.store_report
       /\ sync_action_ (this w) = SYNC_ACTION_NONE
       /\ used_network_ (this w) = false
       /\ needs_remote_change_listing_ (this w) = false.
Proof.
  split; [reflexivity|]. split; [vm_compute; reflexivity|].
  split; [reflexivity|]. split; [reflexivity|]. split; [reflexivity|].
  split; [reflexivity|].
  apply synced_entry_is_left_alone with (tracker := Fixture.report).
  - reflexivity.
  - vm_compute; reflexivity.
  - reflexivity.
  - cbn. split; reflexivity.
Defined.

(** X11 on the local delete of the folder [docs], whose tracker has a
    remote change pending. *)
Lemma delete_loses_to_remote_change_witness :
  IsDelete Fixture.delete_file = true
  /\ InMemory.find_nearest_active_ancestor Fixture.store_conflict
       "app" ["docs"] = Some (Fixture.docs_dirty, ["docs"])
  /\ dirty Fixture.docs_dirty = true
  /\ exists w,
       Run Fixture.externals
         (ready_context Fixture.service_ok Fixture.uploader_ok
            Fixture.store_conflict)
         Fixture.is_absent Fixture.delete_file
         (Fixture.local ["docs"]) (Fixture.url ["docs"])
       = Some (SYNC_STATUS_OK, w)
       /\ filter is_drive_call (calls w) = []
       /\ filter Call.is_store_mutation (calls w) = []
       /\ context_ w
          = ready_context Fixture.service_ok Fixture.uploader_ok
              Fixture.store_conflict
       /\ sync_action_ (this w) = SYNC_ACTION_NONE.
Proof.
  split; [reflexivity|]. split; [vm_compute; reflexivity|].
  split; [reflexivity|].
  apply delete_loses_to_remote_change with (tracker := Fixture.docs_dirty).
  - reflexivity.
  - vm_compute; reflexivity.
  - reflexivity.
Defined.

(** X12 on a local folder [report.txt] over the synced remote file of that
    name. *)
Lemma kind_mismatch_deletes_remote_witness :
  IsLocalFileMissing Fixture.is_a_folder Fixture.add_folder = false
  /\ InMemory.find_nearest_active_ancestor Fixture.store_report
       "app" ["report.txt"] = Some (Fixture.report, ["report.txt"])
  /\ dirty Fixture.report = false
  /\ IsFile Fixture.add_folder
     = negb (FileKind_eqb (file_kind (synced_details Fixture.report))
               FILE_KIND_FILE)
  /\ exists status w,
       Run Fixture.externals
         (ready_context Fixture.service_ok Fixture.uploader_ok
            Fixture.store_report)
         Fixture.is_a_folder Fixture.add_folder
         (Fixture.local ["report.txt"]) (Fixture.url ["report.txt"])
       = Some (status, w)
       /\ filter Call.is_remote_mutation (calls w)
          = [Call.DeleteResource "file-2" "etag-old" HTTP_SUCCESS]
       /\ sync_action_ (this w) = SYNC_ACTION_DELETED
       /\ status = SYNC_STATUS_RETRY.
Proof.
  split; [reflexivity|]. split; [vm_compute; reflexivity|].
  split; [reflexivity|]. split; [reflexivity|].
  destruct (@kind_mismatch_deletes_remote
              InMemory.Store Fixture.externals
              Fixture.service_ok Fixture.uploader_ok Fixture.store_report
              Fixture.is_a_folder Fixture.add_folder
              (Fixture.local ["report.txt"]) (Fixture.url ["report.txt"])
              Fixture.report)
    as [status [w [Hrun [Hcalls [Haction [_ Hretry]]]]]];
    try (vm_compute; reflexivity).
  exists status, w. split; [exact Hrun|]. split; [exact Hcalls|].
  split; [exact Haction|].
  apply Hretry; [reflexivity|discriminate].
Defined.

(** X13 on the add of [report.txt/notes/a.txt] where [report.txt] is a
    synced remote file. *)
Lemma file_in_the_way_is_deleted_witness :
  IsLocalFileMissing Fixture.is_a_file Fixture.add_file = false
  /\ InMemory.find_nearest_active_ancestor Fixture.store_report
       "app" ["report.txt"; "notes"; "a.txt"]
     = Some (Fixture.report, ["report.txt"])
  /\ file_kind (synced_details Fixture.report) <> FILE_KIND_FOLDER
  /\ exists status w,
       Run Fixture.externals
         (ready_context Fixture.service_ok Fixture.uploader_ok
            Fixture.store_report)
         Fixture.is_a_file Fixture.add_file
         (Fixture.local ["report.txt"; "notes"; "a.txt"])
         (Fixture.url ["report.txt"; "notes"; "a.txt"])
       = Some (status, w)
       /\ filter Call.is_remote_mutation (calls w)
          = [Call.DeleteResource "file-2" "etag-old" HTTP_SUCCESS]
       /\ sync_action_ (this w) = SYNC_ACTION_DELETED
       /\ target_path_ (this w) = ["report.txt"]
       /\ status = SYNC_STATUS_RETRY.
Proof.
  split; [reflexivity|]. split; [vm_compute; reflexivity|].
  split; [discriminate|].
  destruct (@file_in_the_way_is_deleted
              InMemory.Store Fixture.externals
              Fixture.service_ok Fixture.uploader_ok Fixture.store_report
              Fixture.is_a_file Fixture.add_file
              (Fixture.local ["report.txt"; "notes"; "a.txt"])
              (Fixture.url ["report.txt"; "notes"; "a.txt"])
              Fixture.report ["report.txt"] "notes" "a.txt" [])
    as [status [w [Hrun [Hcalls [Haction [Htarget [_ Hretry]]]]]]];
    try (vm_compute; reflexivity); try discriminate.
  exists status, w. split; [exact Hrun|]. split; [exact Hcalls|].
  split; [exact Haction|]. split; [exact Htarget|].
  apply Hretry; [reflexivity|discriminate].
Defined.

(** X14 on a local folder [docs] over the dirty remote folder [docs]. *)
Lemma conflict_reuses_remote_folder_witness :
  IsLocalFileMissing Fixture.is_a_folder Fixture.add_folder = false
  /\ IsFile Fixture.add_folder = false
  /\ InMemory.find_nearest_active_ancestor Fixture.store_conflict
       "app" ["docs"] = Some (Fixture.docs_dirty, ["docs"])
  /\ dirty Fixture.docs_dirty = true
  /\ InMemory.find_tracker_by_id Fixture.store_conflict 1 = Some Fixture.root
  /\ InMemory.find_file_by_id Fixture.store_conflict "folder-2"
     = Some {| metadata_file_id := "folder-2";
               details := Fixture.folder_details "root-id" "docs" |}
  /\ HasFileAsParent (Fixture.folder_details "root-id" "docs")
       (file_id Fixture.root) = true
  /\ exists w,
       Run Fixture.externals
         (ready_context Fixture.service_ok Fixture.uploader_ok
            Fixture.store_conflict)
         Fixture.is_a_folder Fixture.add_folder
         (Fixture.local ["docs"]) (Fixture.url ["docs"])
       = Some (SYNC_STATUS_OK, w)
       /\ filter is_drive_call (calls w) = []
       /\ filter Call.is_store_mutation (calls w)
          = [Call.UpdateTracker 2 (Fixture.folder_details "root-id" "docs")
               SYNC_STATUS_OK]
       /\ GetMetadataDatabase (context_ w)
          = Some (fst (InMemory.update_tracker Fixture.store_conflict 2
                         (Fixture.folder_details "root-id" "docs")))
       /\ sync_action_ (this w) = SYNC_ACTION_NONE
       /\ used_network_ (this w) = false.
Proof.
  split; [reflexivity|]. split; [reflexivity|].
  split; [vm_compute; reflexivity|]. split; [reflexivity|].
  split; [vm_compute; reflexivity|]. split; [vm_compute; reflexivity|].
  split; [vm_compute; reflexivity|].
  destruct (@conflict_reuses_remote_folder
              InMemory.Store Fixture.externals
              Fixture.service_ok Fixture.uploader_ok Fixture.store_conflict
              Fixture.is_a_folder Fixture.add_folder
              (Fixture.local ["docs"]) (Fixture.url ["docs"])
              Fixture.docs_dirty Fixture.root
              {| metadata_file_id := "folder-2";
                 details := Fixture.folder_details "root-id" "docs" |})
    as [w [Hrun [Hdrive [Hstore [Hdb [Haction Hnetwork]]]]]];
    try (vm_compute; reflexivity).
  exists w. split; [exact Hrun|]. split; [exact Hdrive|].
  split; [exact Hstore|]. split; [exact Hdb|]. split; assumption.
Defined.

(** X15 on the update of [report.txt] that succeeds: the store takes the
    uploaded resource and the tracker the remote details, and the task
    completes with Ok. *)
Lemma changed_file_is_uploaded_in_place_witness :
  IsLocalFileMissing Fixture.is_a_file Fixture.add_file = false
  /\ IsFile Fixture.add_file = true
  /\ InMemory.find_nearest_active_ancestor Fixture.store_report
       "app" ["report.txt"] = Some (Fixture.report, ["report.txt"])
  /\ dirty Fixture.report = false
  /\ file_kind (synced_details Fixture.report) = FILE_KIND_FILE
  /\ GetMd5Digest Fixture.externals (Fixture.local ["report.txt"])
     <> md5 (synced_details Fixture.report)
  /\ InMemory.find_tracker_by_id Fixture.store_report 1 = Some Fixture.root
  /\ exists status w,
       Run Fixture.externals
         (ready_context Fixture.service_ok Fixture.uploader_ok
            Fixture.store_report)
         Fixture.is_a_file Fixture.add_file
         (Fixture.local ["report.txt"]) (Fixture.url ["report.txt"])
       = Some (status, w)
       /\ List.length (filter Call.is_remote_mutation (calls w)) = 1%nat
       /\ sync_action_ (this w) = SYNC_ACTION_UPDATED
       /\ needs_remote_change_listing_ (this w) = false
       /\ status = SYNC_STATUS_OK
       /\ List.length (filter Call.is_store_mutation (calls w)) = 2%nat.
Proof.
  split; [reflexivity|]. split; [reflexivity|].
  split; [vm_compute; reflexivity|]. split; [reflexivity|].
  split; [reflexivity|]. split; [discriminate|].
  split; [vm_compute; reflexivity|].
  assert (Hfound : InMemory.find_nearest_active_ancestor Fixture.store_report
                     "app" ["report.txt"]
                   = Some (Fixture.report, ["report.txt"]))
    by (vm_compute; reflexivity).
  assert (Hchanged : GetMd5Digest Fixture.externals
                       (Fixture.local ["report.txt"])
                     <> md5 (synced_details Fixture.report))
    by discriminate.
  assert (Hparent : InMemory.find_tracker_by_id Fixture.store_report 1
                    = Some Fixture.root)
    by (vm_compute; reflexivity).
  destruct (@changed_file_is_uploaded_in_place
              InMemory.Store Fixture.externals
              Fixture.service_ok Fixture.uploader_ok Fixture.store_report
              Fixture.is_a_file Fixture.add_file
              (Fixture.local ["report.txt"]) (Fixture.url ["report.txt"])
              Fixture.report Fixture.root HTTP_SUCCESS
              {| resource_file_id := "file-9";
                 resource_title := "";
                 resource_parents := [];
                 resource_md5 := "md5-new";
                 resource_etag := "etag-new";
                 resource_is_directory := false |}
              eq_refl eq_refl Hfound eq_refl eq_refl Hchanged Hparent
              eq_refl eq_refl eq_refl eq_refl)
    as [status [w [Hrun [Hcalls [Haction [Hlisting Hstored]]]]]].
  exists status, w. split; [exact Hrun|].
  split; [rewrite Hcalls; reflexivity|]. split; [exact Haction|].
  split; [exact Hlisting|].
  cbv zeta in Hstored.
  match type of Hstored with
  | match ?current with _ => _ end =>
      let value := eval vm_compute in current in
      change current with value in Hstored
  end.
  cbv beta iota in Hstored. destruct Hstored as [Hstatus [_ Hwrites]].
  split; [exact Hstatus|]. rewrite Hwrites. reflexivity.
Defined.

(** X16 on a lookup that answers [elsewhere] for the target
    [report.txt]. *)
Lemma ancestor_off_the_path_fails_witness :
  IsLocalFileMissing Fixture.is_a_file Fixture.add_file
    && negb (IsDelete Fixture.add_file) = false
  /\ MetadataDatabase.FindNearestActiveAncestor
       (metadata_database_class Scenario.externals_off_path)
       Fixture.store_root "app" ["report.txt"]
     = Some (Fixture.root, ["elsewhere"])
  /\ (forall rest, ["report.txt"] <> ["elsewhere"] ++ rest)
  /\ Run Scenario.externals_off_path
       (ready_context Fixture.service_ok Fixture.uploader_ok
          Fixture.store_root)
       Fixture.is_a_file Fixture.add_file
       (Fixture.local ["report.txt"]) (Fixture.url ["report.txt"])
     = Some (SYNC_STATUS_FAILED,
             {| this := New Fixture.is_a_file Fixture.add_file
                          (Fixture.local ["report.txt"])
                          (Fixture.url ["report.txt"]);
                context_ := ready_context Fixture.service_ok
                              Fixture.uploader_ok Fixture.store_root;
                calls := [Call.FindNearestActiveAncestor "app" ["report.txt"]
                            (Some (Fixture.root, ["elsewhere"]))] |}).
Proof.
  split; [reflexivity|]. split; [reflexivity|].
  split; [intros rest; discriminate|].
  apply (@ancestor_off_the_path_fails
           InMemory.Store Scenario.externals_off_path
           Fixture.service_ok Fixture.uploader_ok Fixture.store_root
           Fixture.is_a_file Fixture.add_file
           (Fixture.local ["report.txt"]) (Fixture.url ["report.txt"])
           Fixture.root ["elsewhere"]).
  - reflexivity.
  - reflexivity.
  - intros rest. discriminate.
Defined.

(** X17 on the engine as constructed: the state Ok recorded while sync is
    disabled is announced when sync is enabled. *)
Lemma state_recorded_while_disabled_shows_on_enable_witness :
  SyncEngine.sync_enabled_ (SyncEngine.this SyncEngine.New) = false
  /\ SyncEngine.notified
       (SyncEngine.UpdateServiceState SyncEngine.REMOTE_SERVICE_OK
          "Authenticated" SyncEngine.New) = []
  /\ SyncEngine.notified
       (SyncEngine.SetSyncEnabled true
          (SyncEngine.UpdateServiceState SyncEngine.REMOTE_SERVICE_OK
             "Authenticated" SyncEngine.New))
     = [SyncEngine.OnRemoteServiceStateUpdated SyncEngine.REMOTE_SERVICE_OK
          "Sync is enabled"].
Proof.
  split; [reflexivity|].
  destruct (@state_recorded_while_disabled_shows_on_enable
              SyncEngine.REMOTE_SERVICE_OK "Authenticated" SyncEngine.New
              eq_refl)
    as [Hsilent [_ [_ Hshown]]].
  split; [exact Hsilent|exact Hshown].
Defined.

(** X18 on the engine as constructed, sync disabled, through a network
    change, a push notification, a poll, a failed task, the Drive service
    getting ready and a registration. *)
Lemma disabled_engine_stays_quiet_witness :
  SyncEngine.sync_enabled_ (SyncEngine.this SyncEngine.New) = false
  /\ forallb keeps_engine_quiet Scenario.busy_events = true
  /\ SyncEngine.GetCurrentState
       (handle_all 3600 Scenario.busy_events SyncEngine.New)
     = SyncEngine.REMOTE_SERVICE_DISABLED
  /\ filter is_fetch_request
       (SyncEngine.task_manager_
          (handle_all 3600 Scenario.busy_events SyncEngine.New)) = []
  /\ filter is_state_notification
       (SyncEngine.notified
          (handle_all 3600 Scenario.busy_events SyncEngine.New)) = [].
Proof.
  split; [reflexivity|]. split; [reflexivity|].
  exact (@disabled_engine_stays_quiet 3600 Scenario.busy_events
           SyncEngine.New eq_refl eq_refl).
Defined.

(** X19 on the engine after a failed listing, polled three times within
    the retry delay among tasks that fail: the conflict resolver is asked
    for once. *)
Lemma conflict_resolver_asked_once_between_successes_witness :
  forallb (fun c => negb (completes_with_ok c)) Scenario.polling_calls = true
  /\ List.length
       (filter is_conflict_request
          (SyncEngine.task_manager_ Scenario.engine_after_listing)) = 0%nat
  /\ List.length
       (filter is_conflict_request
          (SyncEngine.task_manager_
             (make_calls 3600 Scenario.polling_calls
                Scenario.engine_after_listing))) = 1%nat
  /\ (List.length
        (filter is_conflict_request
           (SyncEngine.task_manager_
              (make_calls 3600 Scenario.polling_calls
                 Scenario.engine_after_listing)))
      <= List.length
           (filter is_conflict_request
              (SyncEngine.task_manager_ Scenario.engine_after_listing))
         + 1)%nat.
Proof.
  split; [reflexivity|]. split; [reflexivity|]. split; [reflexivity|].
  exact (proj1 (@conflict_resolver_asked_once_between_successes 3600
                  Scenario.polling_calls Scenario.engine_after_listing
                  eq_refl)).
Defined.

(** X20 on the enabled engine: a listing accepted at second 1000; it
    completes, a remote change is applied, the network is lost and the
    engine is polled three times, all at second 1030: no other listing is
    asked for. *)
Lemma listing_is_rate_limited_witness :
  SyncEngine.accepted_listings
    (SyncEngine.MaybeStartFetchChanges 3600 Fixture.ambient
       Scenario.engine_enabled)
  = S (SyncEngine.accepted_listings Scenario.engine_enabled)
  /\ forallb (fun c => negb (asks_for_listing c)
                       && made_before (SyncEngine.Now Fixture.ambient + 3600)
                            c)
       Scenario.waiting_calls = true
  /\ filter is_listing_request
       (SyncEngine.task_manager_
          (make_calls 3600 Scenario.waiting_calls
             (SyncEngine.MaybeStartFetchChanges 3600 Fixture.ambient
                Scenario.engine_enabled)))
     = [SyncEngine.ScheduleSyncTaskIfIdle SyncEngine.ListChangesTask true].
Proof.
  split; [reflexivity|]. split; [reflexivity|].
  exact (proj1 (@listing_is_rate_limited 3600 Fixture.ambient
                  Scenario.waiting_calls Scenario.engine_enabled
                  eq_refl eq_refl)).
Defined.


(** X25 on the applications of the scenario: [editor] is enabled because
    the browser has it enabled and the store has it disabled. *)
Lemma app_tasks_follow_extension_service_witness :
  SyncEngineApps.UpdateRegisteredApps Scenario.base_url
    (Some Scenario.extension_service) Scenario.registered []
  = [SyncEngineApps.DoEnableApp "editor";
     SyncEngineApps.UninstallAppTask "gone"
       SyncEngineApps.UNINSTALL_AND_PURGE_REMOTE;
     SyncEngineApps.DoDisableApp "viewer"]
  /\ (In (SyncEngineApps.DoEnableApp "editor") []
      \/ exists app_id,
           In app_id (SyncEngineApps.GetRegisteredAppIDs Scenario.registered)
           /\ "editor" = SyncEngineApps.host (Scenario.base_url app_id)
           /\ SyncEngineApps.GetInstalledExtension
                Scenario.extension_service app_id = true
           /\ SyncEngineApps.IsExtensionEnabled
                Scenario.extension_service app_id = true
           /\ exists kind,
                SyncEngineApps.FindAppRootTracker Scenario.registered app_id
                = Some kind
                /\ kind <> SyncEngineApps.TRACKER_KIND_APP_ROOT).
Proof.
  split; [reflexivity|].
  apply (@app_tasks_follow_extension_service Scenario.base_url
           Scenario.extension_service Scenario.registered []
           (SyncEngineApps.DoEnableApp "editor")).
  cbn. tauto.
Defined.


(** X27 on the applications of the scenario: [viewer] is reported
    Enabled, [editor] Disabled. *)
Lemma origin_status_of_registered_apps_witness :
  In "viewer" (SyncEngineApps.GetRegisteredAppIDs Scenario.registered)
  /\ SyncEngineApps.lookup (Scenario.base_url "viewer")
       (SyncEngineApps.GetOriginStatusMap Scenario.base_url
          (Some Scenario.extension_service) (Some Scenario.registered) [])
     = Some "Enabled"
  /\ SyncEngineApps.lookup (Scenario.base_url "editor")
       (SyncEngineApps.GetOriginStatusMap Scenario.base_url
          (Some Scenario.extension_service) (Some Scenario.registered) [])
     = Some "Disabled".
Proof.
  assert (Hviewer : In "viewer"
                      (SyncEngineApps.GetRegisteredAppIDs Scenario.registered))
    by (cbn; tauto).
  assert (Heditor : In "editor"
                      (SyncEngineApps.GetRegisteredAppIDs Scenario.registered))
    by (cbn; tauto).
  assert (Halike : forall name app_id,
             SyncEngineApps.GURL_eqb (Scenario.base_url name)
               (Scenario.base_url app_id) = true ->
             forall other,
               In other
                 (SyncEngineApps.GetRegisteredAppIDs Scenario.registered) ->
               SyncEngineApps.GURL_eqb (Scenario.base_url other)
                 (Scenario.base_url app_id) = true ->
               SyncEngineApps.IsAppEnabled Scenario.registered other
               = SyncEngineApps.IsAppEnabled Scenario.registered app_id).
  { intros name app_id _ other _ Hsame. apply String.eqb_eq in Hsame.
    cbn in Hsame. now rewrite Hsame. }
  split; [exact Hviewer|]. split.
  - exact (proj2 (@origin_status_of_registered_apps Scenario.base_url
                    Scenario.extension_service Scenario.registered []
                    (Scenario.base_url "viewer"))
             "viewer" Hviewer eq_refl (Halike "viewer" "viewer" eq_refl)).
  - exact (proj2 (@origin_status_of_registered_apps Scenario.base_url
                    Scenario.extension_service Scenario.registered []
                    (Scenario.base_url "editor"))
             "editor" Heditor eq_refl (Halike "editor" "editor" eq_refl)).
Defined.
